(** * Mailing-list service: persistence layer (dal.py) and access control (api.py)

    A shallow embedding of the two source files and the properties of the
    specification that were checked against them.

    Modelling conventions.

    - A table with an integer primary key is a finite map from the key to the
      other columns ([gmap Z cols]); an ORM instance is a key together with
      its column values ([Row]).
    - A SQLAlchemy session is its unit of work: the objects added to it and
      the keys marked for deletion.  [commit] flushes exactly that.  Every
      DAO method opens a session of its own ([get_async_session] returns a
      new one on each call), and an instance belongs to the session that
      loaded it.  The getters ([get_user_by_id], ...) run in their own
      session, which is closed when they return, so the instance they hand
      back is detached: assigning to its attributes changes that Python
      object only.  [session.delete(instance)] attaches the instance to the
      deleting session and follows the [cascade="all, delete-orphan"]
      relationships of its class.
    - Exceptions are values of [exn]; code that may raise lives in the monad
      [M], which threads the database and stops at the first exception.
    - The clock ([datetime.utcnow]) and the salt drawn by the password hasher
      are explicit arguments.  HMAC-SHA256 and the bcrypt core are
      parameters of the development ([Environment]). *)

From Stdlib Require Import ZArith String.
From stdpp Require Import base option list gmap strings fin_maps.

Local Open Scope Z_scope.
Local Open Scope string_scope.

(** ** Exceptions and the database monad *)

Inductive exn :=
| IntegrityError (constraint : string)
| MultipleResultsFound
| InvalidRequestError
| JWTError (msg : string)
| ExpiredSignatureError
| ValueError (msg : string)
| HTTPException (status_code : Z) (detail : string).

#[global] Instance exn_eq_dec : EqDecision exn.
Proof. solve_decision. Defined.

(** ** What the code takes from its environment

    [foreign_keys] says whether the database engine behind [DATABASE_URL]
    enforces the declared FOREIGN KEY constraints (PostgreSQL does, SQLite
    does not unless asked to).  [users_email_first] says which of the two
    unique constraints of [users] the engine reports for a row that violates
    both: the one on the email, or the one on the username.  [SECRET_KEY] is
    the signing secret read from the process environment.
    [HS256 key (alg, claims)] is the HMAC-SHA256 signature over a token's
    header and payload, and [bcrypt salt password] the bcrypt checksum of a
    password under a salt: both are left uninterpreted, every statement
    below holds for any two functions. *)

Class Environment := {
  foreign_keys : bool;
  users_email_first : bool;
  SECRET_KEY : string;
  HS256 : string → string * gmap string Z → string;
  bcrypt : string → string → string }.

Module dal.

(** *** Models *)

Record Row (C : Type) := mkRow { id : Z; cols : C }.
Arguments mkRow {C} _ _.
Arguments id {C} _.
Arguments cols {C} _.

Record UserCols := mkUser {
  username : string;
  hashed_password : string;
  email : string;
  is_active : bool;
  is_admin : bool }.

Record MailingListCols := mkMailingList {
  ml_name : string;
  ml_user_id : Z }.

Record SubscriberCols := mkSubscriber {
  sub_email : string;
  sub_mailing_list_id : Z }.

Record TemplateCols := mkTemplate {
  tpl_name : string;
  tpl_content : string;
  tpl_user_id : Z }.

Record MailingCols := mkMailing {
  m_mailing_list_id : Z;
  m_template_id : Z;
  scheduled_at : option Z;
  sent_at : option Z;
  m_user_id : Z }.

Definition User := Row UserCols.
Definition MailingList := Row MailingListCols.
Definition Subscriber := Row SubscriberCols.
Definition Template := Row TemplateCols.
Definition Mailing := Row MailingCols.

Record DB := mkDB {
  users : gmap Z UserCols;
  mailing_lists : gmap Z MailingListCols;
  subscribers : gmap Z SubscriberCols;
  templates : gmap Z TemplateCols;
  mailings : gmap Z MailingCols }.

Definition empty_db : DB := mkDB ∅ ∅ ∅ ∅ ∅.

Inductive table := users_t | mailing_lists_t | subscribers_t | templates_t | mailings_t.

#[global] Instance table_eq_dec : EqDecision table.
Proof. solve_decision. Defined.

(** *** The monad of database code *)

Definition M (A : Type) : Type := DB → DB * (exn + A).

#[global] Instance M_ret : MRet M := λ A x db, (db, inr x).
#[global] Instance M_bind : MBind M := λ A B f m db,
  match m db with
  | (db', inl e) => (db', inl e)
  | (db', inr a) => f a db'
  end.

Definition raise {A} (e : exn) : M A := λ db, (db, inl e).
Definition query {A} (f : DB → A) : M A := λ db, (db, inr (f db)).

(** *** Python truthiness of the optional arguments *)

Definition truthy (s : option string) : bool :=
  match s with
  | Some s => negb (String.eqb s "")
  | None => false
  end.

(** *** Selecting rows *)

Definition instances {C} (m : gmap Z C) : list (Row C) :=
  (λ kv, mkRow kv.1 kv.2) <$> map_to_list m.

Definition filter_by {C} (P : C → Prop) `{!∀ c, Decision (P c)} (m : gmap Z C) : gmap Z C :=
  filter (λ kv, P kv.2) m.

Definition get {C} (m : gmap Z C) (i : Z) : option (Row C) :=
  mkRow i <$> m !! i.

Definition scalar_one_or_none {A} (rows : list A) : M (option A) :=
  match rows with
  | [] => mret None
  | [x] => mret (Some x)
  | _ => raise MultipleResultsFound
  end.

(** *** Primary keys, unique columns, foreign keys *)

Definition next_id {C} (m : gmap Z C) : Z :=
  1 + foldr Z.max 0 (map_to_list m).*1.

Definition taken {C} (P : C → Prop) `{!∀ c, Decision (P c)} (m : gmap Z C) : bool :=
  bool_decide (filter_by P m ≠ ∅).

Definition missing {C} (m : gmap Z C) (i : Z) : bool :=
  bool_decide (m !! i = None).

(** *** Sessions *)

Inductive new_object :=
| NewUser (c : UserCols)
| NewMailingList (c : MailingListCols)
| NewSubscriber (c : SubscriberCols)
| NewTemplate (c : TemplateCols)
| NewMailing (c : MailingCols).

Record Session := mkSession {
  pending : list new_object;
  deleted : list (table * Z) }.

Definition get_async_session : Session := mkSession [] [].

Definition add (o : new_object) (s : Session) : Session :=
  mkSession (pending s ++ [o]) (deleted s).

(** The delete cascades declared on the relationships:
    [User.mailing_lists], [User.templates], [User.mailings],
    [MailingList.subscribers], [MailingList.mailings], [Template.mailings],
    each with [cascade="all, delete-orphan"]. *)

Definition keys_of {C} (t : table) (m : gmap Z C) : list (table * Z) :=
  (λ kv, (t, kv.1)) <$> map_to_list m.

Definition cascade_mailing_list (db : DB) (i : Z) : list (table * Z) :=
  (mailing_lists_t, i)
  :: keys_of subscribers_t (filter_by (λ c, sub_mailing_list_id c = i) (subscribers db))
  ++ keys_of mailings_t (filter_by (λ c, m_mailing_list_id c = i) (mailings db)).

Definition cascade_template (db : DB) (i : Z) : list (table * Z) :=
  (templates_t, i)
  :: keys_of mailings_t (filter_by (λ c, m_template_id c = i) (mailings db)).

Definition cascade_user (db : DB) (i : Z) : list (table * Z) :=
  (users_t, i)
  :: ((map_to_list (filter_by (λ c, ml_user_id c = i) (mailing_lists db))).*1
        ≫= cascade_mailing_list db)
  ++ ((map_to_list (filter_by (λ c, tpl_user_id c = i) (templates db))).*1
        ≫= cascade_template db)
  ++ keys_of mailings_t (filter_by (λ c, m_user_id c = i) (mailings db)).

Definition cascade (db : DB) (k : table * Z) : list (table * Z) :=
  match k.1 with
  | users_t => cascade_user db k.2
  | mailing_lists_t => cascade_mailing_list db k.2
  | templates_t => cascade_template db k.2
  | subscribers_t | mailings_t => [k]
  end.

Definition session_delete (k : table * Z) (s : Session) : M Session :=
  λ db, (db, inr (mkSession (pending s) (deleted s ++ cascade db k))).

(** Flushing the unit of work: INSERT for each added object, under the
    declared constraints; DELETE for each key marked deleted. *)

Section flush.
Context {env : Environment}.

Definition insert (o : new_object) (db : DB) : exn + (DB * Z) :=
  match o with
  | NewUser c =>
      let by_username := taken (λ r, username r = username c) (users db) in
      let by_email := taken (λ r, email r = email c) (users db) in
      if by_username && by_email
      then inl (IntegrityError (if users_email_first then "users.email"
                                else "users.username"))
      else if by_username then inl (IntegrityError "users.username")
      else if by_email then inl (IntegrityError "users.email")
      else
        let k := next_id (users db) in
        inr (mkDB (<[k := c]> (users db)) (mailing_lists db) (subscribers db)
               (templates db) (mailings db), k)
  | NewMailingList c =>
      if foreign_keys && missing (users db) (ml_user_id c)
      then inl (IntegrityError "mailing_lists.user_id")
      else
        let k := next_id (mailing_lists db) in
        inr (mkDB (users db) (<[k := c]> (mailing_lists db)) (subscribers db)
               (templates db) (mailings db), k)
  | NewSubscriber c =>
      if taken (λ r, sub_email r = sub_email c) (subscribers db)
      then inl (IntegrityError "subscribers.email")
      else if foreign_keys && missing (mailing_lists db) (sub_mailing_list_id c)
      then inl (IntegrityError "subscribers.mailing_list_id")
      else
        let k := next_id (subscribers db) in
        inr (mkDB (users db) (mailing_lists db) (<[k := c]> (subscribers db))
               (templates db) (mailings db), k)
  | NewTemplate c =>
      if foreign_keys && missing (users db) (tpl_user_id c)
      then inl (IntegrityError "templates.user_id")
      else
        let k := next_id (templates db) in
        inr (mkDB (users db) (mailing_lists db) (subscribers db)
               (<[k := c]> (templates db)) (mailings db), k)
  | NewMailing c =>
      if foreign_keys && (missing (mailing_lists db) (m_mailing_list_id c)
                          || missing (templates db) (m_template_id c)
                          || missing (users db) (m_user_id c))
      then inl (IntegrityError "mailings")
      else
        let k := next_id (mailings db) in
        inr (mkDB (users db) (mailing_lists db) (subscribers db)
               (templates db) (<[k := c]> (mailings db)), k)
  end.

Fixpoint flush_new (os : list new_object) (db : DB) : exn + (DB * list Z) :=
  match os with
  | [] => inr (db, [])
  | o :: os =>
      match insert o db with
      | inl e => inl e
      | inr (db1, k) =>
          match flush_new os db1 with
          | inl e => inl e
          | inr (db2, ks) => inr (db2, k :: ks)
          end
      end
  end.

Definition delete_key (k : table * Z) (db : DB) : DB :=
  match k.1 with
  | users_t =>
      mkDB (delete k.2 (users db)) (mailing_lists db) (subscribers db) (templates db) (mailings db)
  | mailing_lists_t =>
      mkDB (users db) (delete k.2 (mailing_lists db)) (subscribers db) (templates db) (mailings db)
  | subscribers_t =>
      mkDB (users db) (mailing_lists db) (delete k.2 (subscribers db)) (templates db) (mailings db)
  | templates_t =>
      mkDB (users db) (mailing_lists db) (subscribers db) (delete k.2 (templates db)) (mailings db)
  | mailings_t =>
      mkDB (users db) (mailing_lists db) (subscribers db) (templates db) (delete k.2 (mailings db))
  end.

Definition flush_deleted (ks : list (table * Z)) (db : DB) : DB :=
  foldr delete_key db ks.

(** [session.commit ()] writes what the session holds: the objects added to
    it and the deletions marked in it.  A failed flush rolls the transaction
    back: the database is as before. *)
Definition commit (s : Session) : M (list Z) :=
  λ db,
    match flush_new (pending s) db with
    | inl e => (db, inl e)
    | inr (db1, ks) => (flush_deleted (deleted s) db1, inr ks)
    end.

(** [session.refresh(obj)] after the commit: the object now carries the
    primary key the insert gave it. *)
Definition refresh {C} (keys : list Z) (c : C) : M (Row C) :=
  match keys with
  | k :: _ => mret (mkRow k c)
  | [] => raise InvalidRequestError
  end.

End flush.

(** *** Attribute assignment on an instance *)

Definition set_username (v : string) (u : User) : User :=
  mkRow (id u) (mkUser v (hashed_password (cols u)) (email (cols u))
                  (is_active (cols u)) (is_admin (cols u))).
Definition set_hashed_password (v : string) (u : User) : User :=
  mkRow (id u) (mkUser (username (cols u)) v (email (cols u))
                  (is_active (cols u)) (is_admin (cols u))).
Definition set_email (v : string) (u : User) : User :=
  mkRow (id u) (mkUser (username (cols u)) (hashed_password (cols u)) v
                  (is_active (cols u)) (is_admin (cols u))).
Definition set_is_admin (v : bool) (u : User) : User :=
  mkRow (id u) (mkUser (username (cols u)) (hashed_password (cols u)) (email (cols u))
                  (is_active (cols u)) v).
Definition set_ml_name (v : string) (l : MailingList) : MailingList :=
  mkRow (id l) (mkMailingList v (ml_user_id (cols l))).
Definition set_tpl_name (v : string) (t : Template) : Template :=
  mkRow (id t) (mkTemplate v (tpl_content (cols t)) (tpl_user_id (cols t))).
Definition set_tpl_content (v : string) (t : Template) : Template :=
  mkRow (id t) (mkTemplate (tpl_name (cols t)) v (tpl_user_id (cols t))).
Definition set_sent_at (v : option Z) (m : Mailing) : Mailing :=
  mkRow (id m) (mkMailing (m_mailing_list_id (cols m)) (m_template_id (cols m))
                  (scheduled_at (cols m)) v (m_user_id (cols m))).

(** [if value: obj.attr = value] *)
Definition assign_if_truthy {A} (value : option string) (set : string → A → A) (obj : A) : A :=
  match value with
  | Some v => if truthy value then set v obj else obj
  | None => obj
  end.

(** [if value is not None: obj.attr = value] *)
Definition assign_if_not_None {A B} (value : option B) (set : B → A → A) (obj : A) : A :=
  match value with
  | Some v => set v obj
  | None => obj
  end.

(** *** The data access objects

    Each method opens its session with [get_async_session].  The creating
    methods add the new object to it, the deleting methods mark the instance
    deleted in it, and [commit] flushes both.  The updating methods assign
    to the instance that [get_..._by_id] returned: that instance was loaded
    by the getter's session, not by [session], and nothing puts it into
    [session] before the commit, so [session] has nothing to flush. *)

Section DAO.
Context {env : Environment}.

(** **** UserDAO *)

Definition create_user (username hashed_password email : string) (is_admin : bool) : M User :=
  let session := get_async_session in
  let new_user := mkUser username hashed_password email true is_admin in
  let session := add (NewUser new_user) session in
  keys ← commit session;
  refresh keys new_user.

Definition get_user_by_username (name : string) : M (option User) :=
  rows ← query (λ db, instances (filter_by (λ c, username c = name) (users db)));
  scalar_one_or_none rows.

Definition get_user_by_email (addr : string) : M (option User) :=
  rows ← query (λ db, instances (filter_by (λ c, email c = addr) (users db)));
  scalar_one_or_none rows.

Definition get_user_by_id (user_id : Z) : M (option User) :=
  query (λ db, get (users db) user_id).

Definition update_user (user_id : Z) (username hashed_password email : option string)
    (is_admin : option bool) : M (option User) :=
  let session := get_async_session in
  user ← get_user_by_id user_id;
  match user with
  | Some user =>
      let user := assign_if_truthy username set_username user in
      let user := assign_if_truthy hashed_password set_hashed_password user in
      let user := assign_if_truthy email set_email user in
      let user := assign_if_not_None is_admin set_is_admin user in
      _ ← commit session;
      mret (Some user)
  | None => mret None
  end.

Definition get_all_users : M (list User) :=
  query (λ db, instances (users db)).

Definition delete_user (user_id : Z) : M bool :=
  let session := get_async_session in
  user ← get_user_by_id user_id;
  match user with
  | Some user =>
      session ← session_delete (users_t, id user) session;
      _ ← commit session;
      mret true
  | None => mret false
  end.

(** **** MailingListDAO *)

Definition create_mailing_list (name : string) (user_id : Z) : M MailingList :=
  let session := get_async_session in
  let new_mailing_list := mkMailingList name user_id in
  let session := add (NewMailingList new_mailing_list) session in
  keys ← commit session;
  refresh keys new_mailing_list.

Definition get_mailing_list_by_id (mailing_list_id : Z) : M (option MailingList) :=
  query (λ db, get (mailing_lists db) mailing_list_id).

Definition get_mailing_lists_by_user_id (user_id : Z) : M (list MailingList) :=
  query (λ db, instances (filter_by (λ c, ml_user_id c = user_id) (mailing_lists db))).

Definition update_mailing_list (mailing_list_id : Z) (name : option string)
    : M (option MailingList) :=
  let session := get_async_session in
  mailing_list ← get_mailing_list_by_id mailing_list_id;
  match mailing_list, name with
  | Some mailing_list, Some new_name =>
      if truthy name then
        let mailing_list := set_ml_name new_name mailing_list in
        _ ← commit session;
        mret (Some mailing_list)
      else mret None
  | _, _ => mret None
  end.

Definition delete_mailing_list (mailing_list_id : Z) : M bool :=
  let session := get_async_session in
  mailing_list ← get_mailing_list_by_id mailing_list_id;
  match mailing_list with
  | Some mailing_list =>
      session ← session_delete (mailing_lists_t, id mailing_list) session;
      _ ← commit session;
      mret true
  | None => mret false
  end.

(** **** SubscriberDAO *)

Definition create_subscriber (email : string) (mailing_list_id : Z) : M Subscriber :=
  let session := get_async_session in
  let new_subscriber := mkSubscriber email mailing_list_id in
  let session := add (NewSubscriber new_subscriber) session in
  keys ← commit session;
  refresh keys new_subscriber.

Definition get_subscriber_by_email (email : string) (mailing_list_id : Z)
    : M (option Subscriber) :=
  rows ← query (λ db, instances
            (filter_by (λ c, sub_email c = email ∧ sub_mailing_list_id c = mailing_list_id)
               (subscribers db)));
  scalar_one_or_none rows.

Definition get_subscribers_by_mailing_list_id (mailing_list_id : Z) : M (list Subscriber) :=
  query (λ db, instances
           (filter_by (λ c, sub_mailing_list_id c = mailing_list_id) (subscribers db))).

Definition get_subscriber_by_id (subscriber_id : Z) : M (option Subscriber) :=
  query (λ db, get (subscribers db) subscriber_id).

Definition delete_subscriber (subscriber_id : Z) : M bool :=
  let session := get_async_session in
  subscriber ← get_subscriber_by_id subscriber_id;
  match subscriber with
  | Some subscriber =>
      session ← session_delete (subscribers_t, id subscriber) session;
      _ ← commit session;
      mret true
  | None => mret false
  end.

(** **** TemplateDAO *)

Definition create_template (name content : string) (user_id : Z) : M Template :=
  let session := get_async_session in
  let new_template := mkTemplate name content user_id in
  let session := add (NewTemplate new_template) session in
  keys ← commit session;
  refresh keys new_template.

Definition get_template_by_id (template_id : Z) : M (option Template) :=
  query (λ db, get (templates db) template_id).

Definition get_templates_by_user_id (user_id : Z) : M (list Template) :=
  query (λ db, instances (filter_by (λ c, tpl_user_id c = user_id) (templates db))).

Definition update_template (template_id : Z) (name content : option string)
    : M (option Template) :=
  let session := get_async_session in
  template ← get_template_by_id template_id;
  match template with
  | Some template =>
      let template := assign_if_truthy name set_tpl_name template in
      let template := assign_if_truthy content set_tpl_content template in
      _ ← commit session;
      mret (Some template)
  | None => mret None
  end.

Definition delete_template (template_id : Z) : M bool :=
  let session := get_async_session in
  template ← get_template_by_id template_id;
  match template with
  | Some template =>
      session ← session_delete (templates_t, id template) session;
      _ ← commit session;
      mret true
  | None => mret false
  end.

(** **** MailingDAO *)

Definition create_mailing (mailing_list_id template_id : Z) (scheduled_at : Z) (user_id : Z)
    : M Mailing :=
  let session := get_async_session in
  let new_mailing := mkMailing mailing_list_id template_id (Some scheduled_at) None user_id in
  let session := add (NewMailing new_mailing) session in
  keys ← commit session;
  refresh keys new_mailing.

Definition get_mailing_by_id (mailing_id : Z) : M (option Mailing) :=
  query (λ db, get (mailings db) mailing_id).

Definition update_mailing (mailing_id : Z) (sent_at : Z) : M (option Mailing) :=
  let session := get_async_session in
  mailing ← get_mailing_by_id mailing_id;
  match mailing with
  | Some mailing =>
      let mailing := set_sent_at (Some sent_at) mailing in
      _ ← commit session;
      mret (Some mailing)
  | None => mret None
  end.

Definition get_mailings_by_user_id (user_id : Z) : M (list Mailing) :=
  query (λ db, instances (filter_by (λ c, m_user_id c = user_id) (mailings db))).

Definition get_all_mailings : M (list Mailing) :=
  query (λ db, instances (mailings db)).

(** *** The states the persistence operations can reach

    A call of any of the methods that write, with its arguments; the states
    reachable from the empty database are those a sequence of such calls
    leaves behind (a call that raises leaves the database as it was). *)

Inductive call :=
| call_create_user (username hashed_password email : string) (is_admin : bool)
| call_update_user (user_id : Z) (username hashed_password email : option string)
    (is_admin : option bool)
| call_delete_user (user_id : Z)
| call_create_mailing_list (name : string) (user_id : Z)
| call_update_mailing_list (mailing_list_id : Z) (name : option string)
| call_delete_mailing_list (mailing_list_id : Z)
| call_create_subscriber (email : string) (mailing_list_id : Z)
| call_delete_subscriber (subscriber_id : Z)
| call_create_template (name content : string) (user_id : Z)
| call_update_template (template_id : Z) (name content : option string)
| call_delete_template (template_id : Z)
| call_create_mailing (mailing_list_id template_id scheduled_at user_id : Z)
| call_update_mailing (mailing_id sent_at : Z).

Definition perform (c : call) (db : DB) : DB :=
  match c with
  | call_create_user a b c d => (create_user a b c d db).1
  | call_update_user i a b c d => (update_user i a b c d db).1
  | call_delete_user i => (delete_user i db).1
  | call_create_mailing_list a u => (create_mailing_list a u db).1
  | call_update_mailing_list i a => (update_mailing_list i a db).1
  | call_delete_mailing_list i => (delete_mailing_list i db).1
  | call_create_subscriber a l => (create_subscriber a l db).1
  | call_delete_subscriber i => (delete_subscriber i db).1
  | call_create_template a b u => (create_template a b u db).1
  | call_update_template i a b => (update_template i a b db).1
  | call_delete_template i => (delete_template i db).1
  | call_create_mailing l t at_ u => (create_mailing l t at_ u db).1
  | call_update_mailing i at_ => (update_mailing i at_ db).1
  end.

Inductive reachable : DB → Prop :=
| reachable_empty : reachable empty_db
| reachable_perform db c : reachable db → reachable (perform c db).

(** Every foreign key of every row points at a row that exists. *)
Definition references_ok (db : DB) : Prop :=
  (∀ k c, mailing_lists db !! k = Some c → is_Some (users db !! ml_user_id c))
  ∧ (∀ k c, subscribers db !! k = Some c →
       is_Some (mailing_lists db !! sub_mailing_list_id c))
  ∧ (∀ k c, templates db !! k = Some c → is_Some (users db !! tpl_user_id c))
  ∧ (∀ k c, mailings db !! k = Some c →
       is_Some (mailing_lists db !! m_mailing_list_id c)
       ∧ is_Some (templates db !! m_template_id c)
       ∧ is_Some (users db !! m_user_id c)).

Definition unique_subscriber_emails (db : DB) : Prop :=
  ∀ i j s1 s2,
    subscribers db !! i = Some s1 → subscribers db !! j = Some s2 →
    sub_email s1 = sub_email s2 → i = j.

End DAO.

End dal.

Module api.

(** *** Request models *)

Record UserCreate := mkUserCreate {
  username : string;
  password : string;
  email : string;
  is_admin : bool }.

Record MailingListCreate := mkMailingListCreate { name : string }.

Record SubscriberCreate := mkSubscriberCreate {
  sc_email : string;
  sc_mailing_list_id : Z }.

Record TemplateCreate := mkTemplateCreate {
  tc_name : string;
  tc_content : string }.

(** *** Bearer tokens

    A token string either is a compact JWS, which splits into the header's
    algorithm, the payload and the signature, or it is not.  The claims of
    the payload are integers, as those the service signs.  Time is counted
    in whole seconds, the unit of the [exp] claim: both [jwt.encode] and
    [jwt.decode] drop the fraction of [datetime.utcnow ()].

    [jwt.decode] is called with its default options and with no audience,
    issuer, subject or access token.  After the signature it validates the
    registered claims a token carries, in this order: [iat] (an integer,
    which it is), [nbf], [exp], [aud] (refused: no audience is expected, and
    an integer is not one), [iss] (not compared), [sub] and [jti] (refused:
    not strings), [at_hash] (refused: no access token to compare with). *)

Inductive token :=
| Malformed (s : string)
| JWS (alg : string) (claims : gmap string Z) (signature : string).

Definition ALGORITHM : string := "HS256".
Definition ACCESS_TOKEN_EXPIRE_MINUTES : Z := 30.

(** [timedelta ( minutes=... )], in seconds *)
Definition timedelta (minutes : Z) : Z := minutes * 60.

Section tokens.
Context {env : Environment}.

Definition jwt_encode (claims : gmap string Z) (key : string) (algorithm : string) : token :=
  JWS algorithm claims (HS256 key (algorithm, claims)).

Definition validate_nbf (now : Z) (claims : gmap string Z) : option exn :=
  match claims !! "nbf" with
  | Some nbf => if (now <? nbf)%Z then Some (JWTError "The token is not yet valid (nbf)")
                else None
  | None => None
  end.

Definition validate_exp (now : Z) (claims : gmap string Z) : option exn :=
  match claims !! "exp" with
  | Some exp => if (exp <? now)%Z then Some ExpiredSignatureError else None
  | None => None
  end.

(** A claim that is refused whenever it is there *)
Definition refuse (claim msg : string) (claims : gmap string Z) : option exn :=
  match claims !! claim with
  | Some _ => Some (JWTError msg)
  | None => None
  end.

Definition validate_claims (now : Z) (claims : gmap string Z) : option exn :=
  match validate_nbf now claims with
  | Some e => Some e
  | None =>
  match validate_exp now claims with
  | Some e => Some e
  | None =>
  match refuse "aud" "Invalid claim format in token" claims with
  | Some e => Some e
  | None =>
  match refuse "sub" "Subject must be a string." claims with
  | Some e => Some e
  | None =>
  match refuse "jti" "JWT ID must be a string." claims with
  | Some e => Some e
  | None =>
      refuse "at_hash" "No access_token provided to compare against at_hash claim."
        claims
  end end end end end.

Definition jwt_decode (now : Z) (t : token) (key : string) (algorithms : list string)
    : exn + gmap string Z :=
  match t with
  | Malformed _ => inl (JWTError "Not enough segments")
  | JWS alg claims signature =>
      if negb (bool_decide (alg ∈ algorithms))
      then inl (JWTError "The specified alg value is not allowed")
      else if negb (String.eqb signature (HS256 key (alg, claims)))
      then inl (JWTError "Signature verification failed.")
      else
        match validate_claims now claims with
        | Some e => inl e
        | None => inr claims
        end
  end.

Definition create_access_token (now : Z) (data : gmap string Z) (expires_delta : Z) : token :=
  let to_encode := data in
  let expire := now + expires_delta in
  let to_encode := <["exp" := expire]> to_encode in
  let encoded_jwt := jwt_encode to_encode SECRET_KEY ALGORITHM in
  encoded_jwt.

Definition default_expires_delta : Z := timedelta ACCESS_TOKEN_EXPIRE_MINUTES.

Definition verify_token (now : Z) (t : token) : option (gmap string Z) :=
  match jwt_decode now t SECRET_KEY [ALGORITHM] with
  | inr payload => Some payload
  | inl _ => None
  end.

End tokens.

(** *** Passwords

    [pwd_context] is passlib's bcrypt scheme.  A digest is the string
    [$2b$12$] followed by the 22 characters of the salt and the checksum of
    the password under that salt; [verify] reads the salt back from the
    digest and compares checksums.  The salt that [hash] draws at random is
    an argument here.

    Not every string is a password: [hash] and [verify] raise
    [PasswordSizeError] for one of more than 4096 characters, and bcrypt
    raises [NullPasswordError] for one with a NUL character in it.  Both
    are subclasses of [ValueError]; [verify] identifies the digest first
    and looks at the password after that. *)

Definition bcrypt_ident : string := "$2b$12$".

Definition MAX_PASSWORD_SIZE : nat := 4096.

Fixpoint has_NUL (s : string) : bool :=
  match s with
  | EmptyString => false
  | String a s => Ascii.eqb a Ascii.zero || has_NUL s
  end.

(** The exception a password is refused with, if it is *)
Definition validate_secret (secret : string) : option exn :=
  if (MAX_PASSWORD_SIZE <? String.length secret)%nat
  then Some (ValueError "password exceeds maximum allowed size")
  else if has_NUL secret
  then Some (ValueError "bcrypt does not allow NUL bytes in password")
  else None.

(** The digest of a salt and a checksum *)
Definition to_string (salt checksum : string) : string :=
  bcrypt_ident ++ salt ++ checksum.

Definition parse_hash (h : string) : option (string * string) :=
  if String.prefix bcrypt_ident h && (29 <=? String.length h)%nat
  then Some (String.substring 7 22 h, String.substring 29 (String.length h - 29) h)
  else None.

Section passwords.
Context {env : Environment}.

Definition pwd_context_hash (salt password : string) : exn + string :=
  match validate_secret password with
  | Some e => inl e
  | None => inr (to_string salt (bcrypt salt password))
  end.

Definition pwd_context_verify (password hashed : string) : exn + bool :=
  match parse_hash hashed with
  | Some (salt, checksum) =>
      match validate_secret password with
      | Some e => inl e
      | None => inr (String.eqb (bcrypt salt password) checksum)
      end
  | None => inl (ValueError "hash could not be identified")
  end.

Definition get_hashed_password (salt password : string) : exn + string :=
  pwd_context_hash salt password.

Definition verify_password (password hashed_password : string) : exn + bool :=
  pwd_context_verify password hashed_password.

End passwords.

(** *** Dependencies and endpoints *)

Section endpoints.
Context {env : Environment}.

Local Abbreviation M := dal.M.
Local Abbreviation raise := dal.raise.

(** [OAuth2PasswordBearer ( tokenUrl="token" )]: the bearer credentials of
    the request, if it has any. *)
Definition oauth2_scheme (authorization : option token) : M token :=
  match authorization with
  | Some t => mret t
  | None => raise (HTTPException 401 "Not authenticated")
  end.

Definition get_current_user (now : Z) (t : token) : M dal.User :=
  let payload := verify_token now t in
  match payload with
  | None => raise (HTTPException 401 "Invalid token")
  | Some payload =>
      let user_id := payload !! "user_id" in
      match user_id with
      | None => raise (HTTPException 401 "Invalid token")
      | Some user_id =>
          user ← dal.get_user_by_id user_id;
          match user with
          | None => raise (HTTPException 401 "Invalid user")
          | Some user => mret user
          end
      end
  end.

Definition get_current_admin (current_user : dal.User) : M dal.User :=
  if negb (dal.is_admin (dal.cols current_user))
  then raise (HTTPException 403 "You must be an admin")
  else mret current_user.

(** [Depends ( get_current_user )] and [Depends ( get_current_admin )] as
    the framework resolves them for a request. *)
Definition current_user_of (now : Z) (authorization : option token) : M dal.User :=
  t ← oauth2_scheme authorization;
  get_current_user now t.

Definition current_admin_of (now : Z) (authorization : option token) : M dal.User :=
  current_user ← current_user_of now authorization;
  get_current_admin current_user.

(** **** Authentication *)

Definition login_for_access_token (now : Z) (form_username form_password : string) : M token :=
  user ← dal.get_user_by_username form_username;
  match user with
  | None => raise (HTTPException 401 "Invalid username or password")
  | Some user =>
      match verify_password form_password (dal.hashed_password (dal.cols user)) with
      | inl e => raise e
      | inr false => raise (HTTPException 401 "Invalid username or password")
      | inr true =>
          let access_token :=
            create_access_token now {["user_id" := dal.id user]} default_expires_delta in
          mret access_token
      end
  end.

(** **** Users *)

Definition create_new_user (salt : string) (user : UserCreate) : M dal.User :=
  match get_hashed_password salt (password user) with
  | inl e => raise e
  | inr hashed_password =>
      dal.create_user (username user) hashed_password (email user) (is_admin user)
  end.

Definition read_current_user (current_user : dal.User) : M dal.User :=
  mret current_user.

Definition update_user (salt : string) (user_id : Z) (user : UserCreate)
    (current_admin : dal.User) : M dal.User :=
  match get_hashed_password salt (password user) with
  | inl e => raise e
  | inr hashed_password =>
      update_user ← dal.update_user user_id (Some (username user)) (Some hashed_password)
                       (Some (email user)) (Some (is_admin user));
      match update_user with
      | None => raise (HTTPException 404 "User not found")
      | Some update_user => mret update_user
      end
  end.

Definition read_all_users (current_admin : dal.User) : M (list dal.User) :=
  dal.get_all_users.

Definition delete_user (user_id : Z) (current_admin : dal.User) : M unit :=
  deleted ← dal.delete_user user_id;
  if negb deleted then raise (HTTPException 404 "User not found") else mret ().

(** **** Mailing lists *)

Definition create_new_mailing_list (mailing_list : MailingListCreate)
    (current_user : dal.User) : M dal.MailingList :=
  dal.create_mailing_list (name mailing_list) (dal.id current_user).

Definition read_all_mailing_lists (current_user : dal.User) : M (list dal.MailingList) :=
  dal.get_mailing_lists_by_user_id (dal.id current_user).

Definition read_mailing_list (mailing_list_id : Z) (current_user : dal.User)
    : M dal.MailingList :=
  mailing_list ← dal.get_mailing_list_by_id mailing_list_id;
  match mailing_list with
  | None => raise (HTTPException 404 "Mailing list not found")
  | Some mailing_list =>
      if bool_decide (dal.ml_user_id (dal.cols mailing_list) ≠ dal.id current_user)
      then raise (HTTPException 404 "Mailing list not found")
      else mret mailing_list
  end.

Definition update_mailing_list (mailing_list_id : Z) (mailing_list : MailingListCreate)
    (current_user : dal.User) : M dal.MailingList :=
  mailing_list_update ←
    dal.update_mailing_list mailing_list_id (Some (name mailing_list));
  match mailing_list_update with
  | None => raise (HTTPException 404 "Mailing list not found")
  | Some mailing_list_update =>
      if bool_decide (dal.ml_user_id (dal.cols mailing_list_update) ≠ dal.id current_user)
      then raise (HTTPException 404 "Mailing list not found")
      else mret mailing_list_update
  end.

Definition delete_mailing_list (mailing_list_id : Z) (current_user : dal.User) : M unit :=
  mailing_list ← dal.get_mailing_list_by_id mailing_list_id;
  match mailing_list with
  | None => raise (HTTPException 404 "Mailing list not found")
  | Some mailing_list =>
      if bool_decide (dal.ml_user_id (dal.cols mailing_list) ≠ dal.id current_user)
      then raise (HTTPException 404 "Mailing list not found")
      else
        deleted ← dal.delete_mailing_list mailing_list_id;
        if negb deleted then raise (HTTPException 404 "Mailing list not found")
        else mret ()
  end.

(** **** Subscribers *)

Definition create_new_subscriber (subscriber : SubscriberCreate) (current_user : dal.User)
    : M dal.Subscriber :=
  mailing_list ← dal.get_mailing_list_by_id (sc_mailing_list_id subscriber);
  match mailing_list with
  | None => raise (HTTPException 404 "Mailing list not found")
  | Some mailing_list =>
      if bool_decide (dal.ml_user_id (dal.cols mailing_list) ≠ dal.id current_user)
      then raise (HTTPException 404 "Mailing list not found")
      else dal.create_subscriber (sc_email subscriber) (sc_mailing_list_id subscriber)
  end.

Definition read_all_subscribers (mailing_list_id : Z) (current_user : dal.User)
    : M (list dal.Subscriber) :=
  mailing_list ← dal.get_mailing_list_by_id mailing_list_id;
  match mailing_list with
  | None => raise (HTTPException 404 "Mailing list not found")
  | Some mailing_list =>
      if bool_decide (dal.ml_user_id (dal.cols mailing_list) ≠ dal.id current_user)
      then raise (HTTPException 404 "Mailing list not found")
      else dal.get_subscribers_by_mailing_list_id mailing_list_id
  end.

Definition delete_subscriber (subscriber_id : Z) (current_user : dal.User) : M unit :=
  subscriber ← dal.get_subscriber_by_id subscriber_id;
  match subscriber with
  | None => raise (HTTPException 404 "Subscriber not found")
  | Some subscriber =>
      mailing_list ←
        dal.get_mailing_list_by_id (dal.sub_mailing_list_id (dal.cols subscriber));
      match mailing_list with
      | None => raise (HTTPException 404 "Mailing list not found")
      | Some mailing_list =>
          if bool_decide (dal.ml_user_id (dal.cols mailing_list) ≠ dal.id current_user)
          then raise (HTTPException 404 "Mailing list not found")
          else
            deleted ← dal.delete_subscriber subscriber_id;
            if negb deleted then raise (HTTPException 404 "Subscriber not found")
            else mret ()
      end
  end.

(** **** Templates *)

Definition create_new_template (template : TemplateCreate) (current_user : dal.User)
    : M dal.Template :=
  dal.create_template (tc_name template) (tc_content template) (dal.id current_user).

Definition read_all_templates (current_user : dal.User) : M (list dal.Template) :=
  dal.get_templates_by_user_id (dal.id current_user).

Definition read_template (template_id : Z) (current_user : dal.User) : M dal.Template :=
  template ← dal.get_template_by_id template_id;
  match template with
  | None => raise (HTTPException 404 "Template not found")
  | Some template =>
      if bool_decide (dal.tpl_user_id (dal.cols template) ≠ dal.id current_user)
      then raise (HTTPException 404 "Template not found")
      else mret template
  end.

Definition update_template (template_id : Z) (template : TemplateCreate)
    (current_user : dal.User) : M dal.Template :=
  template_update ←
    dal.update_template template_id (Some (tc_name template)) (Some (tc_content template));
  match template_update with
  | None => raise (HTTPException 404 "Template not found")
  | Some template_update =>
      if bool_decide (dal.tpl_user_id (dal.cols template_update) ≠ dal.id current_user)
      then raise (HTTPException 404 "Template not found")
      else mret template_update
  end.

Definition delete_template (template_id : Z) (current_user : dal.User) : M unit :=
  template ← dal.get_template_by_id template_id;
  match template with
  | None => raise (HTTPException 404 "Template not found")
  | Some template =>
      if bool_decide (dal.tpl_user_id (dal.cols template) ≠ dal.id current_user)
      then raise (HTTPException 403 "You are not allowed to delete this template")
      else
        deleted ← dal.delete_template template_id;
        if negb deleted then raise (HTTPException 404 "Template not found")
        else mret ()
  end.

End endpoints.

(** *** What the caller sees

    The status code of the response: the one the route declares on success,
    the exception's own for an [HTTPException], 500 for any other
    exception. *)

Definition status {A} (success : Z) (r : exn + A) : Z :=
  match r with
  | inr _ => success
  | inl (HTTPException code _) => code
  | inl _ => 500
  end.

(** *** The owner-scoped requests on one entity

    The routes that name a mailing list, a subscriber or a template of the
    caller, with the status code their decorator declares on success. *)

Inductive operation :=
| ReadMailingList (mailing_list_id : Z)
| UpdateMailingList (mailing_list_id : Z) (body : MailingListCreate)
| DeleteMailingList (mailing_list_id : Z)
| CreateNewSubscriber (body : SubscriberCreate)
| ReadAllSubscribers (mailing_list_id : Z)
| DeleteSubscriber (subscriber_id : Z)
| ReadTemplate (template_id : Z)
| UpdateTemplate (template_id : Z) (body : TemplateCreate)
| DeleteTemplate (template_id : Z).

Definition response_status {env : Environment} (op : operation) (current_user : dal.User)
    (db : dal.DB) : Z :=
  match op with
  | ReadMailingList i => status 200 (read_mailing_list i current_user db).2
  | UpdateMailingList i body => status 200 (update_mailing_list i body current_user db).2
  | DeleteMailingList i => status 204 (delete_mailing_list i current_user db).2
  | CreateNewSubscriber body => status 201 (create_new_subscriber body current_user db).2
  | ReadAllSubscribers i => status 200 (read_all_subscribers i current_user db).2
  | DeleteSubscriber i => status 204 (delete_subscriber i current_user db).2
  | ReadTemplate i => status 200 (read_template i current_user db).2
  | UpdateTemplate i body => status 200 (update_template i body current_user db).2
  | DeleteTemplate i => status 204 (delete_template i current_user db).2
  end.

(** How the entity a request names stands to the caller: it does not exist,
    it exists and belongs to someone else, or it is the caller's.  A
    subscriber belongs to the owner of its mailing list. *)

Inductive standing := Absent | Foreign | Own.

Definition mailing_list_standing (db : dal.DB) (user_id i : Z) : standing :=
  match dal.mailing_lists db !! i with
  | None => Absent
  | Some l => if bool_decide (dal.ml_user_id l = user_id) then Own else Foreign
  end.

Definition template_standing (db : dal.DB) (user_id i : Z) : standing :=
  match dal.templates db !! i with
  | None => Absent
  | Some t => if bool_decide (dal.tpl_user_id t = user_id) then Own else Foreign
  end.

Definition subscriber_standing (db : dal.DB) (user_id i : Z) : standing :=
  match dal.subscribers db !! i with
  | None => Absent
  | Some s =>
      match mailing_list_standing db user_id (dal.sub_mailing_list_id s) with
      | Own => Own
      | _ => Foreign
      end
  end.

Definition standing_of (db : dal.DB) (user_id : Z) (op : operation) : standing :=
  match op with
  | ReadMailingList i | UpdateMailingList i _ | DeleteMailingList i
  | ReadAllSubscribers i => mailing_list_standing db user_id i
  | CreateNewSubscriber body => mailing_list_standing db user_id (sc_mailing_list_id body)
  | DeleteSubscriber i => subscriber_standing db user_id i
  | ReadTemplate i | UpdateTemplate i _ | DeleteTemplate i => template_standing db user_id i
  end.

Definition is_DeleteTemplate (op : operation) : bool :=
  match op with DeleteTemplate _ => true | _ => false end.

(** The exception a request is answered with, if it is refused: the full
    response then, status code and detail. *)
Definition refusal {A} (r : exn + A) : option exn :=
  match r with
  | inl e => Some e
  | inr _ => None
  end.

Definition response_error {env : Environment} (op : operation) (current_user : dal.User)
    (db : dal.DB) : option exn :=
  match op with
  | ReadMailingList i => refusal (read_mailing_list i current_user db).2
  | UpdateMailingList i body => refusal (update_mailing_list i body current_user db).2
  | DeleteMailingList i => refusal (delete_mailing_list i current_user db).2
  | CreateNewSubscriber body => refusal (create_new_subscriber body current_user db).2
  | ReadAllSubscribers i => refusal (read_all_subscribers i current_user db).2
  | DeleteSubscriber i => refusal (delete_subscriber i current_user db).2
  | ReadTemplate i => refusal (read_template i current_user db).2
  | UpdateTemplate i body => refusal (update_template i body current_user db).2
  | DeleteTemplate i => refusal (delete_template i current_user db).2
  end.

(** The database a request leaves behind. *)
Definition response_state {env : Environment} (op : operation) (current_user : dal.User)
    (db : dal.DB) : dal.DB :=
  match op with
  | ReadMailingList i => (read_mailing_list i current_user db).1
  | UpdateMailingList i body => (update_mailing_list i body current_user db).1
  | DeleteMailingList i => (delete_mailing_list i current_user db).1
  | CreateNewSubscriber body => (create_new_subscriber body current_user db).1
  | ReadAllSubscribers i => (read_all_subscribers i current_user db).1
  | DeleteSubscriber i => (delete_subscriber i current_user db).1
  | ReadTemplate i => (read_template i current_user db).1
  | UpdateTemplate i body => (update_template i body current_user db).1
  | DeleteTemplate i => (delete_template i current_user db).1
  end.

(** *** Requests

    A request names a route and carries its path and body parameters; the
    nine routes on one entity of the caller are the [operation]s above.
    [serve] resolves the dependencies of the route from the bearer
    credentials, runs the handler, and gives the database the request
    leaves behind together with the status code of the response.  The salt
    is the one [pwd_context.hash] draws if the handler hashes a password. *)

Inductive request :=
| PostToken (form_username form_password : string)
| PostUsers (body : UserCreate)
| GetUsersMe
| PutUsers (user_id : Z) (body : UserCreate)
| GetUsers
| DeleteUsers (user_id : Z)
| PostMailingLists (body : MailingListCreate)
| GetMailingLists
| PostTemplates (body : TemplateCreate)
| GetTemplates
| Owned (op : operation).

Definition respond {A} (success : Z) (handler : dal.M A) : dal.DB → dal.DB * Z :=
  λ db, ((handler db).1, status success (handler db).2).

Definition serve {env : Environment} (now : Z) (salt : string)
    (authorization : option token) (r : request) : dal.DB → dal.DB * Z :=
  match r with
  | PostToken form_username form_password =>
      respond 200 (login_for_access_token now form_username form_password)
  | PostUsers body =>
      respond 201 (create_new_user salt body)
  | GetUsersMe =>
      respond 200 (current_user ← current_user_of now authorization;
                   read_current_user current_user)
  | PutUsers user_id body =>
      respond 200 (current_admin ← current_admin_of now authorization;
                   update_user salt user_id body current_admin)
  | GetUsers =>
      respond 200 (current_admin ← current_admin_of now authorization;
                   read_all_users current_admin)
  | DeleteUsers user_id =>
      respond 204 (current_admin ← current_admin_of now authorization;
                   delete_user user_id current_admin)
  | PostMailingLists body =>
      respond 201 (current_user ← current_user_of now authorization;
                   create_new_mailing_list body current_user)
  | GetMailingLists =>
      respond 200 (current_user ← current_user_of now authorization;
                   read_all_mailing_lists current_user)
  | PostTemplates body =>
      respond 201 (current_user ← current_user_of now authorization;
                   create_new_template body current_user)
  | GetTemplates =>
      respond 200 (current_user ← current_user_of now authorization;
                   read_all_templates current_user)
  | Owned op =>
      λ db,
        match current_user_of now authorization db with
        | (db', inr current_user) =>
            (response_state op current_user db', response_status op current_user db')
        | (db', inl e) => (db', status 200 (inl e : exn + unit))
        end
  end.

(** The states of a service that starts on an empty database and serves
    its requests one after the other, each handler running from its
    beginning to its end before the next one starts; a salt has 22
    characters. *)
Inductive served {env : Environment} : dal.DB → Prop :=
| served_empty : served dal.empty_db
| served_request db now salt authorization r :
    served db → String.length salt = 22%nat →
    served (serve now salt authorization r db).1.

(** *** Requests that interleave

    The handlers are coroutines.  Each call of the persistence layer runs
    in a session and a transaction of its own, and a handler awaits one call
    after the other: between two calls of one handler, calls of other
    requests can run.  Whatever the schedule, the database is in a state
    that a sequence of the calls handlers make leaves behind.  [issued] says
    which calls those are; their arguments are what the handler was given
    or has read before, which need not be what the database holds when the
    call runs.  No handler calls [create_mailing] or [update_mailing]. *)

Inductive issued {env : Environment} : dal.call → Prop :=
| issued_create_user salt body digest :
    String.length salt = 22%nat →
    get_hashed_password salt (password body) = inr digest →
    issued (dal.call_create_user (username body) digest (email body) (is_admin body))
| issued_update_user i salt body digest :
    String.length salt = 22%nat →
    get_hashed_password salt (password body) = inr digest →
    issued (dal.call_update_user i (Some (username body)) (Some digest)
              (Some (email body)) (Some (is_admin body)))
| issued_delete_user i : issued (dal.call_delete_user i)
| issued_create_mailing_list name user_id :
    issued (dal.call_create_mailing_list name user_id)
| issued_update_mailing_list i name :
    issued (dal.call_update_mailing_list i (Some name))
| issued_delete_mailing_list i : issued (dal.call_delete_mailing_list i)
| issued_create_subscriber email mailing_list_id :
    issued (dal.call_create_subscriber email mailing_list_id)
| issued_delete_subscriber i : issued (dal.call_delete_subscriber i)
| issued_create_template name content user_id :
    issued (dal.call_create_template name content user_id)
| issued_update_template i name content :
    issued (dal.call_update_template i (Some name) (Some content))
| issued_delete_template i : issued (dal.call_delete_template i).

Inductive interleaved {env : Environment} : dal.DB → Prop :=
| interleaved_empty : interleaved dal.empty_db
| interleaved_call db c : interleaved db → issued c → interleaved (dal.perform c db).

(** *** The ids of a request

    The ids that a request carries in its path, its body or its token.
    Keys are unbounded integers here; a column of type [Integer] holds 32
    bits on PostgreSQL and 64 on SQLite, and the driver raises on a value
    beyond that. *)



End api.

(** ** The session manager (dal.py)

    [DatabaseSessionManager] keeps its one instance in the class attribute
    [_instance].  The state is what the class and its instances hold: the
    class attribute, and for each instance the attributes set on it so far.
    Reading [self._instance] finds an attribute of the instance before the
    one of the class; assigning to it sets the attribute of the instance.
    What the engines and [create_all] do, and whether they raise, is left
    to the library; [AsyncEngine.dispose] is a coroutine function, so the
    call in [close], which is not awaited, disposes of nothing. *)

Module manager.

Inductive error :=
| ValueError (msg : string)
| AttributeError (msg : string)
| EngineError (msg : string).

Section manager.
Variables Engine AsyncEngine : Type.
(** [os.getenv ( 'DATABASE_URL' )] *)
Variable DATABASE_URL : option string.
Variable create_engine : string → error + Engine.
Variable create_async_engine : string → error + AsyncEngine.
(** [Base.metadata.create_all]: the error it raises, if it does *)
Variable create_all : Engine → option error.

Record object := mkObject {
  async_engine : option AsyncEngine;
  SessionLocal : option Engine;
  self_instance : option (option nat) }.

Record state := mkState {
  _instance : option nat;
  objects : list object }.

Definition initial : state := mkState None [].

Definition set_async_engine (v : AsyncEngine) (o : object) : object :=
  mkObject (Some v) (SessionLocal o) (self_instance o).
Definition set_SessionLocal (v : Engine) (o : object) : object :=
  mkObject (async_engine o) (Some v) (self_instance o).
Definition set_self_instance (v : option nat) (o : object) : object :=
  mkObject (async_engine o) (SessionLocal o) (Some v).

Definition setattr (self : nat) (set : object → object) (st : state) : state :=
  mkState (_instance st) (alter set self (objects st)).

(** [__new__] *)
Definition new (db_url : option string) (st : state) : state * (error + nat) :=
  match _instance st with
  | None =>
      let self := length (objects st) in
      let st := mkState (Some self) (objects st ++ [mkObject None None None]) in
      let db_url := match db_url with None => DATABASE_URL | Some _ => db_url end in
      match db_url with
      | None =>
          (st, inl (ValueError
             "Database URL is not set. Please provide DATABASE_URL environment variable."))
      | Some db_url =>
          match create_engine db_url with
          | inl e => (st, inl e)
          | inr sync_engine =>
              match create_async_engine db_url with
              | inl e => (st, inl e)
              | inr engine =>
                  let st := setattr self (set_async_engine engine) st in
                  let st := setattr self (set_SessionLocal sync_engine) st in
                  match create_all sync_engine with
                  | Some e => (st, inl e)
                  | None => (st, inr self)
                  end
              end
          end
      end
  | Some self => (st, inr self)
  end.

(** The sessions are given by the engine they are bound to. *)
Definition get_sync_session (self : nat) (st : state) : state * (error + Engine) :=
  match objects st !! self ≫= SessionLocal with
  | Some bind => (st, inr bind)
  | None =>
      (st, inl (AttributeError
         "'DatabaseSessionManager' object has no attribute 'SessionLocal'"))
  end.

Definition get_async_session (self : nat) (st : state) : state * (error + AsyncEngine) :=
  match objects st !! self ≫= async_engine with
  | Some bind => (st, inr bind)
  | None =>
      (st, inl (AttributeError
         "'DatabaseSessionManager' object has no attribute 'async_engine'"))
  end.

Definition close (self : nat) (st : state) : state * (error + unit) :=
  let instance :=
    match objects st !! self ≫= self_instance with
    | Some v => v
    | None => _instance st
    end in
  match instance with
  | None => (st, inl (AttributeError "'NoneType' object has no attribute 'async_engine'"))
  | Some instance =>
      match objects st !! instance ≫= async_engine with
      | None =>
          (st, inl (AttributeError
             "'DatabaseSessionManager' object has no attribute 'async_engine'"))
      | Some _ => (setattr self (set_self_instance None) st, inr ())
      end
  end.

End manager.

End manager.

(** ** Further notions about database states *)

(** No two users share a username, and no two share an email (the two
    [unique=True] columns of [User]). *)
Definition unique_users (db : dal.DB) : Prop :=
  ∀ i j c1 c2,
    dal.users db !! i = Some c1 → dal.users db !! j = Some c2 →
    dal.username c1 = dal.username c2 ∨ dal.email c1 = dal.email c2 → i = j.

(** ** A small database and environment for the examples *)

Module sample.

(** Foreign keys enforced; the two cryptographic functions are stand-ins
    (no statement depends on which functions they are). *)
Definition env : Environment := {|
  foreign_keys := true;
  users_email_first := true;
  SECRET_KEY := "secret";
  HS256 := λ key msg, key ++ "." ++ msg.1;
  bcrypt := λ salt password, salt ++ password |}.

Definition alice : dal.UserCols :=
  dal.mkUser "alice" "$2b$12$saltsaltsaltsaltsaltAAchecksum" "alice@example.org" true true.
Definition bob : dal.UserCols :=
  dal.mkUser "bob" "$2b$12$saltsaltsaltsaltsaltBBchecksum" "bob@example.org" true false.

(** Alice (id 1, an admin) owns mailing list 1 with one subscriber,
    template 1, and mailing 1 that sends template 1 to list 1; Bob (id 2)
    owns mailing list 2 and template 2. *)
Definition db : dal.DB := {|
  dal.users := {[ 1 := alice; 2 := bob ]};
  dal.mailing_lists := {[ 1 := dal.mkMailingList "news" 1; 2 := dal.mkMailingList "offers" 2 ]};
  dal.subscribers := {[ 1 := dal.mkSubscriber "carol@example.org" 1 ]};
  dal.templates := {[ 1 := dal.mkTemplate "welcome" "Hello" 1;
                      2 := dal.mkTemplate "bye" "Goodbye" 2 ]};
  dal.mailings := {[ 1 := dal.mkMailing 1 1 (Some 1000) None 1 ]} |}.

Definition alice_user : dal.User := dal.mkRow 1 alice.
Definition bob_user : dal.User := dal.mkRow 2 bob.

End sample.

(** A state reached from the empty database: Alice registers, creates a
    mailing list and enrols one subscriber. *)
Definition sample_reached : dal.DB :=
  dal.perform (env := sample.env) (dal.call_create_subscriber "dave@example.org" 1)
    (dal.perform (env := sample.env) (dal.call_create_mailing_list "news" 1)
       (dal.perform (env := sample.env)
          (dal.call_create_user "alice" "digest" "alice@example.org" false)
          dal.empty_db)).

(** A state with one registered user: Alice, an administrator, whose
    password is [wonderland]. *)
Definition sample_registered : dal.DB :=
  dal.perform (env := sample.env)
    (dal.call_create_user "alice"
       (api.to_string "AAAAAAAAAAAAAAAAAAAAAA"
          (bcrypt (Environment := sample.env) "AAAAAAAAAAAAAAAAAAAAAA" "wonderland"))
       "alice@example.org" true)
    dal.empty_db.


(** * Properties *)

#[local] Set Warnings "-clear-no-such-hyp".

(** ** The unit of work *)

Section unit_of_work.
Context {env : Environment}.
Import dal.

Lemma if_bool_decide_ext {A} (P Q : Prop) `{!Decision P, !Decision Q} (x y : A) :
  (P ↔ Q) → (if bool_decide P then x else y) = (if bool_decide Q then x else y).
Proof. intros HPQ. by rewrite (bool_decide_ext P Q HPQ). Qed.

Lemma commit_nothing (db : DB) : commit get_async_session db = (db, inr []).
Proof. reflexivity. Qed.

Lemma elem_of_keys_of {C} (t t' : table) (m : gmap Z C) (k : Z) :
  (t', k) ∈ keys_of t m ↔ t' = t ∧ is_Some (m !! k).
Proof.
  unfold keys_of. rewrite list_elem_of_fmap. split.
  - intros [[k' c] [[= -> ->] Hin]]. apply elem_of_map_to_list in Hin. eauto.
  - intros [-> [c Hc]]. exists (k, c). split; [done|]. by apply elem_of_map_to_list.
Qed.

Lemma filter_by_lookup_Some {C} (P : C → Prop) `{!∀ c, Decision (P c)}
    (m : gmap Z C) (k : Z) (c : C) :
  filter_by P m !! k = Some c ↔ m !! k = Some c ∧ P c.
Proof. unfold filter_by. by rewrite map_lookup_filter_Some. Qed.

Lemma elem_of_keys_of_filter_by {C} (P : C → Prop) `{!∀ c, Decision (P c)}
    (t t' : table) (m : gmap Z C) (k : Z) :
  (t', k) ∈ keys_of t (filter_by P m) ↔ t' = t ∧ ∃ c, m !! k = Some c ∧ P c.
Proof.
  rewrite elem_of_keys_of. unfold is_Some.
  setoid_rewrite filter_by_lookup_Some. done.
Qed.

Lemma instances_nil {C} (m : gmap Z C) : instances m = [] ↔ m = ∅.
Proof.
  unfold instances. rewrite <- map_to_list_empty_iff. split.
  - apply fmap_nil_inv.
  - by intros ->.
Qed.

Lemma filter_by_empty {C} (P : C → Prop) `{!∀ c, Decision (P c)} (m : gmap Z C) :
  filter_by P m = ∅ ↔ ∀ k c, m !! k = Some c → ¬ P c.
Proof.
  unfold filter_by. rewrite map_empty. split.
  - intros Hnone k c Hk HP. specialize (Hnone k).
    apply map_lookup_filter_None in Hnone as [Hn|Hn]; [congruence|].
    by apply (Hn c).
  - intros Hall k. apply map_lookup_filter_None. right. intros c Hk.
    by apply (Hall k).
Qed.

(** Where a key sits after the deletions of a flush. *)

Ltac flush_lookup ks :=
  let IH := fresh "IH" in
  induction ks as [|[t j] ks IH]; [done|];
  change (flush_deleted ((t, j) :: ks) ?db)
    with (delete_key (t, j) (flush_deleted ks db));
  destruct t; cbn [delete_key fst snd users mailing_lists subscribers templates mailings];
  rewrite ?lookup_delete, IH;
  rewrite (bool_decide_ext _ _ (elem_of_cons ks _ _));
  repeat match goal with
    | |- context [decide ?P] => destruct (decide P) as [?|?]
    | |- context [bool_decide ?P] => destruct (bool_decide_reflect P) as [?|?]
    end;
  try reflexivity; exfalso; intuition congruence.

Lemma users_flush_deleted ks db k :
  users (flush_deleted ks db) !! k
  = if bool_decide ((users_t, k) ∈ ks) then None else users db !! k.
Proof. flush_lookup ks. Qed.

Lemma mailing_lists_flush_deleted ks db k :
  mailing_lists (flush_deleted ks db) !! k
  = if bool_decide ((mailing_lists_t, k) ∈ ks) then None else mailing_lists db !! k.
Proof. flush_lookup ks. Qed.

Lemma subscribers_flush_deleted ks db k :
  subscribers (flush_deleted ks db) !! k
  = if bool_decide ((subscribers_t, k) ∈ ks) then None else subscribers db !! k.
Proof. flush_lookup ks. Qed.

Lemma templates_flush_deleted ks db k :
  templates (flush_deleted ks db) !! k
  = if bool_decide ((templates_t, k) ∈ ks) then None else templates db !! k.
Proof. flush_lookup ks. Qed.

Lemma mailings_flush_deleted ks db k :
  mailings (flush_deleted ks db) !! k
  = if bool_decide ((mailings_t, k) ∈ ks) then None else mailings db !! k.
Proof. flush_lookup ks. Qed.

(** What a delete cascades to. *)

Lemma elem_of_cascade_mailing_list db i t k :
  (t, k) ∈ cascade_mailing_list db i ↔
    (t = mailing_lists_t ∧ k = i)
    ∨ (t = subscribers_t ∧ ∃ c, subscribers db !! k = Some c ∧ sub_mailing_list_id c = i)
    ∨ (t = mailings_t ∧ ∃ c, mailings db !! k = Some c ∧ m_mailing_list_id c = i).
Proof.
  unfold cascade_mailing_list.
  rewrite elem_of_cons, elem_of_app, !elem_of_keys_of_filter_by. naive_solver.
Qed.

Lemma elem_of_cascade_template db i t k :
  (t, k) ∈ cascade_template db i ↔
    (t = templates_t ∧ k = i)
    ∨ (t = mailings_t ∧ ∃ c, mailings db !! k = Some c ∧ m_template_id c = i).
Proof.
  unfold cascade_template.
  rewrite elem_of_cons, !elem_of_keys_of_filter_by. naive_solver.
Qed.

Lemma elem_of_keys_filter_by {C} (P : C → Prop) `{!∀ c, Decision (P c)}
    (m : gmap Z C) (k : Z) :
  k ∈ (map_to_list (filter_by P m)).*1 ↔ ∃ c, m !! k = Some c ∧ P c.
Proof.
  rewrite list_elem_of_fmap. split.
  - intros [[k' c] [-> Hin]]. apply elem_of_map_to_list in Hin.
    apply filter_by_lookup_Some in Hin. eauto.
  - intros (c & Hk & HP). exists (k, c). split; [done|].
    apply elem_of_map_to_list. by apply filter_by_lookup_Some.
Qed.

Lemma elem_of_cascade_user db i t k :
  (t, k) ∈ cascade_user db i ↔
    (t = users_t ∧ k = i)
    ∨ (∃ l c, mailing_lists db !! l = Some c ∧ ml_user_id c = i
              ∧ (t, k) ∈ cascade_mailing_list db l)
    ∨ (∃ l c, templates db !! l = Some c ∧ tpl_user_id c = i
              ∧ (t, k) ∈ cascade_template db l)
    ∨ (t = mailings_t ∧ ∃ c, mailings db !! k = Some c ∧ m_user_id c = i).
Proof.
  unfold cascade_user.
  rewrite elem_of_cons, !elem_of_app, !list_elem_of_bind, elem_of_keys_of_filter_by.
  setoid_rewrite elem_of_keys_filter_by. naive_solver.
Qed.

(** The four deleting methods, evaluated. *)

Lemma delete_user_eq db i :
  delete_user i db =
    match users db !! i with
    | Some _ => (flush_deleted (cascade_user db i) db, inr true)
    | None => (db, inr false)
    end.
Proof.
  unfold delete_user, get_user_by_id, query, get, mbind, M_bind.
  by destruct (users db !! i).
Qed.

Lemma delete_mailing_list_eq db i :
  delete_mailing_list i db =
    match mailing_lists db !! i with
    | Some _ => (flush_deleted (cascade_mailing_list db i) db, inr true)
    | None => (db, inr false)
    end.
Proof.
  unfold delete_mailing_list, get_mailing_list_by_id, query, get, mbind, M_bind.
  by destruct (mailing_lists db !! i).
Qed.

Lemma delete_template_eq db i :
  delete_template i db =
    match templates db !! i with
    | Some _ => (flush_deleted (cascade_template db i) db, inr true)
    | None => (db, inr false)
    end.
Proof.
  unfold delete_template, get_template_by_id, query, get, mbind, M_bind.
  by destruct (templates db !! i).
Qed.

Lemma delete_subscriber_eq db i :
  delete_subscriber i db =
    match subscribers db !! i with
    | Some _ => (flush_deleted [(subscribers_t, i)] db, inr true)
    | None => (db, inr false)
    end.
Proof.
  unfold delete_subscriber, get_subscriber_by_id, query, get, mbind, M_bind.
  by destruct (subscribers db !! i).
Qed.

End unit_of_work.

(** ** Deleting: what goes with a user, a mailing list, a template *)

Section deleting.
Context {env : Environment}.
Import dal.

Lemma owned_list_in_cascade_user db u i c :
  mailing_lists db !! i = Some c → ml_user_id c = u →
  (mailing_lists_t, i) ∈ cascade_user db u.
Proof.
  intros Hi Hu. apply elem_of_cascade_user. right; left.
  exists i, c. split_and!; [done..|].
  apply elem_of_cascade_mailing_list. by left.
Qed.

Lemma owned_template_in_cascade_user db u i c :
  templates db !! i = Some c → tpl_user_id c = u →
  (templates_t, i) ∈ cascade_user db u.
Proof.
  intros Hi Hu. apply elem_of_cascade_user. right; right; left.
  exists i, c. split_and!; [done..|].
  apply elem_of_cascade_template. by left.
Qed.

Lemma owned_mailing_in_cascade_user db u i c :
  mailings db !! i = Some c → m_user_id c = u →
  (mailings_t, i) ∈ cascade_user db u.
Proof.
  intros Hi Hu. apply elem_of_cascade_user. do 3 right. eauto.
Qed.

(** C8. After [delete_user u] has returned [True], the three listings by
    owner are empty for [u], and every mailing list, template and mailing
    that [u] owned is absent when looked up by its id; so is the user. *)
Theorem C8_delete_user_cascades (db db' : DB) (u : Z) :
  delete_user u db = (db', inr true) →
  get_mailing_lists_by_user_id u db' = (db', inr [])
  ∧ get_templates_by_user_id u db' = (db', inr [])
  ∧ get_mailings_by_user_id u db' = (db', inr [])
  ∧ (∀ i c, mailing_lists db !! i = Some c → ml_user_id c = u →
       get_mailing_list_by_id i db' = (db', inr None))
  ∧ (∀ i c, templates db !! i = Some c → tpl_user_id c = u →
       get_template_by_id i db' = (db', inr None))
  ∧ (∀ i c, mailings db !! i = Some c → m_user_id c = u →
       get_mailing_by_id i db' = (db', inr None))
  ∧ get_user_by_id u db' = (db', inr None).
Proof.
  rewrite delete_user_eq. destruct (users db !! u) as [cu|] eqn:Hu; [|done].
  intros Heq. assert (db' = flush_deleted (cascade_user db u) db) as -> by congruence.
  clear Heq.
  unfold get_mailing_lists_by_user_id, get_templates_by_user_id, get_mailings_by_user_id,
    get_mailing_list_by_id, get_template_by_id, get_mailing_by_id, get_user_by_id, query, get.
  split_and!.
  - f_equal. f_equal. apply instances_nil, filter_by_empty. intros k c.
    rewrite mailing_lists_flush_deleted. case_bool_decide as Hin; [done|].
    intros Hk Hc. apply Hin. by eapply owned_list_in_cascade_user.
  - f_equal. f_equal. apply instances_nil, filter_by_empty. intros k c.
    rewrite templates_flush_deleted. case_bool_decide as Hin; [done|].
    intros Hk Hc. apply Hin. by eapply owned_template_in_cascade_user.
  - f_equal. f_equal. apply instances_nil, filter_by_empty. intros k c.
    rewrite mailings_flush_deleted. case_bool_decide as Hin; [done|].
    intros Hk Hc. apply Hin. by eapply owned_mailing_in_cascade_user.
  - intros i c Hi Hc. rewrite mailing_lists_flush_deleted.
    rewrite bool_decide_true; [done|]. by eapply owned_list_in_cascade_user.
  - intros i c Hi Hc. rewrite templates_flush_deleted.
    rewrite bool_decide_true; [done|]. by eapply owned_template_in_cascade_user.
  - intros i c Hi Hc. rewrite mailings_flush_deleted.
    rewrite bool_decide_true; [done|]. by eapply owned_mailing_in_cascade_user.
  - rewrite users_flush_deleted. rewrite bool_decide_true; [done|].
    apply elem_of_cascade_user. by left.
Qed.

(** [delete_user] does return [True] for a user that exists, whatever else
    the database holds. *)
Lemma delete_user_returns_true (db : DB) (u : Z) :
  is_Some (users db !! u) → (delete_user u db).2 = inr true.
Proof. rewrite delete_user_eq. by intros [c ->]. Qed.

(** C3, as the code has it.  Deleting a mailing list through
    [delete_mailing_list], or a template through [delete_template], deletes
    with it exactly the mailings that reference it (the relationships
    [MailingList.mailings] and [Template.mailings] cascade the delete); a
    mailing that references another list, or another template, is kept
    unchanged.  No mailing is left pointing at the deleted row. *)
Theorem C3_mailings_deleted_with_list_or_template (db : DB) (i k : Z) (m : MailingCols) :
  mailings db !! k = Some m →
  (is_Some (mailing_lists db !! i) →
     (delete_mailing_list i db).2 = inr true
     ∧ mailing_lists (delete_mailing_list i db).1 !! i = None
     ∧ mailings (delete_mailing_list i db).1 !! k
       = if bool_decide (m_mailing_list_id m = i) then None else Some m)
  ∧ (is_Some (templates db !! i) →
     (delete_template i db).2 = inr true
     ∧ templates (delete_template i db).1 !! i = None
     ∧ mailings (delete_template i db).1 !! k
       = if bool_decide (m_template_id m = i) then None else Some m).
Proof.
  intros Hk. split.
  - intros [c Hc]. rewrite delete_mailing_list_eq, Hc. cbn [fst snd].
    split_and!; [done|..].
    + rewrite mailing_lists_flush_deleted, bool_decide_true; [done|].
      apply elem_of_cascade_mailing_list. by left.
    + rewrite mailings_flush_deleted, Hk.
      apply if_bool_decide_ext. rewrite elem_of_cascade_mailing_list. naive_solver.
  - intros [c Hc]. rewrite delete_template_eq, Hc. cbn [fst snd].
    split_and!; [done|..].
    + rewrite templates_flush_deleted, bool_decide_true; [done|].
      apply elem_of_cascade_template. by left.
    + rewrite mailings_flush_deleted, Hk.
      apply if_bool_decide_ext. rewrite elem_of_cascade_template. naive_solver.
Qed.

End deleting.

Lemma C8_delete_user_cascades_witness :
  dal.delete_user (env := sample.env) 1 sample.db
    = ((dal.delete_user (env := sample.env) 1 sample.db).1, inr true)
  ∧ dal.get_mailing_lists_by_user_id 1 (dal.delete_user (env := sample.env) 1 sample.db).1
    = ((dal.delete_user (env := sample.env) 1 sample.db).1, inr [])
  ∧ dal.get_mailing_by_id 1 (dal.delete_user (env := sample.env) 1 sample.db).1
    = ((dal.delete_user (env := sample.env) 1 sample.db).1, inr None).
Proof.
  assert (dal.delete_user (env := sample.env) 1 sample.db
          = ((dal.delete_user (env := sample.env) 1 sample.db).1, inr true)) as Hdel
    by (vm_compute; reflexivity).
  pose proof (C8_delete_user_cascades (env := sample.env) sample.db _ 1 Hdel)
    as (Hlists & _ & _ & _ & _ & Hmailing & _).
  split_and!; [exact Hdel | exact Hlists |].
  apply (Hmailing 1 (dal.mkMailing 1 1 (Some 1000) None 1)); reflexivity.
Defined.

(** C3 as stated fails: in the sample database mailing 1 references mailing
    list 1 and template 1; after [delete_mailing_list 1] the mailing is
    gone, and so it is after [delete_template 1]. *)
Lemma C3_counterexample :
  dal.mailings sample.db !! 1 = Some (dal.mkMailing 1 1 (Some 1000) None 1)
  ∧ dal.mailings (dal.delete_mailing_list (env := sample.env) 1 sample.db).1 !! 1 = None
  ∧ dal.mailings (dal.delete_template (env := sample.env) 1 sample.db).1 !! 1 = None.
Proof. split_and!; vm_compute; reflexivity. Qed.

Lemma C3_mailings_deleted_with_list_or_template_witness :
  dal.mailings (dal.delete_mailing_list (env := sample.env) 1 sample.db).1 !! 1 = None
  ∧ dal.mailings (dal.delete_template (env := sample.env) 2 sample.db).1 !! 1
    = Some (dal.mkMailing 1 1 (Some 1000) None 1).
Proof.
  pose proof (C3_mailings_deleted_with_list_or_template (env := sample.env) sample.db 1 1
                (dal.mkMailing 1 1 (Some 1000) None 1) eq_refl) as [Hlist _].
  pose proof (C3_mailings_deleted_with_list_or_template (env := sample.env) sample.db 2 1
                (dal.mkMailing 1 1 (Some 1000) None 1) eq_refl) as [_ Htpl].
  split.
  - apply Hlist. vm_compute. eauto.
  - apply Htpl. vm_compute. eauto.
Defined.

(** ** Ownership checks of the endpoints *)

Section ownership.
Context {env : Environment}.

Ltac endpoint :=
  unfold api.read_mailing_list, api.update_mailing_list, api.delete_mailing_list,
    api.create_new_subscriber, api.read_all_subscribers, api.delete_subscriber,
    api.read_template, api.update_template, api.delete_template,
    dal.update_mailing_list, dal.update_template,
    dal.get_mailing_list_by_id, dal.get_template_by_id, dal.get_subscriber_by_id,
    dal.query, dal.get, dal.raise, mbind, dal.M_bind, mret, dal.M_ret.

(** C1. A mailing list that belongs to another user is answered like one
    that does not exist, by each of read, update and delete: the same 404
    with the same detail, and the database, in particular the stored name of
    the list, is as it was before the request. *)
Theorem C1_foreign_mailing_list_is_not_found
    (db : dal.DB) (i : Z) (l : dal.MailingListCols) (B : dal.User)
    (req : api.MailingListCreate) :
  dal.mailing_lists db !! i = Some l →
  dal.ml_user_id l ≠ dal.id B →
  (api.read_mailing_list i B db
     = (db, inl (HTTPException 404 "Mailing list not found"))
   ∧ api.update_mailing_list i req B db
     = (db, inl (HTTPException 404 "Mailing list not found"))
   ∧ api.delete_mailing_list i B db
     = (db, inl (HTTPException 404 "Mailing list not found")))
  ∧ dal.mailing_lists (api.update_mailing_list i req B db).1 !! i = Some l
  ∧ (∀ db0 : dal.DB, dal.mailing_lists db0 !! i = None →
       api.read_mailing_list i B db0
         = (db0, inl (HTTPException 404 "Mailing list not found"))
       ∧ api.update_mailing_list i req B db0
         = (db0, inl (HTTPException 404 "Mailing list not found"))
       ∧ api.delete_mailing_list i B db0
         = (db0, inl (HTTPException 404 "Mailing list not found"))).
Proof.
  intros Hl Hne.
  assert (api.update_mailing_list i req B db
          = (db, inl (HTTPException 404 "Mailing list not found"))) as Hupd.
  { endpoint. rewrite Hl. cbn.
    destruct (negb (String.eqb (api.name req) "")); cbn; [|done].
    by rewrite bool_decide_true. }
  split_and!.
  - endpoint. rewrite Hl. cbn. by rewrite bool_decide_true.
  - exact Hupd.
  - endpoint. rewrite Hl. cbn. by rewrite bool_decide_true.
  - by rewrite Hupd.
  - intros db0 Hnone. split_and!; endpoint; by rewrite Hnone.
Qed.

(** C4, as the code has it.  Deleting another user's template answers 403
    and deleting another user's mailing list answers 404, the very response
    that a missing list gets.  Among the owner-scoped requests template
    deletion is the only one whose status code tells an entity of another
    user from one that does not exist.  It is not the only one whose
    response does: [delete_subscriber] answers 404 in both cases, but with
    the detail [Mailing list not found] for a subscriber of another user's
    list and [Subscriber not found] for one that does not exist.  Each of
    the other seven requests gives one and the same response in both cases;
    none of the nine changes the database. *)
Theorem C4_template_and_subscriber_deletion_distinguish (db : dal.DB) (B : dal.User) :
  (∀ i t, dal.templates db !! i = Some t → dal.tpl_user_id t ≠ dal.id B →
     api.delete_template i B db
       = (db, inl (HTTPException 403 "You are not allowed to delete this template")))
  ∧ (∀ i l, dal.mailing_lists db !! i = Some l → dal.ml_user_id l ≠ dal.id B →
     api.delete_mailing_list i B db
       = (db, inl (HTTPException 404 "Mailing list not found")))
  ∧ (∀ op, api.standing_of db (dal.id B) op = api.Absent →
     api.response_state op B db = db
     ∧ api.response_status op B db = 404
     ∧ api.response_error op B db
       = Some (HTTPException 404
                 match op with
                 | api.DeleteSubscriber _ => "Subscriber not found"
                 | api.ReadTemplate _ | api.UpdateTemplate _ _ | api.DeleteTemplate _ =>
                     "Template not found"
                 | _ => "Mailing list not found"
                 end))
  ∧ (∀ op, api.standing_of db (dal.id B) op = api.Foreign →
     api.response_state op B db = db
     ∧ api.response_status op B db = (if api.is_DeleteTemplate op then 403 else 404)
     ∧ api.response_error op B db
       = Some match op with
              | api.DeleteTemplate _ =>
                  HTTPException 403 "You are not allowed to delete this template"
              | api.ReadTemplate _ | api.UpdateTemplate _ _ =>
                  HTTPException 404 "Template not found"
              | _ => HTTPException 404 "Mailing list not found"
              end).
Proof.
  split_and!.
  - intros i t Ht Hne. endpoint. rewrite Ht. cbn. by rewrite bool_decide_true.
  - intros i l Hl Hne. endpoint. rewrite Hl. cbn. by rewrite bool_decide_true.
  - intros op. destruct op;
      cbn [api.standing_of api.response_status api.response_state api.response_error];
      unfold api.mailing_list_standing, api.template_standing, api.subscriber_standing,
        api.mailing_list_standing; endpoint;
      repeat match goal with
        | |- context [match ?m !! ?i with _ => _ end] => destruct (m !! i) eqn:?; cbn
        | |- context [negb (String.eqb ?a ?b)] => destruct (negb (String.eqb a b)); cbn
        | |- context [bool_decide ?P] => destruct (bool_decide_reflect P); cbn
        end; try done; congruence.
  - intros op. destruct op;
      cbn [api.standing_of api.response_status api.response_state api.response_error
             api.is_DeleteTemplate];
      unfold api.mailing_list_standing, api.template_standing, api.subscriber_standing,
        api.mailing_list_standing; endpoint;
      repeat match goal with
        | |- context [match ?m !! ?i with _ => _ end] => destruct (m !! i) eqn:?; cbn
        | |- context [negb (String.eqb ?a ?b)] => destruct (negb (String.eqb a b)); cbn
        | |- context [bool_decide ?P] => destruct (bool_decide_reflect P); cbn
        end; try done; congruence.
Qed.

End ownership.

Lemma C1_foreign_mailing_list_is_not_found_witness :
  api.update_mailing_list (env := sample.env) 1 (api.mkMailingListCreate "taken over")
      sample.bob_user sample.db
    = (sample.db, inl (HTTPException 404 "Mailing list not found"))
  ∧ dal.mailing_lists
      (api.update_mailing_list (env := sample.env) 1 (api.mkMailingListCreate "taken over")
         sample.bob_user sample.db).1 !! 1
    = Some (dal.mkMailingList "news" 1).
Proof.
  pose proof (C1_foreign_mailing_list_is_not_found (env := sample.env) sample.db 1
                (dal.mkMailingList "news" 1) sample.bob_user
                (api.mkMailingListCreate "taken over") eq_refl)
    as Hclaim.
  destruct Hclaim as ((_ & Hupd & _) & Hname & _).
  - vm_compute. discriminate.
  - split; [exact Hupd | exact Hname].
Defined.

(** C4 as stated fails, whatever the environment: in the sample database
    Bob asks for the deletion of subscriber 1, who is enrolled in Alice's
    list, and of subscriber 9, who does not exist.  [delete_subscriber] is
    not the deletion of a template, and yet the two responses differ. *)
Lemma C4_counterexample :
  ¬ ∃ env : Environment,
      api.standing_of sample.db 2 (api.DeleteSubscriber 1) = api.Foreign →
      api.standing_of sample.db 2 (api.DeleteSubscriber 9) = api.Absent →
      api.is_DeleteTemplate (api.DeleteSubscriber 1) = false →
      api.response_error (env := env) (api.DeleteSubscriber 1) sample.bob_user sample.db
      = api.response_error (env := env) (api.DeleteSubscriber 9) sample.bob_user sample.db.
Proof.
  intros [env Hsame]. specialize (Hsame eq_refl eq_refl eq_refl).
  vm_compute in Hsame. discriminate.
Qed.

Lemma C4_template_and_subscriber_deletion_distinguish_witness :
  api.delete_template (env := sample.env) 1 sample.bob_user sample.db
    = (sample.db, inl (HTTPException 403 "You are not allowed to delete this template"))
  ∧ api.delete_mailing_list (env := sample.env) 1 sample.bob_user sample.db
    = (sample.db, inl (HTTPException 404 "Mailing list not found"))
  ∧ api.response_error (env := sample.env) (api.DeleteSubscriber 1) sample.bob_user
      sample.db
    = Some (HTTPException 404 "Mailing list not found")
  ∧ api.response_error (env := sample.env) (api.DeleteSubscriber 9) sample.bob_user
      sample.db
    = Some (HTTPException 404 "Subscriber not found")
  ∧ api.response_status (env := sample.env) (api.DeleteTemplate 7) sample.bob_user sample.db
    = 404.
Proof.
  pose proof (C4_template_and_subscriber_deletion_distinguish (env := sample.env)
                sample.db sample.bob_user) as (Htpl & Hlist & Habsent & Hforeign).
  split_and!.
  - apply (Htpl 1 (dal.mkTemplate "welcome" "Hello" 1)); [reflexivity|].
    vm_compute. discriminate.
  - apply (Hlist 1 (dal.mkMailingList "news" 1)); [reflexivity|].
    vm_compute. discriminate.
  - by destruct (Hforeign (api.DeleteSubscriber 1) eq_refl) as (_ & _ & Hresponse).
  - by destruct (Habsent (api.DeleteSubscriber 9) eq_refl) as (_ & _ & Hresponse).
  - by destruct (Habsent (api.DeleteTemplate 7) eq_refl) as (_ & Hstatus & _).
Defined.

(** ** Partial updates *)

Section partial_updates.
Context {env : Environment}.
Import dal.

Lemma assign_if_truthy_falsy {A} (value : option string) (set : string → A → A) (obj : A) :
  truthy value = false → assign_if_truthy value set obj = obj.
Proof. unfold assign_if_truthy. destruct value; [|done]. by intros ->. Qed.

Lemma update_user_eq db i username hashed_password email is_admin :
  update_user i username hashed_password email is_admin db =
    (db, inr ((λ c,
           assign_if_not_None is_admin set_is_admin
             (assign_if_truthy email set_email
                (assign_if_truthy hashed_password set_hashed_password
                   (assign_if_truthy username set_username (mkRow i c)))))
         <$> users db !! i)).
Proof.
  unfold update_user, get_user_by_id, query, get, mbind, M_bind.
  by destruct (users db !! i).
Qed.

Lemma update_template_eq db i name content :
  update_template i name content db =
    (db, inr ((λ c,
           assign_if_truthy content set_tpl_content
             (assign_if_truthy name set_tpl_name (mkRow i c)))
         <$> templates db !! i)).
Proof.
  unfold update_template, get_template_by_id, query, get, mbind, M_bind.
  by destruct (templates db !! i).
Qed.

Lemma update_mailing_list_eq db i name :
  update_mailing_list i name db =
    (db, inr (match mailing_lists db !! i, name with
              | Some c, Some new_name =>
                  if truthy name then Some (set_ml_name new_name (mkRow i c)) else None
              | _, _ => None
              end)).
Proof.
  unfold update_mailing_list, get_mailing_list_by_id, query, get, mbind, M_bind.
  destruct (mailing_lists db !! i), name as [new_name|]; cbn; try done.
  by destruct (negb _).
Qed.

(** C6, as the code has it.  For an entity that exists, [update_user] and
    [update_template] return it; [update_mailing_list] returns it when a
    non-empty name is supplied and returns [None] when the name is absent or
    empty.  In the returned entity and in the stored row, every string field
    whose supplied value is absent or empty is as it was (an empty username
    does not clear the username), and [is_admin] is as it was when it is
    absent; a supplied [False] is assigned.  [update_user] and
    [update_template] return [None] only when no entity has that id. *)
Theorem C6_partial_update_semantics (db : DB) (i : Z) :
  (∀ c username hashed_password email is_admin,
     users db !! i = Some c →
     ∃ u, (update_user i username hashed_password email is_admin db).2 = inr (Some u)
       ∧ id u = i
       ∧ (truthy username = false → dal.username (cols u) = dal.username c)
       ∧ (truthy hashed_password = false →
            dal.hashed_password (cols u) = dal.hashed_password c)
       ∧ (truthy email = false → dal.email (cols u) = dal.email c)
       ∧ (is_admin = None → dal.is_admin (cols u) = dal.is_admin c)
       ∧ (∀ b, is_admin = Some b → dal.is_admin (cols u) = b)
       ∧ ∃ c', users (update_user i username hashed_password email is_admin db).1 !! i
               = Some c'
           ∧ (truthy username = false → dal.username c' = dal.username c)
           ∧ (truthy hashed_password = false →
                dal.hashed_password c' = dal.hashed_password c)
           ∧ (truthy email = false → dal.email c' = dal.email c)
           ∧ (is_admin = None → dal.is_admin c' = dal.is_admin c))
  ∧ (∀ username hashed_password email is_admin,
       (update_user i username hashed_password email is_admin db).2 = inr None
       ↔ users db !! i = None)
  ∧ (∀ c name content,
     templates db !! i = Some c →
     ∃ t, (update_template i name content db).2 = inr (Some t)
       ∧ id t = i
       ∧ (truthy name = false → tpl_name (cols t) = tpl_name c)
       ∧ (truthy content = false → tpl_content (cols t) = tpl_content c)
       ∧ ∃ c', templates (update_template i name content db).1 !! i = Some c'
           ∧ (truthy name = false → tpl_name c' = tpl_name c)
           ∧ (truthy content = false → tpl_content c' = tpl_content c))
  ∧ (∀ name content,
       (update_template i name content db).2 = inr None ↔ templates db !! i = None)
  ∧ (∀ c name,
     mailing_lists db !! i = Some c →
     (truthy name = true →
        ∃ l, (update_mailing_list i name db).2 = inr (Some l) ∧ id l = i)
     ∧ (truthy name = false →
        (update_mailing_list i name db).2 = inr None
        ∧ mailing_lists (update_mailing_list i name db).1 !! i = Some c))
  ∧ (∀ name,
       mailing_lists db !! i = None → (update_mailing_list i name db).2 = inr None).
Proof.
  split_and!.
  - intros c un hp em adm Hc. rewrite update_user_eq, Hc. cbn [fst snd fmap option_fmap option_map].
    eexists. split; [reflexivity|]. split_and!.
    + by destruct adm, em as [em|], hp as [hp|], un as [un|]; cbn;
        repeat match goal with |- context [negb ?b] => destruct (negb b); cbn end.
    + intros Hun. rewrite (assign_if_truthy_falsy un) by done.
      by destruct adm, em as [em|], hp as [hp|]; cbn;
        repeat match goal with |- context [negb ?b] => destruct (negb b); cbn end.
    + intros Hhp. rewrite (assign_if_truthy_falsy hp) by done.
      by destruct adm, em as [em|], un as [un|]; cbn;
        repeat match goal with |- context [negb ?b] => destruct (negb b); cbn end.
    + intros Hem. rewrite (assign_if_truthy_falsy em) by done.
      by destruct adm, hp as [hp|], un as [un|]; cbn;
        repeat match goal with |- context [negb ?b] => destruct (negb b); cbn end.
    + intros ->.
      by destruct em as [em|], hp as [hp|], un as [un|]; cbn;
        repeat match goal with |- context [negb ?b] => destruct (negb b); cbn end.
    + by intros b ->.
    + exists c. by rewrite Hc.
  - intros un hp em adm. rewrite update_user_eq. cbn [snd].
    destruct (users db !! i); cbn; naive_solver.
  - intros c name content Hc. rewrite update_template_eq, Hc.
    cbn [fst snd fmap option_fmap option_map].
    eexists. split; [reflexivity|]. split_and!.
    + by destruct content as [content|], name as [name|]; cbn;
        repeat match goal with |- context [negb ?b] => destruct (negb b); cbn end.
    + intros Hn. rewrite (assign_if_truthy_falsy name) by done.
      by destruct content as [content|]; cbn;
        repeat match goal with |- context [negb ?b] => destruct (negb b); cbn end.
    + intros Hn. rewrite (assign_if_truthy_falsy content) by done.
      by destruct name as [name|]; cbn;
        repeat match goal with |- context [negb ?b] => destruct (negb b); cbn end.
    + exists c. by rewrite Hc.
  - intros name content. rewrite update_template_eq. cbn [snd].
    destruct (templates db !! i); cbn; naive_solver.
  - intros c name Hc. rewrite update_mailing_list_eq, Hc. cbn [fst snd]. split.
    + intros Hname. rewrite Hname. destruct name; [|done]. by eexists.
    + intros Hname. rewrite Hname. by destruct name.
  - intros name Hnone. by rewrite update_mailing_list_eq, Hnone.
Qed.

End partial_updates.

(** C6 as stated fails.  Mailing list 1 exists, yet [update_mailing_list]
    with an empty name returns [None] for it; and a supplied
    [is_admin=False], which is falsy, is assigned: Alice is stored as an
    admin and comes back as none. *)
Lemma C6_counterexample :
  dal.mailing_lists sample.db !! 1 = Some (dal.mkMailingList "news" 1)
  ∧ (dal.update_mailing_list (env := sample.env) 1 (Some "") sample.db).2 = inr None
  ∧ (dal.update_mailing_list (env := sample.env) 1 None sample.db).2 = inr None
  ∧ dal.is_admin sample.alice = true
  ∧ (dal.update_user (env := sample.env) 1 None None None (Some false) sample.db).2
    = inr (Some (dal.set_is_admin false sample.alice_user)).
Proof. split_and!; vm_compute; reflexivity. Qed.

Lemma C6_partial_update_semantics_witness :
  ∃ u, (dal.update_user (env := sample.env) 1 (Some "") None None None sample.db).2
       = inr (Some u)
    ∧ dal.username (dal.cols u) = "alice".
Proof.
  pose proof (C6_partial_update_semantics (env := sample.env) sample.db 1) as (Huser & _).
  destruct (Huser sample.alice (Some "") None None None eq_refl)
    as (u & Hret & _ & Hname & _).
  exists u. split; [exact Hret|]. exact (Hname eq_refl).
Defined.

(** ** Subscriber emails *)

Section subscriber_emails.
Context {env : Environment}.
Import dal.

Lemma taken_spec {C} (P : C → Prop) `{!∀ c, Decision (P c)} (m : gmap Z C) :
  taken P m = true ↔ ∃ k c, m !! k = Some c ∧ P c.
Proof.
  unfold taken. rewrite bool_decide_eq_true. split.
  - intros Hne. apply map_choose in Hne as (k & c & Hk).
    apply filter_by_lookup_Some in Hk. eauto.
  - intros (k & c & Hk & HP) Hempty.
    assert (filter_by P m !! k = Some c) as Hin by by apply filter_by_lookup_Some.
    by rewrite Hempty in Hin.
Qed.

Lemma create_subscriber_eq db e l :
  create_subscriber e l db =
    match insert (NewSubscriber (mkSubscriber e l)) db with
    | inl err => (db, inl err)
    | inr (db', k) => (db', inr (mkRow k (mkSubscriber e l)))
    end.
Proof.
  unfold create_subscriber, mbind, M_bind, commit, add, get_async_session.
  cbn [pending deleted app flush_new].
  by destruct (insert _ db) as [err|[db' k]].
Qed.

(** A call either leaves the subscribers it finds where they are (or
    removes some), or it is a successful [create_subscriber] of an address
    no subscriber has yet. *)
Lemma subscribers_perform c db i s :
  subscribers (perform c db) !! i = Some s →
  subscribers db !! i = Some s
  ∨ (taken (λ r, sub_email r = sub_email s) (subscribers db) = false
     ∧ i = next_id (subscribers db)
     ∧ ∀ j s', j ≠ i → subscribers (perform c db) !! j = Some s' →
               subscribers db !! j = Some s').
Proof.
  destruct c; cbn [perform].
  - unfold create_user, mbind, M_bind, commit, add, get_async_session.
    cbn [pending deleted app flush_new insert].
    repeat (case_match; cbn); simplify_eq; cbn; auto.
  - rewrite update_user_eq. auto.
  - rewrite delete_user_eq. case_match; cbn [fst]; [|auto].
    rewrite subscribers_flush_deleted. case_bool_decide; [done|auto].
  - unfold create_mailing_list, mbind, M_bind, commit, add, get_async_session.
    cbn [pending deleted app flush_new insert].
    repeat (case_match; cbn); simplify_eq; cbn; auto.
  - rewrite update_mailing_list_eq. auto.
  - rewrite delete_mailing_list_eq. case_match; cbn [fst]; [|auto].
    rewrite subscribers_flush_deleted. case_bool_decide; [done|auto].
  - rewrite create_subscriber_eq. cbn [insert].
    destruct (taken _ _) eqn:Htaken; cbn [fst]; [auto|].
    destruct (foreign_keys && _); cbn [fst subscribers]; [auto|].
    destruct (decide (i = next_id (subscribers db))) as [->|Hne].
    + rewrite lookup_insert_eq. intros [= <-]. right. split_and!; [done..|].
      intros j s' Hj. by rewrite lookup_insert_ne.
    + rewrite lookup_insert_ne by done. auto.
  - rewrite delete_subscriber_eq. case_match; cbn [fst]; [|auto].
    rewrite subscribers_flush_deleted. case_bool_decide; [done|auto].
  - unfold create_template, mbind, M_bind, commit, add, get_async_session.
    cbn [pending deleted app flush_new insert].
    repeat (case_match; cbn); simplify_eq; cbn; auto.
  - rewrite update_template_eq. auto.
  - rewrite delete_template_eq. case_match; cbn [fst]; [|auto].
    rewrite subscribers_flush_deleted. case_bool_decide; [done|auto].
  - unfold create_mailing, mbind, M_bind, commit, add, get_async_session.
    cbn [pending deleted app flush_new insert].
    repeat (case_match; cbn); simplify_eq; cbn; auto.
  - unfold update_mailing, get_mailing_by_id, query, get, mbind, M_bind.
    destruct (mailings db !! mailing_id); cbn; auto.
Qed.

Lemma unique_subscriber_emails_perform c db :
  unique_subscriber_emails db → unique_subscriber_emails (perform c db).
Proof.
  intros Huniq i j s1 s2 Hi Hj Hemail.
  destruct (decide (i = j)) as [|Hij]; [done|exfalso].
  destruct (subscribers_perform c db i s1 Hi) as [Hi'|(Hfree1 & -> & Hothers1)];
    destruct (subscribers_perform c db j s2 Hj) as [Hj'|(Hfree2 & -> & Hothers2)].
  - by apply Hij, (Huniq i j s1 s2).
  - apply not_true_iff_false in Hfree2. apply Hfree2, taken_spec. eauto.
  - apply not_true_iff_false in Hfree1. apply Hfree1, taken_spec. eauto.
  - done.
Qed.

(** C7. In every state the persistence operations can reach no two
    subscriber rows share an email; and [create_subscriber] with an address
    that some subscriber already has, in whatever mailing list, raises the
    unique-constraint violation and leaves the database as it was. *)
Theorem C7_subscriber_email_globally_unique :
  (∀ db, reachable db → unique_subscriber_emails db)
  ∧ (∀ db e l j s,
       subscribers db !! j = Some s → sub_email s = e →
       create_subscriber e l db = (db, inl (IntegrityError "subscribers.email"))).
Proof.
  split.
  - induction 1 as [|db c _ IH].
    + intros i j s1 s2 Hi. cbn [empty_db subscribers] in Hi.
      by rewrite lookup_empty in Hi.
    + by apply unique_subscriber_emails_perform.
  - intros db e l j s Hj He. rewrite create_subscriber_eq. cbn [insert sub_email].
    rewrite (proj2 (taken_spec _ _)); [done|]. eauto.
Qed.

End subscriber_emails.

Lemma C7_subscriber_email_globally_unique_witness :
  dal.unique_subscriber_emails
    (dal.perform (env := sample.env) (dal.call_create_subscriber "dave@example.org" 1)
       (dal.perform (env := sample.env) (dal.call_create_mailing_list "news" 1)
          (dal.perform (env := sample.env)
             (dal.call_create_user "alice" "digest" "alice@example.org" false)
             dal.empty_db)))
  ∧ dal.create_subscriber (env := sample.env) "carol@example.org" 2 sample.db
    = (sample.db, inl (IntegrityError "subscribers.email")).
Proof.
  pose proof (C7_subscriber_email_globally_unique (env := sample.env)) as [Hreach Hdup].
  split.
  - apply Hreach. do 3 apply dal.reachable_perform. apply dal.reachable_empty.
  - apply (Hdup sample.db "carol@example.org" 2 1 (dal.mkSubscriber "carol@example.org" 1));
      reflexivity.
Defined.

(** ** Referential integrity

    The deleting methods never leave a row that points at a deleted one: the
    cascades take every referencing row along.  This is why no delete is
    refused by a foreign key, whether or not the engine enforces them. *)

Section referential_integrity.
Context {env : Environment}.
Import dal.

Lemma users_kept ks db k c :
  users (flush_deleted ks db) !! k = Some c ↔ users db !! k = Some c ∧ (users_t, k) ∉ ks.
Proof. rewrite users_flush_deleted. case_bool_decide; naive_solver. Qed.

Lemma mailing_lists_kept ks db k c :
  mailing_lists (flush_deleted ks db) !! k = Some c
  ↔ mailing_lists db !! k = Some c ∧ (mailing_lists_t, k) ∉ ks.
Proof. rewrite mailing_lists_flush_deleted. case_bool_decide; naive_solver. Qed.

Lemma subscribers_kept ks db k c :
  subscribers (flush_deleted ks db) !! k = Some c
  ↔ subscribers db !! k = Some c ∧ (subscribers_t, k) ∉ ks.
Proof. rewrite subscribers_flush_deleted. case_bool_decide; naive_solver. Qed.

Lemma templates_kept ks db k c :
  templates (flush_deleted ks db) !! k = Some c
  ↔ templates db !! k = Some c ∧ (templates_t, k) ∉ ks.
Proof. rewrite templates_flush_deleted. case_bool_decide; naive_solver. Qed.

Lemma mailings_kept ks db k c :
  mailings (flush_deleted ks db) !! k = Some c
  ↔ mailings db !! k = Some c ∧ (mailings_t, k) ∉ ks.
Proof. rewrite mailings_flush_deleted. case_bool_decide; naive_solver. Qed.

Lemma cascade_user_users db u k : (users_t, k) ∈ cascade_user db u ↔ k = u.
Proof.
  rewrite elem_of_cascade_user. setoid_rewrite elem_of_cascade_mailing_list.
  setoid_rewrite elem_of_cascade_template.
  split; [|by left].
  intros [[_ ?]|[(l & c & _ & _ & H)|[(l & c & _ & _ & H)|[? _]]]]; [done|..|done].
  - by destruct H as [[? _]|[[? _]|[? _]]].
  - by destruct H as [[? _]|[? _]].
Qed.

Lemma cascade_user_mailing_lists db u k :
  (mailing_lists_t, k) ∈ cascade_user db u
  ↔ ∃ c, mailing_lists db !! k = Some c ∧ ml_user_id c = u.
Proof.
  split; [|intros (c & ? & ?); by eapply owned_list_in_cascade_user].
  rewrite elem_of_cascade_user. setoid_rewrite elem_of_cascade_mailing_list.
  setoid_rewrite elem_of_cascade_template.
  intros [[? _]|[(l & c & Hl & Hu & H)|[(l & c & _ & _ & H)|[? _]]]]; [done|..|done].
  - destruct H as [[_ ->]|[[? _]|[? _]]]; [eauto|done..].
  - by destruct H as [[? _]|[? _]].
Qed.

Lemma cascade_user_templates db u k :
  (templates_t, k) ∈ cascade_user db u
  ↔ ∃ c, templates db !! k = Some c ∧ tpl_user_id c = u.
Proof.
  split; [|intros (c & ? & ?); by eapply owned_template_in_cascade_user].
  rewrite elem_of_cascade_user. setoid_rewrite elem_of_cascade_mailing_list.
  setoid_rewrite elem_of_cascade_template.
  intros [[? _]|[(l & c & _ & _ & H)|[(l & c & Hl & Hu & H)|[? _]]]]; [done|..|done].
  - by destruct H as [[? _]|[[? _]|[? _]]].
  - destruct H as [[_ ->]|[? _]]; [eauto|done].
Qed.

Lemma cascade_user_subscribers db u k :
  (subscribers_t, k) ∈ cascade_user db u
  ↔ ∃ s c, subscribers db !! k = Some s
           ∧ mailing_lists db !! sub_mailing_list_id s = Some c ∧ ml_user_id c = u.
Proof.
  rewrite elem_of_cascade_user. setoid_rewrite elem_of_cascade_mailing_list.
  setoid_rewrite elem_of_cascade_template. split.
  - intros [[? _]|[(l & c & Hl & Hu & H)|[(l & c & _ & _ & H)|[? _]]]]; [done|..|done].
    + destruct H as [[? _]|[[_ (s & Hs & <-)]|[? _]]]; [done|eauto|done].
    + by destruct H as [[? _]|[? _]].
  - intros (s & c & Hs & Hc & Hu). right; left.
    exists (sub_mailing_list_id s), c. split_and!; [done..|]. right; left. eauto.
Qed.

Lemma cascade_user_mailings db u k :
  (mailings_t, k) ∈ cascade_user db u
  ↔ ∃ m, mailings db !! k = Some m
         ∧ (m_user_id m = u
            ∨ (∃ c, mailing_lists db !! m_mailing_list_id m = Some c ∧ ml_user_id c = u)
            ∨ (∃ c, templates db !! m_template_id m = Some c ∧ tpl_user_id c = u)).
Proof.
  rewrite elem_of_cascade_user. setoid_rewrite elem_of_cascade_mailing_list.
  setoid_rewrite elem_of_cascade_template. split.
  - intros [[? _]|[(l & c & Hl & Hu & H)|[(l & c & Hl & Hu & H)|[_ (m & Hm & Hu)]]]];
      [done|..].
    + destruct H as [[? _]|[[? _]|[_ (m & Hm & <-)]]]; [done..|]. eauto 10.
    + destruct H as [[? _]|[_ (m & Hm & <-)]]; [done|]. eauto 10.
    + eauto.
  - intros (m & Hm & [Hu|[(c & Hc & Hu)|(c & Hc & Hu)]]).
    + do 3 right. eauto.
    + right; left. exists (m_mailing_list_id m), c. split_and!; [done..|].
      do 2 right. eauto.
    + right; right; left. exists (m_template_id m), c. split_and!; [done..|].
      right. eauto.
Qed.

Lemma delete_user_references db u :
  references_ok db → references_ok (delete_user u db).1.
Proof.
  rewrite delete_user_eq. destruct (users db !! u) as [row|] eqn:Hu; [|done]. cbn [fst].
  intros (Hl & Hs & Ht & Hm). split_and!.
  - intros k c [Hk Hnot]%mailing_lists_kept. destruct (Hl k c Hk) as [cu Hcu].
    exists cu. apply users_kept. split; [done|]. rewrite cascade_user_users.
    intros Heq. apply Hnot, cascade_user_mailing_lists. eauto.
  - intros k s [Hk Hnot]%subscribers_kept. destruct (Hs k s Hk) as [c Hc].
    exists c. apply mailing_lists_kept. split; [done|]. rewrite cascade_user_mailing_lists.
    intros (c' & Hc' & Hu'). apply Hnot, cascade_user_subscribers.
    exists s, c'. eauto.
  - intros k c [Hk Hnot]%templates_kept. destruct (Ht k c Hk) as [cu Hcu].
    exists cu. apply users_kept. split; [done|]. rewrite cascade_user_users.
    intros Heq. apply Hnot, cascade_user_templates. eauto.
  - intros k m [Hk Hnot]%mailings_kept.
    destruct (Hm k m Hk) as ([cl Hcl] & [ct Hct] & [cu Hcu]).
    rewrite cascade_user_mailings in Hnot. split_and!.
    + exists cl. apply mailing_lists_kept. split; [done|].
      rewrite cascade_user_mailing_lists. intros (c' & Hc' & Hu'). apply Hnot. eauto 10.
    + exists ct. apply templates_kept. split; [done|].
      rewrite cascade_user_templates. intros (c' & Hc' & Hu'). apply Hnot. eauto 10.
    + exists cu. apply users_kept. split; [done|].
      rewrite cascade_user_users. intros Heq. apply Hnot. eauto.
Qed.

Lemma delete_mailing_list_references db i :
  references_ok db → references_ok (delete_mailing_list i db).1.
Proof.
  rewrite delete_mailing_list_eq. destruct (mailing_lists db !! i) as [row|] eqn:Hi; [|done].
  cbn [fst]. intros (Hl & Hs & Ht & Hm).
  assert (∀ k, (users_t, k) ∉ cascade_mailing_list db i) as Husers.
  { intros k. rewrite elem_of_cascade_mailing_list.
    by intros [[? _]|[[? _]|[? _]]]. }
  assert (∀ k, (templates_t, k) ∉ cascade_mailing_list db i) as Htemplates.
  { intros k. rewrite elem_of_cascade_mailing_list.
    by intros [[? _]|[[? _]|[? _]]]. }
  assert (∀ k, (mailing_lists_t, k) ∈ cascade_mailing_list db i → k = i) as Hlists.
  { intros k. rewrite elem_of_cascade_mailing_list.
    by intros [[_ ?]|[[? _]|[? _]]]. }
  split_and!.
  - intros k c [Hk Hnot]%mailing_lists_kept. destruct (Hl k c Hk) as [cu Hcu].
    exists cu. by apply users_kept.
  - intros k s [Hk Hnot]%subscribers_kept. destruct (Hs k s Hk) as [c Hc].
    exists c. apply mailing_lists_kept. split; [done|].
    intros Heq%Hlists. apply Hnot, elem_of_cascade_mailing_list. right; left. eauto.
  - intros k c [Hk Hnot]%templates_kept. destruct (Ht k c Hk) as [cu Hcu].
    exists cu. by apply users_kept.
  - intros k m [Hk Hnot]%mailings_kept.
    destruct (Hm k m Hk) as ([cl Hcl] & [ct Hct] & [cu Hcu]). split_and!.
    + exists cl. apply mailing_lists_kept. split; [done|].
      intros Heq%Hlists. apply Hnot, elem_of_cascade_mailing_list. do 2 right. eauto.
    + exists ct. by apply templates_kept.
    + exists cu. by apply users_kept.
Qed.

Lemma delete_template_references db i :
  references_ok db → references_ok (delete_template i db).1.
Proof.
  rewrite delete_template_eq. destruct (templates db !! i) as [row|] eqn:Hi; [|done].
  cbn [fst]. intros (Hl & Hs & Ht & Hm).
  assert (∀ k, (users_t, k) ∉ cascade_template db i) as Husers.
  { intros k. rewrite elem_of_cascade_template. by intros [[? _]|[? _]]. }
  assert (∀ k, (mailing_lists_t, k) ∉ cascade_template db i) as Hlists.
  { intros k. rewrite elem_of_cascade_template. by intros [[? _]|[? _]]. }
  assert (∀ k, (templates_t, k) ∈ cascade_template db i → k = i) as Htemplates.
  { intros k. rewrite elem_of_cascade_template. by intros [[_ ?]|[? _]]. }
  split_and!.
  - intros k c [Hk Hnot]%mailing_lists_kept. destruct (Hl k c Hk) as [cu Hcu].
    exists cu. by apply users_kept.
  - intros k s [Hk Hnot]%subscribers_kept. destruct (Hs k s Hk) as [c Hc].
    exists c. by apply mailing_lists_kept.
  - intros k c [Hk Hnot]%templates_kept. destruct (Ht k c Hk) as [cu Hcu].
    exists cu. by apply users_kept.
  - intros k m [Hk Hnot]%mailings_kept.
    destruct (Hm k m Hk) as ([cl Hcl] & [ct Hct] & [cu Hcu]). split_and!.
    + exists cl. by apply mailing_lists_kept.
    + exists ct. apply templates_kept. split; [done|].
      intros Heq%Htemplates. apply Hnot, elem_of_cascade_template. right. eauto.
    + exists cu. by apply users_kept.
Qed.

Lemma delete_subscriber_references db i :
  references_ok db → references_ok (delete_subscriber i db).1.
Proof.
  rewrite delete_subscriber_eq. destruct (subscribers db !! i) as [row|] eqn:Hi; [|done].
  cbn [fst]. intros (Hl & Hs & Ht & Hm).
  assert (∀ t k, t ≠ subscribers_t → (t, k) ∉ [(subscribers_t, i)]) as Hother.
  { intros t k Ht' Hin. apply list_elem_of_singleton in Hin. congruence. }
  split_and!.
  - intros k c [Hk Hnot]%mailing_lists_kept. destruct (Hl k c Hk) as [cu Hcu].
    exists cu. apply users_kept. split; [done|]. by apply Hother.
  - intros k s [Hk Hnot]%subscribers_kept. destruct (Hs k s Hk) as [c Hc].
    exists c. apply mailing_lists_kept. split; [done|]. by apply Hother.
  - intros k c [Hk Hnot]%templates_kept. destruct (Ht k c Hk) as [cu Hcu].
    exists cu. apply users_kept. split; [done|]. by apply Hother.
  - intros k m [Hk Hnot]%mailings_kept.
    destruct (Hm k m Hk) as ([cl Hcl] & [ct Hct] & [cu Hcu]). split_and!.
    + exists cl. apply mailing_lists_kept. split; [done|]. by apply Hother.
    + exists ct. apply templates_kept. split; [done|]. by apply Hother.
    + exists cu. apply users_kept. split; [done|]. by apply Hother.
Qed.

(** With the foreign keys enforced, the creating methods cannot introduce a
    dangling reference either, so every reachable state is referentially
    intact. *)

Lemma commit_add o db :
  commit (add o get_async_session) db =
    match insert o db with
    | inl e => (db, inl e)
    | inr (db', k) => (db', inr [k])
    end.
Proof.
  unfold commit, add, get_async_session. cbn [pending deleted app flush_new].
  by destruct (insert o db) as [e|[db' k]].
Qed.

Lemma missing_false {C} (m : gmap Z C) (i : Z) : missing m i = false → is_Some (m !! i).
Proof.
  unfold missing. intros Hm%bool_decide_eq_false. by apply not_eq_None_Some.
Qed.

Lemma is_Some_insert {C} (m : gmap Z C) (i j : Z) (c : C) :
  is_Some (m !! j) → is_Some (<[i := c]> m !! j).
Proof. intros Hj. apply lookup_insert_is_Some. destruct (decide (i = j)); auto. Qed.

Lemma insert_references o db db' k :
  foreign_keys = true → references_ok db → insert o db = inr (db', k) →
  references_ok db'.
Proof.
  intros Hfk (Hl & Hs & Ht & Hm). destruct o as [c|c|c|c|c]; cbn [insert]; rewrite ?Hfk;
    cbn [andb].
  - repeat case_match; try done. intros [= <- <-]. unfold references_ok.
    cbn [users mailing_lists subscribers templates mailings]. split_and!; [| done | | ].
    + intros k' c' Hk'. apply is_Some_insert. eauto.
    + intros k' c' Hk'. apply is_Some_insert. eauto.
    + intros k' c' Hk'. destruct (Hm k' c' Hk') as (? & ? & ?).
      split_and!; [done..|]. by apply is_Some_insert.
  - destruct (missing _ _) eqn:Hmiss; [done|]. apply missing_false in Hmiss.
    intros [= <- <-]. unfold references_ok.
    cbn [users mailing_lists subscribers templates mailings].
    split_and!; [| | done | ].
    + intros k' c' [[<- <-]|[? Hk']]%lookup_insert_Some; eauto.
    + intros k' c' Hk'. apply is_Some_insert. eauto.
    + intros k' c' Hk'. destruct (Hm k' c' Hk') as (? & ? & ?).
      split_and!; [|done..]. by apply is_Some_insert.
  - destruct (taken _ _); [done|].
    destruct (missing _ _) eqn:Hmiss; [done|]. apply missing_false in Hmiss.
    intros [= <- <-]. unfold references_ok.
    cbn [users mailing_lists subscribers templates mailings].
    split_and!; [done | | done | done].
    intros k' c' [[<- <-]|[? Hk']]%lookup_insert_Some; eauto.
  - destruct (missing _ _) eqn:Hmiss; [done|]. apply missing_false in Hmiss.
    intros [= <- <-]. unfold references_ok.
    cbn [users mailing_lists subscribers templates mailings].
    split_and!; [done | done | | ].
    + intros k' c' [[<- <-]|[? Hk']]%lookup_insert_Some; eauto.
    + intros k' c' Hk'. destruct (Hm k' c' Hk') as (? & ? & ?).
      split_and!; [done| |done]. by apply is_Some_insert.
  - destruct (missing (mailing_lists db) _) eqn:Hm1; [done|].
    destruct (missing (templates db) _) eqn:Hm2; [done|].
    destruct (missing (users db) _) eqn:Hm3; [done|].
    apply missing_false in Hm1, Hm2, Hm3. cbn [orb].
    intros [= <- <-]. unfold references_ok.
    cbn [users mailing_lists subscribers templates mailings].
    split_and!; [done..|].
    intros k' c' [[<- <-]|[? Hk']]%lookup_insert_Some; eauto.
Qed.

Lemma created_references o db :
  foreign_keys = true → references_ok db → references_ok (commit (add o get_async_session) db).1.
Proof.
  intros Hfk Hok. rewrite commit_add.
  destruct (insert o db) as [e|[db' k]] eqn:Hins; [done|].
  by eapply insert_references.
Qed.

Lemma perform_references c db :
  foreign_keys = true → references_ok db → references_ok (perform c db).
Proof.
  intros Hfk Hok.
  destruct c as [un hp em adm | i un hp em adm | i | nm u | i nm | i | em l | i
                | nm ct u | i nm ct | i | l t at_ u | i at_]; cbn [perform].
  - unfold create_user, mbind, M_bind.
    pose proof (created_references (NewUser (mkUser un hp em true adm)) db Hfk Hok) as H.
    by destruct (commit _ db) as [db' [e|[|k ks]]].
  - by rewrite update_user_eq.
  - by apply delete_user_references.
  - unfold create_mailing_list, mbind, M_bind.
    pose proof (created_references (NewMailingList (mkMailingList nm u)) db Hfk Hok) as H.
    by destruct (commit _ db) as [db' [e|[|k ks]]].
  - by rewrite update_mailing_list_eq.
  - by apply delete_mailing_list_references.
  - unfold create_subscriber, mbind, M_bind.
    pose proof (created_references (NewSubscriber (mkSubscriber em l)) db Hfk Hok) as H.
    by destruct (commit _ db) as [db' [e|[|k ks]]].
  - by apply delete_subscriber_references.
  - unfold create_template, mbind, M_bind.
    pose proof (created_references (NewTemplate (mkTemplate nm ct u)) db Hfk Hok) as H.
    by destruct (commit _ db) as [db' [e|[|k ks]]].
  - by rewrite update_template_eq.
  - by apply delete_template_references.
  - unfold create_mailing, mbind, M_bind.
    pose proof (created_references (NewMailing (mkMailing l t (Some at_) None u))
                  db Hfk Hok) as H.
    by destruct (commit _ db) as [db' [e|[|k ks]]].
  - unfold update_mailing, get_mailing_by_id, query, get, mbind, M_bind.
    by destruct (mailings db !! i).
Qed.

Lemma reachable_references_ok db :
  foreign_keys = true → reachable db → references_ok db.
Proof.
  intros Hfk. induction 1 as [|db c _ IH].
  - split_and!; intros k c Hk; cbn in Hk; by rewrite lookup_empty in Hk.
  - by apply perform_references.
Qed.

End referential_integrity.

(** ** Tokens *)

Section tokens.
Context {env : Environment}.
Import api.

Lemma jwt_decode_issued (now t : Z) (data : gmap string Z) (expires_delta : Z) :
  jwt_decode t (create_access_token now data expires_delta) SECRET_KEY [ALGORITHM]
  = match validate_claims t (<["exp" := now + expires_delta]> data) with
    | Some e => inl e
    | None => inr (<["exp" := now + expires_delta]> data)
    end.
Proof.
  unfold create_access_token, jwt_encode, jwt_decode.
  rewrite bool_decide_true by (apply list_elem_of_singleton; reflexivity).
  by rewrite String.eqb_refl.
Qed.

(** The claims of the tokens that logging in gives: only [exp] can fail. *)
Lemma validate_claims_user_id (t i exp : Z) :
  validate_claims t (<["exp" := exp]> {["user_id" := i]})
  = if (exp <? t)%Z then Some ExpiredSignatureError else None.
Proof.
  unfold validate_claims, validate_nbf, validate_exp, refuse.
  rewrite lookup_insert_eq.
  rewrite !lookup_insert_ne, !lookup_singleton_ne by done.
  by destruct (exp <? t)%Z.
Qed.

Lemma verify_token_issued (now t i expires_delta : Z) :
  verify_token t (create_access_token now {["user_id" := i]} expires_delta)
  = if (now + expires_delta <? t)%Z then None
    else Some (<["exp" := now + expires_delta]> {["user_id" := i]}).
Proof.
  unfold verify_token. rewrite jwt_decode_issued, validate_claims_user_id.
  by destruct (now + expires_delta <? t)%Z.
Qed.

Lemma verify_token_bad_signature (t : Z) (alg : string) (claims : gmap string Z)
    (signature : string) :
  signature ≠ HS256 SECRET_KEY (alg, claims) →
  verify_token t (JWS alg claims signature) = None.
Proof.
  intros Hsig. unfold verify_token, jwt_decode.
  destruct (negb (bool_decide _)); [done|].
  apply String.eqb_neq in Hsig. by rewrite Hsig.
Qed.

(** C5. The token issued for user [U] at time [now] with the default
    lifetime carries [U]'s id and the expiry [now] + 30 minutes.  Verified
    no later than that, it yields claims whose [user_id] is [U]'s id;
    verified later, it yields [None] (the decoder raised
    [ExpiredSignatureError], which [verify_token] catches).  Any token whose
    signature is not the one the secret gives for its header and payload,
    and any string that is not a token at all, yields [None] too. *)
Theorem C5_token_lifecycle (U : dal.User) (now t : Z) :
  (∃ signature,
     create_access_token now {["user_id" := dal.id U]} default_expires_delta
     = JWS "HS256" (<["exp" := (now + 30 * 60)%Z]> {["user_id" := dal.id U]}) signature)
  ∧ ((t ≤ now + 30 * 60)%Z →
     ∃ claims,
       verify_token t
         (create_access_token now {["user_id" := dal.id U]} default_expires_delta)
       = Some claims
       ∧ claims !! "user_id" = Some (dal.id U)
       ∧ claims !! "exp" = Some (now + 30 * 60)%Z)
  ∧ ((now + 30 * 60 < t)%Z →
     verify_token t
       (create_access_token now {["user_id" := dal.id U]} default_expires_delta)
     = None
     ∧ jwt_decode t
         (create_access_token now {["user_id" := dal.id U]} default_expires_delta)
         SECRET_KEY [ALGORITHM]
       = inl ExpiredSignatureError)
  ∧ (∀ alg claims signature,
       signature ≠ HS256 SECRET_KEY (alg, claims) →
       verify_token t (JWS alg claims signature) = None)
  ∧ (∀ s, verify_token t (Malformed s) = None).
Proof.
  change default_expires_delta with (30 * 60)%Z.
  split_and!.
  - by eexists.
  - intros Ht. rewrite verify_token_issued.
    destruct (Z.ltb_spec (now + 30 * 60) t) as [?|_]; [lia|].
    eexists. split; [reflexivity|]. split.
    + by rewrite lookup_insert_ne, lookup_singleton_eq.
    + by rewrite lookup_insert_eq.
  - intros Ht. split.
    + rewrite verify_token_issued.
      destruct (Z.ltb_spec (now + 30 * 60) t) as [_|?]; [done|lia].
    + rewrite jwt_decode_issued, validate_claims_user_id.
      destruct (Z.ltb_spec (now + 30 * 60) t) as [_|?]; [done|lia].
  - intros alg claims signature. apply verify_token_bad_signature.
  - done.
Qed.

End tokens.

Lemma C5_token_lifecycle_witness :
  (∃ claims,
     api.verify_token (env := sample.env) 2800
       (api.create_access_token (env := sample.env) 1000 {["user_id" := 2]}
          api.default_expires_delta)
     = Some claims
     ∧ claims !! "user_id" = Some 2)
  ∧ api.verify_token (env := sample.env) 2801
      (api.create_access_token (env := sample.env) 1000 {["user_id" := 2]}
         api.default_expires_delta)
    = None
  ∧ api.verify_token (env := sample.env) 1001
      (api.JWS "HS256" (<["exp" := 2800]> {["user_id" := 1]}) "forged")
    = None.
Proof.
  pose proof (C5_token_lifecycle (env := sample.env) sample.bob_user 1000 2800)
    as (_ & Hvalid & _).
  pose proof (C5_token_lifecycle (env := sample.env) sample.bob_user 1000 2801)
    as (_ & _ & Hexpired & _).
  pose proof (C5_token_lifecycle (env := sample.env) sample.bob_user 1000 1001)
    as (_ & _ & _ & Hforged & _).
  split_and!.
  - destruct Hvalid as (claims & Hclaims & Hid & _); [lia|]. by exists claims.
  - apply Hexpired. lia.
  - apply Hforged. vm_compute. discriminate.
Defined.

(** ** Authentication *)

Section authentication.
Context {env : Environment}.
Import api.

Lemma get_current_user_eq (now : Z) (t : token) (db : dal.DB) :
  get_current_user now t db =
    match verify_token now t with
    | None => (db, inl (HTTPException 401 "Invalid token"))
    | Some payload =>
        match payload !! "user_id" with
        | None => (db, inl (HTTPException 401 "Invalid token"))
        | Some user_id =>
            match dal.users db !! user_id with
            | None => (db, inl (HTTPException 401 "Invalid user"))
            | Some c => (db, inr (dal.mkRow user_id c))
            end
        end
    end.
Proof.
  unfold get_current_user, dal.get_user_by_id, dal.query, dal.get, dal.raise,
    mbind, dal.M_bind.
  destruct (verify_token now t) as [payload|]; [|done].
  destruct (payload !! "user_id") as [user_id|]; [|done].
  by destruct (dal.users db !! user_id).
Qed.

Lemma current_user_of_eq (now : Z) (authorization : option token) (db : dal.DB) :
  current_user_of now authorization db =
    match authorization with
    | None => (db, inl (HTTPException 401 "Not authenticated"))
    | Some t => get_current_user now t db
    end.
Proof. by destruct authorization. Qed.

(** C2, as the code has it.  Every failure of the authentication chain is
    an HTTP 401 and leaves the database alone, but the detail that comes
    with it depends on the step that failed: [Not authenticated] when the
    request carries no token, [Invalid token] when the token does not verify
    (malformed, wrong signature, expired) or verifies without a [user_id]
    claim, [Invalid user] when the claimed id resolves to no user.  Each of
    these causes does make the chain fail. *)
Theorem C2_authentication_failures_are_401
    (now : Z) (authorization : option token) (db : dal.DB) :
  (∀ e, (current_user_of now authorization db).2 = inl e →
     (current_user_of now authorization db).1 = db
     ∧ status 200 (current_user_of now authorization db).2 = 401
     ∧ (e = HTTPException 401 "Not authenticated"
        ∨ e = HTTPException 401 "Invalid token"
        ∨ e = HTTPException 401 "Invalid user"))
  ∧ (authorization = None →
     current_user_of now authorization db
       = (db, inl (HTTPException 401 "Not authenticated")))
  ∧ (∀ t, authorization = Some t → verify_token now t = None →
     current_user_of now authorization db
       = (db, inl (HTTPException 401 "Invalid token")))
  ∧ (∀ t payload, authorization = Some t → verify_token now t = Some payload →
     payload !! "user_id" = None →
     current_user_of now authorization db
       = (db, inl (HTTPException 401 "Invalid token")))
  ∧ (∀ t payload user_id, authorization = Some t →
     verify_token now t = Some payload → payload !! "user_id" = Some user_id →
     dal.users db !! user_id = None →
     current_user_of now authorization db
       = (db, inl (HTTPException 401 "Invalid user"))).
Proof.
  rewrite current_user_of_eq. split_and!.
  - intros e. destruct authorization as [t|].
    + rewrite get_current_user_eq.
      destruct (verify_token now t) as [payload|]; [|cbn; naive_solver].
      destruct (payload !! "user_id") as [user_id|]; [|cbn; naive_solver].
      destruct (dal.users db !! user_id); cbn; naive_solver.
    + cbn. naive_solver.
  - by intros ->.
  - intros t -> Ht. by rewrite get_current_user_eq, Ht.
  - intros t payload -> Ht Hid. by rewrite get_current_user_eq, Ht, Hid.
  - intros t payload user_id -> Ht Hid Hu.
    by rewrite get_current_user_eq, Ht, Hid, Hu.
Qed.

(** A token the service issued resolves to its user as long as it has not
    expired and the user exists. *)
Lemma get_current_user_issued (now t : Z) (db : dal.DB) (i : Z) (c : dal.UserCols) :
  (t ≤ now + default_expires_delta)%Z →
  dal.users db !! i = Some c →
  get_current_user t (create_access_token now {["user_id" := i]} default_expires_delta) db
  = (db, inr (dal.mkRow i c)).
Proof.
  intros Ht Hi. rewrite get_current_user_eq, verify_token_issued.
  destruct (Z.ltb_spec (now + default_expires_delta) t) as [?|_]; [lia|].
  by rewrite lookup_insert_ne, lookup_singleton_eq, Hi.
Qed.

Lemma get_current_user_issued_gone (now t : Z) (db : dal.DB) (i : Z) :
  (t ≤ now + default_expires_delta)%Z →
  dal.users db !! i = None →
  get_current_user t (create_access_token now {["user_id" := i]} default_expires_delta) db
  = (db, inl (HTTPException 401 "Invalid user")).
Proof.
  intros Ht Hi. rewrite get_current_user_eq, verify_token_issued.
  destruct (Z.ltb_spec (now + default_expires_delta) t) as [?|_]; [lia|].
  by rewrite lookup_insert_ne, lookup_singleton_eq, Hi.
Qed.

End authentication.

(** C2 as stated fails, whatever the signing function and the secret: at
    time 10, in the sample database, a string that is not a token is
    refused with [Invalid token], and the token issued at time 0 for user
    99, who does not exist, is refused with [Invalid user].  The two
    outcomes are not the same. *)
Lemma C2_counterexample :
  ¬ ∃ env : Environment,
      (api.get_current_user (env := env) 10 (api.Malformed "garbage") sample.db).2
      = (api.get_current_user (env := env) 10
           (api.create_access_token (env := env) 0 {["user_id" := 99]}
              api.default_expires_delta)
           sample.db).2.
Proof.
  intros [env Heq].
  rewrite (get_current_user_issued_gone (env := env) 0 10 sample.db 99) in Heq;
    [|vm_compute; discriminate|reflexivity].
  rewrite get_current_user_eq in Heq. cbn in Heq. discriminate.
Qed.

Lemma C2_authentication_failures_are_401_witness :
  api.current_user_of (env := sample.env) 10 (Some (api.Malformed "garbage")) sample.db
    = (sample.db, inl (HTTPException 401 "Invalid token"))
  ∧ api.status 200
      (api.current_user_of (env := sample.env) 10
         (Some (api.create_access_token (env := sample.env) 0 {["user_id" := 99]}
                  api.default_expires_delta))
         sample.db).2
    = 401.
Proof.
  split.
  - pose proof (C2_authentication_failures_are_401 (env := sample.env) 10
                  (Some (api.Malformed "garbage")) sample.db) as (_ & _ & Hbad & _).
    by apply (Hbad (api.Malformed "garbage")).
  - pose proof (C2_authentication_failures_are_401 (env := sample.env) 10
                  (Some (api.create_access_token (env := sample.env) 0 {["user_id" := 99]}
                           api.default_expires_delta))
                  sample.db) as (Hfail & _).
    apply (Hfail (HTTPException 401 "Invalid user")). vm_compute. reflexivity.
Defined.

(** ** Registration *)

Section registration.
Context {env : Environment}.
Import api.

Lemma create_user_eq db u h e a :
  dal.create_user u h e a db =
    match dal.insert (dal.NewUser (dal.mkUser u h e true a)) db with
    | inl err => (db, inl err)
    | inr (db', k) => (db', inr (dal.mkRow k (dal.mkUser u h e true a)))
    end.
Proof.
  unfold dal.create_user, mbind, dal.M_bind, dal.commit, dal.add, dal.get_async_session.
  cbn [dal.pending dal.deleted app dal.flush_new].
  by destruct (dal.insert _ db) as [err|[db' k]].
Qed.

Lemma taken_false {C} (P : C → Prop) `{!∀ c, Decision (P c)} (m : gmap Z C) :
  (∀ k c, m !! k = Some c → ¬ P c) → dal.taken P m = false.
Proof.
  intros Hfree. apply not_true_iff_false. rewrite taken_spec.
  intros (k & c & Hk & HP). by apply (Hfree k c).
Qed.

Lemma get_hashed_password_accepted (salt password : string) :
  validate_secret password = None →
  get_hashed_password salt password = inr (to_string salt (bcrypt salt password)).
Proof. intros Hok. unfold get_hashed_password, pwd_context_hash. by rewrite Hok. Qed.

Lemma get_hashed_password_refused (salt password : string) (e : exn) :
  validate_secret password = Some e → get_hashed_password salt password = inl e.
Proof. intros Hno. unfold get_hashed_password, pwd_context_hash. by rewrite Hno. Qed.

Lemma get_hashed_password_inr (salt password digest : string) :
  get_hashed_password salt password = inr digest →
  validate_secret password = None ∧ digest = to_string salt (bcrypt salt password).
Proof.
  unfold get_hashed_password, pwd_context_hash.
  destruct (validate_secret password); [done|]. by intros [= <-].
Qed.

Lemma create_new_user_accepted (salt : string) (user : UserCreate) (db : dal.DB) :
  validate_secret (password user) = None →
  create_new_user salt user db
  = dal.create_user (username user) (to_string salt (bcrypt salt (password user)))
      (email user) (is_admin user) db.
Proof. intros Hok. unfold create_new_user. by rewrite get_hashed_password_accepted. Qed.

Lemma create_new_user_refused (salt : string) (user : UserCreate) (db : dal.DB) (e : exn) :
  validate_secret (password user) = Some e → create_new_user salt user db = (db, inl e).
Proof.
  intros Hno. unfold create_new_user. by rewrite (get_hashed_password_refused _ _ e).
Qed.

(** C10. [create_new_user] takes the request body and nothing else: no
    token, no current user.  When the username and the email are free and
    the password is one the hasher takes, it creates the user with the
    [is_admin] flag of the body, as given.  With [is_admin] set in the body
    the new user is stored as an admin, passes [get_current_admin], and the
    token issued for it opens the admin-only routes.  A password that the
    hasher refuses makes the handler raise before anything is stored. *)
Theorem C10_registration_persists_is_admin
    (db : dal.DB) (salt : string) (user : UserCreate) (now t : Z) :
  (∀ e, validate_secret (password user) = Some e →
        create_new_user salt user db = (db, inl e))
  ∧ ((∀ k c, dal.users db !! k = Some c →
             dal.username c ≠ username user ∧ dal.email c ≠ email user) →
     validate_secret (password user) = None →
     ∃ db' u,
       create_new_user salt user db = (db', inr u)
       ∧ dal.users db' !! dal.id u = Some (dal.cols u)
       ∧ dal.username (dal.cols u) = username user
       ∧ dal.is_admin (dal.cols u) = is_admin user
       ∧ (is_admin user = true → (t ≤ now + default_expires_delta)%Z →
          get_current_admin u db' = (db', inr u)
          ∧ current_admin_of t
              (Some (create_access_token now {["user_id" := dal.id u]}
                       default_expires_delta))
              db'
            = (db', inr u))).
Proof.
  split; [intros e; apply create_new_user_refused|].
  intros Hfree Hok. rewrite create_new_user_accepted, create_user_eq by done.
  cbn [dal.insert dal.username dal.email].
  rewrite !taken_false by (intros k c Hk; cbn; naive_solver). cbn [andb].
  eexists _, _. split; [reflexivity|]. cbn [dal.id dal.cols dal.users].
  split_and!; [by rewrite lookup_insert_eq|done..|].
  intros Hadmin Ht.
  assert (get_current_admin
            (dal.mkRow (dal.next_id (dal.users db))
               (dal.mkUser (username user) (to_string salt (bcrypt salt (password user)))
                  (email user) true (is_admin user)))
          = mret (dal.mkRow (dal.next_id (dal.users db))
               (dal.mkUser (username user) (to_string salt (bcrypt salt (password user)))
                  (email user) true (is_admin user)))) as Hgate.
  { unfold get_current_admin. cbn [dal.cols dal.is_admin]. by rewrite Hadmin. }
  split.
  - by rewrite Hgate.
  - unfold current_admin_of, current_user_of, oauth2_scheme, mbind, dal.M_bind.
    cbn [mret dal.M_ret].
    rewrite (get_current_user_issued now t _ _
               (dal.mkUser (username user) (to_string salt (bcrypt salt (password user)))
                  (email user) true (is_admin user)))
      by (done || apply lookup_insert_eq).
    by rewrite Hgate.
Qed.

End registration.

Lemma C10_registration_persists_is_admin_witness :
  ∃ db' u,
    api.create_new_user (env := sample.env) "0123456789012345678901"
      (api.mkUserCreate "mallory" "hunter2" "mallory@example.org" true) sample.db
    = (db', inr u)
    ∧ dal.is_admin (dal.cols u) = true
    ∧ api.get_current_admin u db' = (db', inr u).
Proof.
  destruct (C10_registration_persists_is_admin (env := sample.env) sample.db
              "0123456789012345678901"
              (api.mkUserCreate "mallory" "hunter2" "mallory@example.org" true) 0 0)
    as [_ Hregister].
  destruct Hregister as (db' & u & Hcreate & _ & _ & Hflag & Hadmin).
  - intros k c Hk.
    destruct (decide (k = 1)) as [->|?]; [vm_compute in Hk; by injection Hk as <-|].
    destruct (decide (k = 2)) as [->|?]; [vm_compute in Hk; by injection Hk as <-|].
    exfalso. unfold sample.db in Hk. cbn [dal.users] in Hk.
    rewrite lookup_insert_ne, lookup_singleton_ne in Hk by done. done.
  - reflexivity.
  - exists db', u. split_and!; [exact Hcreate | exact Hflag |].
    apply Hadmin; [reflexivity | vm_compute; discriminate].
Defined.

(** ** Passwords *)

Section passwords.
Context {env : Environment}.
Import api.

Lemma append_cons (a : Ascii.ascii) (s1 s2 : string) :
  String.append (String a s1) s2 = String a (String.append s1 s2).
Proof. reflexivity. Qed.

Lemma string_length_append (s1 s2 : string) :
  String.length (String.append s1 s2) = (String.length s1 + String.length s2)%nat.
Proof.
  induction s1 as [|a s1 IH]; [done|].
  rewrite append_cons. cbn [String.length]. by rewrite IH.
Qed.

Lemma substring_all (s : string) : String.substring 0 (String.length s) s = s.
Proof. induction s as [|a s IH]; cbn; [done|]. by rewrite IH. Qed.

Lemma substring_append_l (s1 s2 : string) :
  String.substring 0 (String.length s1) (String.append s1 s2) = s1.
Proof.
  induction s1 as [|a s1 IH].
  - by destruct s2.
  - rewrite append_cons. cbn [String.length String.substring]. by rewrite IH.
Qed.

Lemma substring_append_r (s1 s2 : string) :
  String.substring (String.length s1) (String.length s2) (String.append s1 s2) = s2.
Proof.
  induction s1 as [|a s1 IH]; [apply substring_all|].
  rewrite append_cons. cbn [String.length String.substring]. exact IH.
Qed.

Lemma parse_hash_digest (salt checksum : string) :
  String.length salt = 22%nat →
  parse_hash (String.append bcrypt_ident (String.append salt checksum))
  = Some (salt, checksum).
Proof.
  intros Hsalt. unfold parse_hash, bcrypt_ident.
  rewrite !append_cons.
  change (String.append "" ?s) with s.
  cbn [String.prefix String.length String.substring Nat.leb Nat.sub andb].
  repeat (destruct (Ascii.ascii_dec _ _) as [_|?]; [|done]).
  rewrite string_length_append, Hsalt.
  cbn [Nat.add Nat.leb Nat.sub andb].
  rewrite <- Hsalt at 1. rewrite substring_append_l.
  rewrite Nat.sub_0_r, <- Hsalt, substring_append_r.
  by destruct (String.append salt checksum).
Qed.

Lemma parse_hash_to_string (salt checksum : string) :
  String.length salt = 22%nat → parse_hash (to_string salt checksum) = Some (salt, checksum).
Proof. apply parse_hash_digest. Qed.

Lemma verify_password_digest (salt password password' : string) :
  String.length salt = 22%nat →
  verify_password password' (to_string salt (bcrypt salt password))
  = match validate_secret password' with
    | Some e => inl e
    | None => inr (String.eqb (bcrypt salt password') (bcrypt salt password))
    end.
Proof.
  intros Hsalt. unfold verify_password, pwd_context_verify.
  by rewrite parse_hash_to_string.
Qed.

Lemma to_string_salt_inj (salt salt' checksum checksum' : string) :
  String.length salt = 22%nat → String.length salt' = 22%nat →
  to_string salt checksum = to_string salt' checksum' →
  salt = salt'.
Proof.
  intros Hs Hs' Heq.
  assert (parse_hash (to_string salt checksum) = parse_hash (to_string salt' checksum'))
    as Hparse by by rewrite Heq.
  rewrite !parse_hash_to_string in Hparse by done. by injection Hparse.
Qed.

Lemma has_NUL_spec (s : string) :
  has_NUL s = true ↔ ∃ s1 s2, s = String.append s1 (String Ascii.zero s2).
Proof.
  induction s as [|a s IH]; cbn [has_NUL].
  - split; [done|]. intros ([|a1 s1] & s2 & Heq); discriminate.
  - rewrite orb_true_iff, IH, Ascii.eqb_eq. split.
    + intros [->|(s1 & s2 & ->)].
      * by exists "", s.
      * by exists (String a s1), s2.
    + intros ([|a1 s1] & s2 & Heq).
      * left. by injection Heq.
      * right. exists s1, s2. rewrite append_cons in Heq. by injection Heq.
Qed.

(** C9, as the code has it.  The hasher does not take every string: a
    password of more than 4096 characters or with a NUL character in it
    makes both [get_hashed_password] and [verify_password] raise.  A
    password it takes verifies against its own digest, whatever salt the
    digest was made with.  Against the digest of [password], another
    plaintext that the hasher takes is accepted exactly when its bcrypt
    checksum under the digest's salt is the checksum of [password]; and a
    digest made from the same password with another salt is a different
    string that verifies all the same. *)
Theorem C9_verify_password (salt password : string) :
  String.length salt = 22%nat →
  (validate_secret password = None
   ↔ (String.length password ≤ 4096)%nat
     ∧ ¬ ∃ s1 s2, password = String.append s1 (String Ascii.zero s2))
  ∧ (∀ e, validate_secret password = Some e →
       get_hashed_password salt password = inl e
       ∧ ∀ salt' checksum, String.length salt' = 22%nat →
           verify_password password (to_string salt' checksum) = inl e)
  ∧ (validate_secret password = None →
     ∃ digest,
       get_hashed_password salt password = inr digest
       ∧ verify_password password digest = inr true
       ∧ (∀ password', validate_secret password' = None →
            verify_password password' digest = inr true
            ↔ bcrypt salt password' = bcrypt salt password)
       ∧ (∀ salt', String.length salt' = 22%nat → salt' ≠ salt →
            ∃ digest', get_hashed_password salt' password = inr digest'
              ∧ digest' ≠ digest
              ∧ verify_password password digest' = inr true)).
Proof.
  intros Hsalt. split_and!.
  - unfold validate_secret, MAX_PASSWORD_SIZE. rewrite <- has_NUL_spec.
    destruct (Nat.ltb_spec 4096 (String.length password)) as [?|?].
    + split; [done|]. intros [? _]. lia.
    + destruct (has_NUL password).
      * split; [done|]. by intros [_ []].
      * split; [|done]. intros _. by split.
  - intros e Hno. split; [by apply get_hashed_password_refused|].
    intros salt' checksum Hsalt'. unfold verify_password, pwd_context_verify.
    by rewrite parse_hash_to_string, Hno.
  - intros Hok. exists (to_string salt (bcrypt salt password)). split_and!.
    + by apply get_hashed_password_accepted.
    + by rewrite verify_password_digest, Hok, String.eqb_refl.
    + intros password' Hok'. rewrite verify_password_digest, Hok' by done.
      rewrite <- String.eqb_eq. split; [by intros [= ->]|by intros ->].
    + intros salt' Hsalt' Hne. exists (to_string salt' (bcrypt salt' password)).
      split_and!.
      * by apply get_hashed_password_accepted.
      * intros Heq. by apply Hne, (to_string_salt_inj _ _ _ _ Hsalt' Hsalt Heq).
      * by rewrite verify_password_digest, Hok, String.eqb_refl.
Qed.

End passwords.

(** C9 as stated fails, whatever function bcrypt is: the digest of
    [hunter2] made with the salt [BBBBBBBBBBBBBBBBBBBBBB] differs from the
    one made with [AAAAAAAAAAAAAAAAAAAAAA], and [hunter2] verifies against
    it.  So not every digest other than [get_hashed_password (p)] is
    refused. *)
Lemma C9_counterexample :
  ¬ ∃ env : Environment,
      ∀ digest digest',
        api.get_hashed_password (env := env) "AAAAAAAAAAAAAAAAAAAAAA" "hunter2" = inr digest →
        api.get_hashed_password (env := env) "BBBBBBBBBBBBBBBBBBBBBB" "hunter2" = inr digest' →
        digest' ≠ digest →
        api.verify_password (env := env) "hunter2" digest' = inr false.
Proof.
  intros [env Hclaim].
  specialize (Hclaim _ _ (get_hashed_password_accepted (env := env) _ "hunter2" eq_refl)
                (get_hashed_password_accepted (env := env) _ "hunter2" eq_refl)).
  rewrite (verify_password_digest (env := env)) in Hclaim by reflexivity.
  cbn in Hclaim. rewrite String.eqb_refl in Hclaim.
  enough (inr true = inr false :> exn + bool) by discriminate.
  apply Hclaim. intros Heq.
  by apply to_string_salt_inj in Heq.
Qed.

Lemma C9_verify_password_witness :
  ∃ digest,
    api.get_hashed_password (env := sample.env) "AAAAAAAAAAAAAAAAAAAAAA" "hunter2"
    = inr digest
    ∧ api.verify_password (env := sample.env) "hunter2" digest = inr true.
Proof.
  destruct (C9_verify_password (env := sample.env) "AAAAAAAAAAAAAAAAAAAAAA" "hunter2"
              eq_refl) as (_ & _ & Haccepted).
  destruct (Haccepted eq_refl) as (digest & Hhash & Hverify & _).
  by exists digest.
Defined.

(** * Further properties of the persistence layer *)

(** ** Keys, listings and single-row lookups *)

Section rows.
Context {env : Environment}.
Import dal.

Lemma foldr_max_upper (l : list Z) (k : Z) : k ∈ l → (k ≤ foldr Z.max 0 l)%Z.
Proof.
  induction l as [|x l IH]; [by intros ?%not_elem_of_nil|].
  intros [->|Hin]%elem_of_cons; cbn [foldr]; [lia|]. specialize (IH Hin). lia.
Qed.

Lemma next_id_fresh {C} (m : gmap Z C) : m !! next_id m = None.
Proof.
  destruct (m !! next_id m) as [c|] eqn:Hk; [exfalso|done].
  assert (next_id m ∈ (map_to_list m).*1) as Hin.
  { apply list_elem_of_fmap. exists (next_id m, c). split; [done|].
    by apply elem_of_map_to_list. }
  apply foldr_max_upper in Hin. unfold next_id in Hin. lia.
Qed.

Lemma elem_of_instances {C} (m : gmap Z C) (r : Row C) :
  r ∈ instances m ↔ m !! id r = Some (cols r).
Proof.
  unfold instances. rewrite list_elem_of_fmap. split.
  - intros ([k c] & -> & Hin). by apply elem_of_map_to_list.
  - intros Hr. exists (id r, cols r). split; [by destruct r|].
    by apply elem_of_map_to_list.
Qed.

Lemma NoDup_instances {C} (m : gmap Z C) : NoDup (id <$> instances m).
Proof.
  unfold instances. rewrite <- list_fmap_compose.
  apply (NoDup_fst_map_to_list m).
Qed.

Lemma instances_singleton {C} (k : Z) (c : C) : instances ({[k := c]} : gmap Z C) = [mkRow k c].
Proof. unfold instances. by rewrite map_to_list_singleton. Qed.

Lemma filter_by_unique {C} (P : C → Prop) `{!∀ c, Decision (P c)}
    (m : gmap Z C) (k : Z) (c : C) :
  m !! k = Some c → P c → (∀ j c', m !! j = Some c' → P c' → j = k) →
  filter_by P m = {[k := c]}.
Proof.
  intros Hk HP Huniq. apply map_eq. intros j.
  destruct (decide (j = k)) as [->|Hne].
  - rewrite lookup_singleton_eq. by apply filter_by_lookup_Some.
  - rewrite lookup_singleton_ne by done.
    destruct (filter_by P m !! j) as [c'|] eqn:Hj; [exfalso|done].
    apply filter_by_lookup_Some in Hj as [Hj HP']. by apply Hne, (Huniq j c').
Qed.

(** A select on a column that no two rows share gives the row, or nothing. *)
Lemma select_unique {C} (P : C → Prop) `{!∀ c, Decision (P c)} (m : gmap Z C) (db : DB) :
  (∀ i j c1 c2, m !! i = Some c1 → m !! j = Some c2 → P c1 → P c2 → i = j) →
  ∃ r, scalar_one_or_none (instances (filter_by P m)) db = (db, inr r)
       ∧ (∀ u, r = Some u ↔ m !! id u = Some (cols u) ∧ P (cols u)).
Proof.
  intros Huniq.
  destruct (map_choose_or_empty (filter_by P m)) as [(k & c & Hk)|Hempty].
  - apply filter_by_lookup_Some in Hk as [Hk HP].
    rewrite (filter_by_unique P m k c), instances_singleton by eauto.
    exists (Some (mkRow k c)). split; [done|]. intros [j c']. cbn [id cols]. split.
    + by intros [= <- <-].
    + intros [Hj HP']. assert (j = k) as -> by eauto. congruence.
  - rewrite Hempty. exists None. split; [done|]. intros u. split; [done|].
    intros [Hu HP]. assert (filter_by P m !! id u = Some (cols u)) as Hin
      by by apply filter_by_lookup_Some.
    by rewrite Hempty in Hin.
Qed.

End rows.

(** ** Users: creation, uniqueness, lookup *)

Section users.
Context {env : Environment}.
Import dal.

Lemma insert_user_eq (c : UserCols) (db : DB) :
  insert (NewUser c) db =
    if taken (λ r, username r = username c) (users db)
    then inl (IntegrityError
                (if taken (λ r, email r = email c) (users db) && users_email_first
                 then "users.email" else "users.username"))
    else if taken (λ r, email r = email c) (users db)
    then inl (IntegrityError "users.email")
    else inr (mkDB (<[next_id (users db) := c]> (users db)) (mailing_lists db)
                (subscribers db) (templates db) (mailings db), next_id (users db)).
Proof.
  cbn [insert].
  by destruct (taken (λ r, username r = username c) (users db)),
    (taken (λ r, email r = email c) (users db)).
Qed.

Lemma create_user_inv db db' un hp em adm u :
  create_user un hp em adm db = (db', inr u) →
  taken (λ r, username r = un) (users db) = false
  ∧ taken (λ r, email r = em) (users db) = false
  ∧ u = mkRow (next_id (users db)) (mkUser un hp em true adm)
  ∧ db' = mkDB (<[next_id (users db) := mkUser un hp em true adm]> (users db))
            (mailing_lists db) (subscribers db) (templates db) (mailings db).
Proof.
  rewrite create_user_eq, insert_user_eq. cbn [username email].
  destruct (taken _ (users db)); [done|].
  destruct (taken _ (users db)); [done|]. by intros [= <- <-].
Qed.

(** X1. What [create_user] returns is what it stored: the new user gets a
    key that was free, carries the given columns with [is_active] set, and
    is found again by its id, by its username and by its email.  Every other
    user, and every other table, is as before. *)
Theorem X1_create_user_round_trip (db db' : DB) (un hp em : string) (adm : bool) (u : User) :
  create_user un hp em adm db = (db', inr u) →
  users db !! id u = None
  ∧ cols u = mkUser un hp em true adm
  ∧ users db' = <[id u := cols u]> (users db)
  ∧ mailing_lists db' = mailing_lists db
  ∧ subscribers db' = subscribers db
  ∧ templates db' = templates db
  ∧ mailings db' = mailings db
  ∧ get_user_by_id (id u) db' = (db', inr (Some u))
  ∧ get_user_by_username un db' = (db', inr (Some u))
  ∧ get_user_by_email em db' = (db', inr (Some u)).
Proof.
  intros (Hname & Hemail & -> & ->)%create_user_inv. cbn [id cols users].
  apply not_true_iff_false in Hname, Hemail. rewrite taken_spec in Hname, Hemail.
  split_and!; try done.
  - apply next_id_fresh.
  - unfold get_user_by_id, query, get. cbn [users]. by rewrite lookup_insert_eq.
  - unfold get_user_by_username, query, mbind, M_bind. cbn [users].
    rewrite (filter_by_unique _ _ (next_id (users db)) (mkUser un hp em true adm)),
      instances_singleton; [done|apply lookup_insert_eq|done|].
    intros j c' [[? _]|[_ Hj]]%lookup_insert_Some Hc'; [done|]. exfalso. eauto.
  - unfold get_user_by_email, query, mbind, M_bind. cbn [users].
    rewrite (filter_by_unique _ _ (next_id (users db)) (mkUser un hp em true adm)),
      instances_singleton; [done|apply lookup_insert_eq|done|].
    intros j c' [[? _]|[_ Hj]]%lookup_insert_Some Hc'; [done|]. exfalso. eauto.
Qed.

Lemma users_perform c db i s :
  users (perform c db) !! i = Some s →
  users db !! i = Some s
  ∨ (taken (λ r, username r = username s) (users db) = false
     ∧ taken (λ r, email r = email s) (users db) = false
     ∧ i = next_id (users db)).
Proof.
  destruct c as [un hp em adm | j un hp em adm | j | nm u | j nm | j | em l | j
                | nm ct u | j nm ct | j | l t at_ u | j at_]; cbn [perform].
  - rewrite create_user_eq, insert_user_eq. cbn [username email].
    destruct (taken (λ r, username r = un) (users db)) eqn:Hn; cbn [fst]; [auto|].
    destruct (taken (λ r, email r = em) (users db)) eqn:He; cbn [fst users]; [auto|].
    intros [[<- <-]|[_ Hi]]%lookup_insert_Some; auto.
  - rewrite update_user_eq. auto.
  - rewrite delete_user_eq. case_match; cbn [fst]; [|auto].
    rewrite users_flush_deleted. case_bool_decide; [done|auto].
  - unfold create_mailing_list, mbind, M_bind. rewrite commit_add. cbn [insert].
    repeat (case_match; cbn); simplify_eq; cbn; auto.
  - rewrite update_mailing_list_eq. auto.
  - rewrite delete_mailing_list_eq. case_match; cbn [fst]; [|auto].
    rewrite users_flush_deleted. case_bool_decide; [done|auto].
  - rewrite create_subscriber_eq. cbn [insert].
    repeat (case_match; cbn); simplify_eq; cbn; auto.
  - rewrite delete_subscriber_eq. case_match; cbn [fst]; [|auto].
    rewrite users_flush_deleted. case_bool_decide; [done|auto].
  - unfold create_template, mbind, M_bind. rewrite commit_add. cbn [insert].
    repeat (case_match; cbn); simplify_eq; cbn; auto.
  - rewrite update_template_eq. auto.
  - rewrite delete_template_eq. case_match; cbn [fst]; [|auto].
    rewrite users_flush_deleted. case_bool_decide; [done|auto].
  - unfold create_mailing, mbind, M_bind. rewrite commit_add. cbn [insert].
    repeat (case_match; cbn); simplify_eq; cbn; auto.
  - unfold update_mailing, get_mailing_by_id, query, get, mbind, M_bind.
    destruct (mailings db !! j); cbn; auto.
Qed.

Lemma unique_users_perform c db : unique_users db → unique_users (perform c db).
Proof.
  intros Huniq i j c1 c2 Hi Hj Hsame.
  destruct (decide (i = j)) as [|Hij]; [done|exfalso].
  destruct (users_perform c db i c1 Hi) as [Hi'|(Hn1 & He1 & ->)];
    destruct (users_perform c db j c2 Hj) as [Hj'|(Hn2 & He2 & ->)].
  - by apply Hij, (Huniq i j c1 c2).
  - apply not_true_iff_false in Hn2, He2. rewrite taken_spec in Hn2, He2.
    destruct Hsame; [apply Hn2|apply He2]; eauto.
  - apply not_true_iff_false in Hn1, He1. rewrite taken_spec in Hn1, He1.
    destruct Hsame; [apply Hn1|apply He1]; eauto.
  - done.
Qed.

Lemma reachable_unique_users db : reachable db → unique_users db.
Proof.
  induction 1 as [|db c _ IH].
  - intros i j c1 c2 Hi. cbn [empty_db users] in Hi. by rewrite lookup_empty in Hi.
  - by apply unique_users_perform.
Qed.

Lemma reachable_unique_subscriber_emails db : reachable db → unique_subscriber_emails db.
Proof.
  induction 1 as [|db c _ IH].
  - intros i j c1 c2 Hi. cbn [empty_db subscribers] in Hi. by rewrite lookup_empty in Hi.
  - by apply unique_subscriber_emails_perform.
Qed.

Lemma create_user_taken db un hp em adm :
  (∃ k c, users db !! k = Some c ∧ (username c = un ∨ email c = em)) →
  ∃ constraint,
    create_user un hp em adm db = (db, inl (IntegrityError constraint))
    ∧ (constraint = "users.username" ∧ (∃ k c, users db !! k = Some c ∧ username c = un)
       ∨ constraint = "users.email" ∧ (∃ k c, users db !! k = Some c ∧ email c = em)).
Proof.
  intros Htaken. rewrite create_user_eq, insert_user_eq. cbn [username email].
  destruct (taken (λ r, username r = un) (users db)) eqn:Hn;
    destruct (taken (λ r, email r = em) (users db)) eqn:He.
  - apply taken_spec in Hn, He. cbn [andb].
    destruct users_email_first; eexists; (split; [reflexivity|]).
    + right. by split.
    + left. by split.
  - apply taken_spec in Hn. eexists. split; [reflexivity|]. left. by split.
  - apply taken_spec in He. eexists. split; [reflexivity|]. right. by split.
  - exfalso. apply not_true_iff_false in Hn, He. rewrite taken_spec in Hn, He.
    destruct Htaken as (k & c & Hk & [Hc|Hc]); [apply Hn|apply He]; eauto.
Qed.

(** X2. Usernames and emails stay unique: in every state the persistence
    operations can reach, no two users share a username and no two share an
    email.  [create_user] raises the constraint violation, and stores
    nothing, exactly when the username or the email is already taken.  The
    violation names a constraint that is violated: the one on the username
    when only the username is taken, the one on the email when only the
    email is, and one of the two, whichever the engine reports, when both
    are. *)
Theorem X2_usernames_and_emails_unique :
  (∀ db, reachable db → unique_users db)
  ∧ (∀ db un hp em adm,
       (∃ k c, users db !! k = Some c ∧ (username c = un ∨ email c = em)) →
       ∃ constraint,
         create_user un hp em adm db = (db, inl (IntegrityError constraint))
         ∧ (constraint = "users.username"
              ∧ (∃ k c, users db !! k = Some c ∧ username c = un)
            ∨ constraint = "users.email"
              ∧ (∃ k c, users db !! k = Some c ∧ email c = em)))
  ∧ (∀ db un hp em adm,
       (∀ j c', users db !! j = Some c' → username c' ≠ un ∧ email c' ≠ em) →
       ∃ db' u, create_user un hp em adm db = (db', inr u)).
Proof.
  split_and!.
  - apply reachable_unique_users.
  - intros db un hp em adm. apply create_user_taken.
  - intros db un hp em adm Hfree. rewrite create_user_eq, insert_user_eq.
    cbn [username email]. rewrite !taken_false by (intros j c' Hj; naive_solver).
    eauto.
Qed.

(** X3. In every reachable state the lookups on the unique columns never
    raise [MultipleResultsFound] and change nothing: [get_user_by_username]
    and [get_user_by_email] return the one user that has the name, or the
    email, and [None] when there is none; [get_subscriber_by_email] returns
    the one subscriber with that address in that list, or [None]. *)
Theorem X3_unique_lookups_never_raise (db : DB) :
  reachable db →
  (∀ n, ∃ r, get_user_by_username n db = (db, inr r)
        ∧ ∀ u, r = Some u ↔ users db !! id u = Some (cols u) ∧ username (cols u) = n)
  ∧ (∀ e, ∃ r, get_user_by_email e db = (db, inr r)
        ∧ ∀ u, r = Some u ↔ users db !! id u = Some (cols u) ∧ email (cols u) = e)
  ∧ (∀ e l, ∃ r, get_subscriber_by_email e l db = (db, inr r)
        ∧ ∀ s, r = Some s ↔ subscribers db !! id s = Some (cols s)
                            ∧ sub_email (cols s) = e ∧ sub_mailing_list_id (cols s) = l).
Proof.
  intros Hreach.
  pose proof (reachable_unique_users db Hreach) as Hu.
  pose proof (reachable_unique_subscriber_emails db Hreach) as Hs.
  split_and!.
  - intros n. unfold get_user_by_username, query, mbind, M_bind.
    apply (select_unique (λ c, username c = n)). intros i j c1 c2 Hi Hj H1 H2.
    apply (Hu i j c1 c2 Hi Hj). left. congruence.
  - intros e. unfold get_user_by_email, query, mbind, M_bind.
    apply (select_unique (λ c, email c = e)). intros i j c1 c2 Hi Hj H1 H2.
    apply (Hu i j c1 c2 Hi Hj). right. congruence.
  - intros e l. unfold get_subscriber_by_email, query, mbind, M_bind.
    apply (select_unique (λ c, sub_email c = e ∧ sub_mailing_list_id c = l)).
    intros i j c1 c2 Hi Hj [H1 _] [H2 _]. apply (Hs i j c1 c2 Hi Hj). congruence.
Qed.

End users.

Lemma sample_reached_reachable : dal.reachable (env := sample.env) sample_reached.
Proof. do 3 apply dal.reachable_perform. apply dal.reachable_empty. Qed.

Lemma X1_create_user_round_trip_witness :
  dal.get_user_by_username "mallory"
    (dal.create_user (env := sample.env) "mallory" "digest" "mallory@example.org" false
       sample.db).1
  = ((dal.create_user (env := sample.env) "mallory" "digest" "mallory@example.org" false
        sample.db).1,
     inr (Some (dal.mkRow 3 (dal.mkUser "mallory" "digest" "mallory@example.org" true false)))).
Proof.
  assert (dal.create_user (env := sample.env) "mallory" "digest" "mallory@example.org" false
            sample.db
          = ((dal.create_user (env := sample.env) "mallory" "digest" "mallory@example.org"
                false sample.db).1,
             inr (dal.mkRow 3
                    (dal.mkUser "mallory" "digest" "mallory@example.org" true false))))
    as Hcreate by (vm_compute; reflexivity).
  pose proof (X1_create_user_round_trip (env := sample.env) _ _ _ _ _ _ _ Hcreate)
    as (_ & _ & _ & _ & _ & _ & _ & _ & Hname & _).
  exact Hname.
Defined.

Lemma X2_usernames_and_emails_unique_witness :
  unique_users sample_reached
  ∧ ∃ constraint,
      dal.create_user (env := sample.env) "alice" "digest" "bob@example.org" false sample.db
      = (sample.db, inl (IntegrityError constraint))
      ∧ (constraint = "users.username" ∨ constraint = "users.email").
Proof.
  pose proof (X2_usernames_and_emails_unique (env := sample.env)) as (Hreach & Htaken & _).
  split.
  - apply Hreach, sample_reached_reachable.
  - destruct (Htaken sample.db "alice" "digest" "bob@example.org" false)
      as (constraint & Hraised & Hwhich).
    + exists 1, sample.alice. split; [reflexivity|]. by left.
    + exists constraint. split; [exact Hraised|]. destruct Hwhich as [[? _]|[? _]]; auto.
Defined.

Lemma X3_unique_lookups_never_raise_witness :
  ∃ r, dal.get_user_by_username "alice" sample_reached = (sample_reached, inr r)
       ∧ ∀ u, r = Some u ↔ dal.users sample_reached !! dal.id u = Some (dal.cols u)
                           ∧ dal.username (dal.cols u) = "alice".
Proof.
  pose proof (X3_unique_lookups_never_raise (env := sample.env) sample_reached
                sample_reached_reachable) as (Hname & _).
  exact (Hname "alice").
Defined.

(** ** Updates and deletes, seen from the database *)

Section writes.
Context {env : Environment}.
Import dal.

Lemma update_mailing_eq db i at_ :
  update_mailing i at_ db
  = (db, inr (set_sent_at (Some at_) <$> get (mailings db) i)).
Proof.
  unfold update_mailing, get_mailing_by_id, query, get, mbind, M_bind.
  by destruct (mailings db !! i).
Qed.

(** X4. None of the four updating methods writes to the database.  Each
    returns the instance with the new values assigned, but what is stored
    stays as it was: looked up again right after the update, the row still
    has its old username, name, content or [sent_at]. *)
Theorem X4_updates_are_not_persisted (db : DB) (i : Z) :
  (∀ un hp em adm, (update_user i un hp em adm db).1 = db)
  ∧ (∀ nm, (update_mailing_list i nm db).1 = db)
  ∧ (∀ nm ct, (update_template i nm ct db).1 = db)
  ∧ (∀ at_, (update_mailing i at_ db).1 = db)
  ∧ (∀ c un, users db !! i = Some c → un ≠ "" →
       (returned ← update_user i (Some un) None None None;
        stored ← get_user_by_id i;
        mret (returned, stored)) db
       = (db, inr (Some (set_username un (mkRow i c)), Some (mkRow i c))))
  ∧ (∀ c nm, mailing_lists db !! i = Some c → nm ≠ "" →
       (returned ← update_mailing_list i (Some nm);
        stored ← get_mailing_list_by_id i;
        mret (returned, stored)) db
       = (db, inr (Some (mkRow i (mkMailingList nm (ml_user_id c))), Some (mkRow i c))))
  ∧ (∀ c nm ct, templates db !! i = Some c → nm ≠ "" → ct ≠ "" →
       (returned ← update_template i (Some nm) (Some ct);
        stored ← get_template_by_id i;
        mret (returned, stored)) db
       = (db, inr (Some (mkRow i (mkTemplate nm ct (tpl_user_id c))), Some (mkRow i c))))
  ∧ (∀ c at_, mailings db !! i = Some c →
       (returned ← update_mailing i at_;
        stored ← get_mailing_by_id i;
        mret (returned, stored)) db
       = (db, inr (Some (set_sent_at (Some at_) (mkRow i c)), Some (mkRow i c)))).
Proof.
  split_and!.
  - intros. by rewrite update_user_eq.
  - intros. by rewrite update_mailing_list_eq.
  - intros. by rewrite update_template_eq.
  - intros. by rewrite update_mailing_eq.
  - intros c un Hc Hun%String.eqb_neq. unfold mbind at 1, M_bind.
    rewrite update_user_eq, Hc. unfold get_user_by_id, query, get, mbind, M_bind.
    rewrite Hc. cbn. by rewrite Hun.
  - intros c nm Hc Hnm%String.eqb_neq. unfold mbind at 1, M_bind.
    rewrite update_mailing_list_eq, Hc.
    unfold get_mailing_list_by_id, query, get, mbind, M_bind.
    rewrite Hc. cbn. by rewrite Hnm.
  - intros c nm ct Hc Hnm%String.eqb_neq Hct%String.eqb_neq. unfold mbind at 1, M_bind.
    rewrite update_template_eq, Hc.
    unfold get_template_by_id, query, get, mbind, M_bind.
    rewrite Hc. cbn. by rewrite Hnm, Hct.
  - intros c at_ Hc. unfold mbind at 1, M_bind.
    rewrite update_mailing_eq. unfold get_mailing_by_id, query, get, mbind, M_bind.
    by rewrite Hc.
Qed.

(** X5. Deleting what is not there returns [False] and changes nothing, for
    each of the four deleting methods.  Deleting a row that exists returns
    [True]; after that the row is not found by its id, and a second delete
    returns [False]. *)
Theorem X5_delete_missing_and_twice (db : DB) (i : Z) :
  (users db !! i = None → delete_user i db = (db, inr false))
  ∧ (mailing_lists db !! i = None → delete_mailing_list i db = (db, inr false))
  ∧ (subscribers db !! i = None → delete_subscriber i db = (db, inr false))
  ∧ (templates db !! i = None → delete_template i db = (db, inr false))
  ∧ (is_Some (users db !! i) →
       (first ← delete_user i; second ← delete_user i; found ← get_user_by_id i;
        mret (first, second, found)) db
       = ((delete_user i db).1, inr (true, false, None)))
  ∧ (is_Some (mailing_lists db !! i) →
       (first ← delete_mailing_list i; second ← delete_mailing_list i;
        found ← get_mailing_list_by_id i;
        mret (first, second, found)) db
       = ((delete_mailing_list i db).1, inr (true, false, None)))
  ∧ (is_Some (subscribers db !! i) →
       (first ← delete_subscriber i; second ← delete_subscriber i;
        found ← get_subscriber_by_id i;
        mret (first, second, found)) db
       = ((delete_subscriber i db).1, inr (true, false, None)))
  ∧ (is_Some (templates db !! i) →
       (first ← delete_template i; second ← delete_template i;
        found ← get_template_by_id i;
        mret (first, second, found)) db
       = ((delete_template i db).1, inr (true, false, None))).
Proof.
  split_and!.
  - intros Hi. by rewrite delete_user_eq, Hi.
  - intros Hi. by rewrite delete_mailing_list_eq, Hi.
  - intros Hi. by rewrite delete_subscriber_eq, Hi.
  - intros Hi. by rewrite delete_template_eq, Hi.
  - intros [c Hc]. unfold mbind at 1, M_bind. rewrite delete_user_eq, Hc. cbn [fst].
    assert (users (flush_deleted (cascade_user db i) db) !! i = None) as Hgone.
    { rewrite users_flush_deleted, bool_decide_true; [done|].
      apply elem_of_cascade_user. by left. }
    unfold mbind at 1, M_bind. rewrite delete_user_eq, Hgone.
    unfold get_user_by_id, query, get, mbind, M_bind. by rewrite Hgone.
  - intros [c Hc]. unfold mbind at 1, M_bind. rewrite delete_mailing_list_eq, Hc.
    cbn [fst].
    assert (mailing_lists (flush_deleted (cascade_mailing_list db i) db) !! i = None)
      as Hgone.
    { rewrite mailing_lists_flush_deleted, bool_decide_true; [done|].
      apply elem_of_cascade_mailing_list. by left. }
    unfold mbind at 1, M_bind. rewrite delete_mailing_list_eq, Hgone.
    unfold get_mailing_list_by_id, query, get, mbind, M_bind. by rewrite Hgone.
  - intros [c Hc]. unfold mbind at 1, M_bind. rewrite delete_subscriber_eq, Hc.
    cbn [fst].
    assert (subscribers (flush_deleted [(subscribers_t, i)] db) !! i = None) as Hgone.
    { rewrite subscribers_flush_deleted, bool_decide_true; [done|].
      by apply list_elem_of_singleton. }
    unfold mbind at 1, M_bind. rewrite delete_subscriber_eq, Hgone.
    unfold get_subscriber_by_id, query, get, mbind, M_bind. by rewrite Hgone.
  - intros [c Hc]. unfold mbind at 1, M_bind. rewrite delete_template_eq, Hc.
    cbn [fst].
    assert (templates (flush_deleted (cascade_template db i) db) !! i = None) as Hgone.
    { rewrite templates_flush_deleted, bool_decide_true; [done|].
      apply elem_of_cascade_template. by left. }
    unfold mbind at 1, M_bind. rewrite delete_template_eq, Hgone.
    unfold get_template_by_id, query, get, mbind, M_bind. by rewrite Hgone.
Qed.

End writes.

(** ** What a delete removes, and what it leaves *)

Section delete_effects.
Context {env : Environment}.
Import dal.

Lemma users_untouched ks db :
  (∀ k, (users_t, k) ∉ ks) → users (flush_deleted ks db) = users db.
Proof.
  intros Hnone. apply map_eq. intros k.
  rewrite users_flush_deleted, bool_decide_false; [done|apply Hnone].
Qed.

Lemma mailing_lists_untouched ks db :
  (∀ k, (mailing_lists_t, k) ∉ ks) → mailing_lists (flush_deleted ks db) = mailing_lists db.
Proof.
  intros Hnone. apply map_eq. intros k.
  rewrite mailing_lists_flush_deleted, bool_decide_false; [done|apply Hnone].
Qed.

Lemma subscribers_untouched ks db :
  (∀ k, (subscribers_t, k) ∉ ks) → subscribers (flush_deleted ks db) = subscribers db.
Proof.
  intros Hnone. apply map_eq. intros k.
  rewrite subscribers_flush_deleted, bool_decide_false; [done|apply Hnone].
Qed.

Lemma templates_untouched ks db :
  (∀ k, (templates_t, k) ∉ ks) → templates (flush_deleted ks db) = templates db.
Proof.
  intros Hnone. apply map_eq. intros k.
  rewrite templates_flush_deleted, bool_decide_false; [done|apply Hnone].
Qed.

(** X6. [delete_mailing_list] on a list that exists removes that list, all
    of its subscribers and all mailings that reference it, and nothing else:
    users and templates are untouched, every other mailing list is kept, and
    subscribers and mailings of other lists are kept unchanged. *)
Theorem X6_delete_mailing_list_effect (db : DB) (i : Z) :
  is_Some (mailing_lists db !! i) →
  users (delete_mailing_list i db).1 = users db
  ∧ templates (delete_mailing_list i db).1 = templates db
  ∧ mailing_lists (delete_mailing_list i db).1 = delete i (mailing_lists db)
  ∧ (∀ k s, subscribers (delete_mailing_list i db).1 !! k = Some s
            ↔ subscribers db !! k = Some s ∧ sub_mailing_list_id s ≠ i)
  ∧ (∀ k m, mailings (delete_mailing_list i db).1 !! k = Some m
            ↔ mailings db !! k = Some m ∧ m_mailing_list_id m ≠ i)
  ∧ get_subscribers_by_mailing_list_id i (delete_mailing_list i db).1
    = ((delete_mailing_list i db).1, inr []).
Proof.
  intros [c Hc]. rewrite delete_mailing_list_eq, Hc. cbn [fst].
  split_and!.
  - apply users_untouched. intros k. rewrite elem_of_cascade_mailing_list.
    by intros [[? _]|[[? _]|[? _]]].
  - apply templates_untouched. intros k. rewrite elem_of_cascade_mailing_list.
    by intros [[? _]|[[? _]|[? _]]].
  - apply map_eq. intros k. rewrite mailing_lists_flush_deleted, lookup_delete.
    destruct (decide (i = k)) as [->|Hne].
    + rewrite bool_decide_true; [done|]. apply elem_of_cascade_mailing_list. by left.
    + rewrite bool_decide_false; [done|]. rewrite elem_of_cascade_mailing_list.
      intros [[_ ?]|[[? _]|[? _]]]; done.
  - intros k s. rewrite subscribers_flush_deleted. case_bool_decide as Hin;
      rewrite elem_of_cascade_mailing_list in Hin.
    + split; [done|]. intros [Hk Hne].
      destruct Hin as [[? _]|[[_ (s' & Hs' & ?)]|[? _]]]; [done| |done]. congruence.
    + split; [|by intros [? _]]. intros Hk. split; [done|]. intros Heq. apply Hin.
      right; left. eauto.
  - intros k m. rewrite mailings_flush_deleted. case_bool_decide as Hin;
      rewrite elem_of_cascade_mailing_list in Hin.
    + split; [done|]. intros [Hk Hne].
      destruct Hin as [[? _]|[[? _]|[_ (m' & Hm' & ?)]]]; [done..|]. congruence.
    + split; [|by intros [? _]]. intros Hk. split; [done|]. intros Heq. apply Hin.
      do 2 right. eauto.
  - unfold get_subscribers_by_mailing_list_id, query. do 2 f_equal.
    apply instances_nil, filter_by_empty. intros k s.
    rewrite subscribers_flush_deleted. case_bool_decide as Hin; [done|].
    intros Hk Hs. apply Hin, elem_of_cascade_mailing_list. right; left. eauto.
Qed.

(** X7. [delete_template] on a template that exists removes that template
    and the mailings that use it, and nothing else; [delete_subscriber] on a
    subscriber that exists removes that one row and nothing else. *)
Theorem X7_delete_template_and_subscriber_effect (db : DB) (i : Z) :
  (is_Some (templates db !! i) →
     users (delete_template i db).1 = users db
     ∧ mailing_lists (delete_template i db).1 = mailing_lists db
     ∧ subscribers (delete_template i db).1 = subscribers db
     ∧ templates (delete_template i db).1 = delete i (templates db)
     ∧ (∀ k m, mailings (delete_template i db).1 !! k = Some m
               ↔ mailings db !! k = Some m ∧ m_template_id m ≠ i))
  ∧ (is_Some (subscribers db !! i) →
     (delete_subscriber i db).1
     = mkDB (users db) (mailing_lists db) (delete i (subscribers db)) (templates db)
         (mailings db)).
Proof.
  split.
  - intros [c Hc]. rewrite delete_template_eq, Hc. cbn [fst].
    split_and!.
    + apply users_untouched. intros k. rewrite elem_of_cascade_template.
      by intros [[? _]|[? _]].
    + apply mailing_lists_untouched. intros k. rewrite elem_of_cascade_template.
      by intros [[? _]|[? _]].
    + apply subscribers_untouched. intros k. rewrite elem_of_cascade_template.
      by intros [[? _]|[? _]].
    + apply map_eq. intros k. rewrite templates_flush_deleted, lookup_delete.
      destruct (decide (i = k)) as [->|Hne].
      * rewrite bool_decide_true; [done|]. apply elem_of_cascade_template. by left.
      * rewrite bool_decide_false; [done|]. rewrite elem_of_cascade_template.
        intros [[_ ?]|[? _]]; done.
    + intros k m. rewrite mailings_flush_deleted. case_bool_decide as Hin;
        rewrite elem_of_cascade_template in Hin.
      * split; [done|]. intros [Hk Hne].
        destruct Hin as [[? _]|[_ (m' & Hm' & ?)]]; [done|]. congruence.
      * split; [|by intros [? _]]. intros Hk. split; [done|]. intros Heq. apply Hin.
        right. eauto.
  - intros [c Hc]. by rewrite delete_subscriber_eq, Hc.
Qed.

(** X8. [delete_user] on a user that exists removes: the user; the mailing
    lists and templates the user owns; the subscribers of those lists; and
    every mailing that the user owns or that references one of those lists
    or templates, also when the mailing belongs to another user.  Every
    other row is kept unchanged. *)
Theorem X8_delete_user_effect (db : DB) (u : Z) :
  is_Some (users db !! u) →
  users (delete_user u db).1 = delete u (users db)
  ∧ (∀ k c, mailing_lists (delete_user u db).1 !! k = Some c
            ↔ mailing_lists db !! k = Some c ∧ ml_user_id c ≠ u)
  ∧ (∀ k c, templates (delete_user u db).1 !! k = Some c
            ↔ templates db !! k = Some c ∧ tpl_user_id c ≠ u)
  ∧ (∀ k s, subscribers (delete_user u db).1 !! k = Some s
            ↔ subscribers db !! k = Some s
              ∧ ¬ ∃ c, mailing_lists db !! sub_mailing_list_id s = Some c
                       ∧ ml_user_id c = u)
  ∧ (∀ k m, mailings (delete_user u db).1 !! k = Some m
            ↔ mailings db !! k = Some m
              ∧ m_user_id m ≠ u
              ∧ (¬ ∃ c, mailing_lists db !! m_mailing_list_id m = Some c
                        ∧ ml_user_id c = u)
              ∧ (¬ ∃ c, templates db !! m_template_id m = Some c
                        ∧ tpl_user_id c = u)).
Proof.
  intros [cu Hcu]. rewrite delete_user_eq, Hcu. cbn [fst].
  split_and!.
  - apply map_eq. intros k. rewrite users_flush_deleted, lookup_delete.
    rewrite (bool_decide_ext _ _ (cascade_user_users db u k)).
    destruct (decide (u = k)) as [->|Hne].
    + by rewrite bool_decide_true.
    + by rewrite bool_decide_false.
  - intros k c. rewrite mailing_lists_kept, cascade_user_mailing_lists. split.
    + intros [Hk Hnot]. split; [done|]. intros Hu. apply Hnot. eauto.
    + intros [Hk Hne]. split; [done|]. intros (c' & Hk' & Hu). congruence.
  - intros k c. rewrite templates_kept, cascade_user_templates. split.
    + intros [Hk Hnot]. split; [done|]. intros Hu. apply Hnot. eauto.
    + intros [Hk Hne]. split; [done|]. intros (c' & Hk' & Hu). congruence.
  - intros k s. rewrite subscribers_kept, cascade_user_subscribers. split.
    + intros [Hk Hnot]. split; [done|]. intros (c & Hc & Hu). apply Hnot. eauto.
    + intros [Hk Hnot]. split; [done|]. intros (s' & c & Hk' & Hc & Hu).
      apply Hnot. exists c. split; [congruence|done].
  - intros k m. rewrite mailings_kept, cascade_user_mailings. split.
    + intros [Hk Hnot]. split_and!; [done|..].
      * intros Hu. apply Hnot. eauto.
      * intros (c & Hc & Hu). apply Hnot. eauto 10.
      * intros (c & Hc & Hu). apply Hnot. eauto 10.
    + intros (Hk & Hu & Hl & Ht). split; [done|].
      intros (m' & Hk' & Hcase). assert (m' = m) as -> by congruence.
      destruct Hcase as [?|[?|?]]; eauto.
Qed.

(** X9. The deleting methods never leave a dangling reference: if every
    foreign key pointed at an existing row before, it does so after
    [delete_user], [delete_mailing_list], [delete_template] and
    [delete_subscriber].  When the database enforces its foreign keys, every
    reachable state is free of dangling references and [create_subscriber]
    for a mailing list that does not exist raises the constraint violation;
    when it does not enforce them, that call succeeds and leaves a
    subscriber pointing at no list. *)
Theorem X9_referential_integrity :
  (∀ db i, references_ok db →
     references_ok (delete_user i db).1
     ∧ references_ok (delete_mailing_list i db).1
     ∧ references_ok (delete_template i db).1
     ∧ references_ok (delete_subscriber i db).1)
  ∧ (foreign_keys = true → ∀ db, reachable db → references_ok db)
  ∧ (foreign_keys = true → ∀ db e l,
       mailing_lists db !! l = None →
       (∀ k s, subscribers db !! k = Some s → sub_email s ≠ e) →
       create_subscriber e l db
       = (db, inl (IntegrityError "subscribers.mailing_list_id")))
  ∧ (foreign_keys = false → ∀ db e l,
       mailing_lists db !! l = None →
       (∀ k s, subscribers db !! k = Some s → sub_email s ≠ e) →
       (create_subscriber e l db).2
       = inr (mkRow (next_id (subscribers db)) (mkSubscriber e l))
       ∧ ¬ references_ok (create_subscriber e l db).1).
Proof.
  split_and!.
  - intros db i Hok. split_and!.
    + by apply delete_user_references.
    + by apply delete_mailing_list_references.
    + by apply delete_template_references.
    + by apply delete_subscriber_references.
  - intros Hfk db. by apply reachable_references_ok.
  - intros Hfk db e l Hl Hfree. rewrite create_subscriber_eq. cbn [insert sub_email
      sub_mailing_list_id].
    rewrite taken_false by done. rewrite Hfk. unfold missing.
    by rewrite bool_decide_true.
  - intros Hfk db e l Hl Hfree. rewrite create_subscriber_eq. cbn [insert sub_email
      sub_mailing_list_id].
    rewrite taken_false by done. rewrite Hfk. cbn [andb fst snd]. split; [done|].
    intros (_ & Hs & _).
    destruct (Hs (next_id (subscribers db)) (mkSubscriber e l)) as [c Hc].
    { cbn [subscribers]. apply lookup_insert_eq. }
    cbn [mailing_lists sub_mailing_list_id] in Hc. congruence.
Qed.

End delete_effects.

(** ** Listings *)

Section listings.
Context {env : Environment}.
Import dal.

Lemma listing_spec {C} (P : C → Prop) `{!∀ c, Decision (P c)} (m : gmap Z C) :
  NoDup (id <$> instances (filter_by P m))
  ∧ ∀ r, r ∈ instances (filter_by P m) ↔ m !! id r = Some (cols r) ∧ P (cols r).
Proof.
  split; [apply NoDup_instances|].
  intros r. by rewrite elem_of_instances, filter_by_lookup_Some.
Qed.

(** X10. The listings return exactly the rows asked for, each once, and
    change nothing: [get_mailing_lists_by_user_id], [get_templates_by_user_id]
    and [get_mailings_by_user_id] return the rows whose [user_id] is the
    given one and no row of anybody else;
    [get_subscribers_by_mailing_list_id] returns the subscribers of the
    given list and no other. *)
Theorem X10_listings_are_exact (db : DB) (i : Z) :
  (∃ rows, get_mailing_lists_by_user_id i db = (db, inr rows)
     ∧ NoDup (id <$> rows)
     ∧ ∀ r, r ∈ rows ↔ mailing_lists db !! id r = Some (cols r) ∧ ml_user_id (cols r) = i)
  ∧ (∃ rows, get_templates_by_user_id i db = (db, inr rows)
     ∧ NoDup (id <$> rows)
     ∧ ∀ r, r ∈ rows ↔ templates db !! id r = Some (cols r) ∧ tpl_user_id (cols r) = i)
  ∧ (∃ rows, get_mailings_by_user_id i db = (db, inr rows)
     ∧ NoDup (id <$> rows)
     ∧ ∀ r, r ∈ rows ↔ mailings db !! id r = Some (cols r) ∧ m_user_id (cols r) = i)
  ∧ (∃ rows, get_subscribers_by_mailing_list_id i db = (db, inr rows)
     ∧ NoDup (id <$> rows)
     ∧ ∀ r, r ∈ rows ↔ subscribers db !! id r = Some (cols r)
                       ∧ sub_mailing_list_id (cols r) = i).
Proof.
  split_and!; (eexists; split; [reflexivity|]).
  - apply (listing_spec (λ c, ml_user_id c = i)).
  - apply (listing_spec (λ c, tpl_user_id c = i)).
  - apply (listing_spec (λ c, m_user_id c = i)).
  - apply (listing_spec (λ c, sub_mailing_list_id c = i)).
Qed.

End listings.

Lemma X4_updates_are_not_persisted_witness :
  (returned ← dal.update_mailing_list (env := sample.env) 1 (Some "renamed");
   stored ← dal.get_mailing_list_by_id 1;
   mret (returned, stored)) sample.db
  = (sample.db, inr (Some (dal.mkRow 1 (dal.mkMailingList "renamed" 1)),
                     Some (dal.mkRow 1 (dal.mkMailingList "news" 1)))).
Proof.
  pose proof (X4_updates_are_not_persisted (env := sample.env) sample.db 1)
    as (_ & _ & _ & _ & _ & Hlist & _).
  apply (Hlist (dal.mkMailingList "news" 1) "renamed"); [reflexivity|discriminate].
Defined.

Lemma X5_delete_missing_and_twice_witness :
  dal.delete_template (env := sample.env) 9 sample.db = (sample.db, inr false)
  ∧ (first ← dal.delete_subscriber (env := sample.env) 1;
     second ← dal.delete_subscriber (env := sample.env) 1;
     found ← dal.get_subscriber_by_id 1;
     mret (first, second, found)) sample.db
    = ((dal.delete_subscriber (env := sample.env) 1 sample.db).1, inr (true, false, None)).
Proof.
  pose proof (X5_delete_missing_and_twice (env := sample.env) sample.db 9)
    as (_ & _ & _ & Hmissing & _).
  pose proof (X5_delete_missing_and_twice (env := sample.env) sample.db 1)
    as (_ & _ & _ & _ & _ & _ & Htwice & _).
  split.
  - apply Hmissing. reflexivity.
  - apply Htwice. vm_compute. eauto.
Defined.

Lemma X6_delete_mailing_list_effect_witness :
  dal.users (dal.delete_mailing_list (env := sample.env) 1 sample.db).1 = dal.users sample.db
  ∧ dal.get_subscribers_by_mailing_list_id 1
      (dal.delete_mailing_list (env := sample.env) 1 sample.db).1
    = ((dal.delete_mailing_list (env := sample.env) 1 sample.db).1, inr []).
Proof.
  destruct (X6_delete_mailing_list_effect (env := sample.env) sample.db 1)
    as (Husers & _ & _ & _ & _ & Hsubs).
  - vm_compute. eauto.
  - split; [exact Husers | exact Hsubs].
Defined.

Lemma X7_delete_template_and_subscriber_effect_witness :
  dal.templates (dal.delete_template (env := sample.env) 1 sample.db).1
    = delete 1 (dal.templates sample.db)
  ∧ dal.subscribers (dal.delete_template (env := sample.env) 1 sample.db).1
    = dal.subscribers sample.db.
Proof.
  destruct (X7_delete_template_and_subscriber_effect (env := sample.env) sample.db 1)
    as [Htpl _].
  destruct Htpl as (_ & _ & Hsubs & Htemplates & _).
  - vm_compute. eauto.
  - split; [exact Htemplates | exact Hsubs].
Defined.

Lemma X8_delete_user_effect_witness :
  dal.users (dal.delete_user (env := sample.env) 2 sample.db).1 = delete 2 (dal.users sample.db)
  ∧ dal.mailing_lists (dal.delete_user (env := sample.env) 2 sample.db).1 !! 1
    = Some (dal.mkMailingList "news" 1).
Proof.
  destruct (X8_delete_user_effect (env := sample.env) sample.db 2)
    as (Husers & Hlists & _).
  - vm_compute. eauto.
  - split; [exact Husers|]. apply Hlists. split; [reflexivity|]. vm_compute. discriminate.
Defined.

Lemma X9_referential_integrity_witness :
  dal.references_ok sample_reached
  ∧ dal.create_subscriber (env := sample.env) "erin@example.org" 7 sample.db
    = (sample.db, inl (IntegrityError "subscribers.mailing_list_id")).
Proof.
  pose proof (X9_referential_integrity (env := sample.env)) as (_ & Hreach & Hrefused & _).
  split.
  - apply Hreach; [reflexivity|]. apply sample_reached_reachable.
  - apply Hrefused; [reflexivity..|].
    intros k s Hk. destruct (decide (k = 1)) as [->|Hne].
    + vm_compute in Hk. injection Hk as <-. discriminate.
    + unfold sample.db in Hk. cbn [dal.subscribers] in Hk.
      by rewrite lookup_singleton_ne in Hk.
Defined.

(** ** Creating mailing lists, subscribers, templates and mailings *)

Section creating.
Context {env : Environment}.
Import dal.

Lemma create_mailing_list_eq db nm u :
  create_mailing_list nm u db =
    match insert (NewMailingList (mkMailingList nm u)) db with
    | inl err => (db, inl err)
    | inr (db', k) => (db', inr (mkRow k (mkMailingList nm u)))
    end.
Proof.
  unfold create_mailing_list, mbind, M_bind. rewrite commit_add.
  by destruct (insert _ db) as [err|[db' k]].
Qed.

Lemma create_template_eq db nm ct u :
  create_template nm ct u db =
    match insert (NewTemplate (mkTemplate nm ct u)) db with
    | inl err => (db, inl err)
    | inr (db', k) => (db', inr (mkRow k (mkTemplate nm ct u)))
    end.
Proof.
  unfold create_template, mbind, M_bind. rewrite commit_add.
  by destruct (insert _ db) as [err|[db' k]].
Qed.

Lemma create_mailing_eq db l t at_ u :
  create_mailing l t at_ u db =
    match insert (NewMailing (mkMailing l t (Some at_) None u)) db with
    | inl err => (db, inl err)
    | inr (db', k) => (db', inr (mkRow k (mkMailing l t (Some at_) None u)))
    end.
Proof.
  unfold create_mailing, mbind, M_bind. rewrite commit_add.
  by destruct (insert _ db) as [err|[db' k]].
Qed.

Lemma missing_true {C} (m : gmap Z C) (i : Z) : missing m i = true ↔ m !! i = None.
Proof. unfold missing. apply bool_decide_eq_true. Qed.

Lemma not_missing {C} (m : gmap Z C) (i : Z) : missing m i = false ↔ is_Some (m !! i).
Proof.
  split; [apply missing_false|]. intros [c Hc]. apply not_true_iff_false.
  rewrite missing_true. congruence.
Qed.

(** X11. What the creating methods return is what they stored.  A mailing
    list, a template or a mailing that [create_mailing_list],
    [create_template] or [create_mailing] returns sits under a key that was
    free, carries the given columns (a new mailing has no [sent_at]), is
    found again by its id, and is the only change to the database.  With the
    foreign keys enforced the rows it references exist; without
    enforcement, or when they exist, the creation succeeds. *)
Theorem X11_create_round_trips (db : DB) :
  (∀ nm u db' l, create_mailing_list nm u db = (db', inr l) →
     mailing_lists db !! id l = None
     ∧ cols l = mkMailingList nm u
     ∧ db' = mkDB (users db) (<[id l := cols l]> (mailing_lists db)) (subscribers db)
               (templates db) (mailings db)
     ∧ get_mailing_list_by_id (id l) db' = (db', inr (Some l))
     ∧ (foreign_keys = true → is_Some (users db !! u)))
  ∧ (∀ nm u, foreign_keys = false ∨ is_Some (users db !! u) →
       ∃ db' l, create_mailing_list nm u db = (db', inr l))
  ∧ (∀ nm ct u db' t, create_template nm ct u db = (db', inr t) →
     templates db !! id t = None
     ∧ cols t = mkTemplate nm ct u
     ∧ db' = mkDB (users db) (mailing_lists db) (subscribers db)
               (<[id t := cols t]> (templates db)) (mailings db)
     ∧ get_template_by_id (id t) db' = (db', inr (Some t))
     ∧ (foreign_keys = true → is_Some (users db !! u)))
  ∧ (∀ nm ct u, foreign_keys = false ∨ is_Some (users db !! u) →
       ∃ db' t, create_template nm ct u db = (db', inr t))
  ∧ (∀ l t at_ u db' m, create_mailing l t at_ u db = (db', inr m) →
     mailings db !! id m = None
     ∧ cols m = mkMailing l t (Some at_) None u
     ∧ db' = mkDB (users db) (mailing_lists db) (subscribers db) (templates db)
               (<[id m := cols m]> (mailings db))
     ∧ get_mailing_by_id (id m) db' = (db', inr (Some m))
     ∧ (foreign_keys = true →
        is_Some (mailing_lists db !! l) ∧ is_Some (templates db !! t)
        ∧ is_Some (users db !! u)))
  ∧ (∀ l t at_ u,
       foreign_keys = false
       ∨ (is_Some (mailing_lists db !! l) ∧ is_Some (templates db !! t)
          ∧ is_Some (users db !! u)) →
       ∃ db' m, create_mailing l t at_ u db = (db', inr m)).
Proof.
  split_and!.
  - intros nm u db' l. rewrite create_mailing_list_eq. cbn [insert ml_user_id].
    destruct (foreign_keys && missing (users db) u) eqn:Hfk; [done|].
    intros [= <- <-]. cbn [id cols]. split_and!; [apply next_id_fresh|done..| |].
    + unfold get_mailing_list_by_id, query, get. cbn [mailing_lists].
      by rewrite lookup_insert_eq.
    + intros Hon. rewrite Hon in Hfk. by apply not_missing.
  - intros nm u Hok. rewrite create_mailing_list_eq. cbn [insert ml_user_id].
    assert (foreign_keys && missing (users db) u = false) as ->; [|eauto].
    destruct Hok as [->|Hu%not_missing]; [done|]. rewrite Hu. apply andb_false_r.
  - intros nm ct u db' t. rewrite create_template_eq. cbn [insert tpl_user_id].
    destruct (foreign_keys && missing (users db) u) eqn:Hfk; [done|].
    intros [= <- <-]. cbn [id cols]. split_and!; [apply next_id_fresh|done..| |].
    + unfold get_template_by_id, query, get. cbn [templates].
      by rewrite lookup_insert_eq.
    + intros Hon. rewrite Hon in Hfk. by apply not_missing.
  - intros nm ct u Hok. rewrite create_template_eq. cbn [insert tpl_user_id].
    assert (foreign_keys && missing (users db) u = false) as ->; [|eauto].
    destruct Hok as [->|Hu%not_missing]; [done|]. rewrite Hu. apply andb_false_r.
  - intros l t at_ u db' m. rewrite create_mailing_eq.
    cbn [insert m_mailing_list_id m_template_id m_user_id].
    destruct (foreign_keys && _) eqn:Hfk; [done|].
    intros [= <- <-]. cbn [id cols]. split_and!; [apply next_id_fresh|done..| |].
    + unfold get_mailing_by_id, query, get. cbn [mailings].
      by rewrite lookup_insert_eq.
    + intros Hon. rewrite Hon in Hfk. cbn [andb] in Hfk.
      apply orb_false_iff in Hfk as [[Hl Ht]%orb_false_iff Hu].
      apply not_missing in Hl, Ht, Hu. done.
  - intros l t at_ u Hok. rewrite create_mailing_eq.
    cbn [insert m_mailing_list_id m_template_id m_user_id].
    assert (foreign_keys
            && (missing (mailing_lists db) l || missing (templates db) t
                || missing (users db) u) = false) as ->; [|eauto].
    destruct Hok as [->|(Hl%not_missing & Ht%not_missing & Hu%not_missing)]; [done|].
    rewrite Hl, Ht, Hu. apply andb_false_r.
Qed.

End creating.

Lemma X11_create_round_trips_witness :
  ∃ db' l,
    dal.create_mailing_list (env := sample.env) "launch" 2 sample.db = (db', inr l)
    ∧ dal.get_mailing_list_by_id (dal.id l) db' = (db', inr (Some l)).
Proof.
  pose proof (X11_create_round_trips (env := sample.env) sample.db)
    as (Hstored & Hcreated & _).
  destruct (Hcreated "launch" 2) as (db' & l & Hcreate).
  - right. vm_compute. eauto.
  - exists db', l. split; [exact Hcreate|].
    by destruct (Hstored "launch" 2 db' l Hcreate) as (_ & _ & _ & Hfound & _).
Defined.

(** * Further properties of the service *)

(** ** Tokens and the current user *)

Section bearer.
Context {env : Environment}.
Import api.


Lemma verify_token_Some (t : Z) (tok : token) (claims : gmap string Z) :
  verify_token t tok = Some claims
  ↔ tok = JWS "HS256" claims (HS256 SECRET_KEY ("HS256", claims))
    ∧ validate_claims t claims = None.
Proof.
  unfold verify_token, jwt_decode. split.
  - destruct tok as [s|alg cl sig]; [done|].
    case_bool_decide as Halg; cbn [negb]; [|done].
    apply list_elem_of_singleton in Halg. subst alg.
    destruct (String.eqb_spec sig (HS256 SECRET_KEY (ALGORITHM, cl))) as [->|_];
      cbn [negb]; [|done].
    destruct (validate_claims t cl) eqn:Hvalid; [done|]. by intros [= <-].
  - intros [-> Hvalid].
    rewrite bool_decide_true by (apply list_elem_of_singleton; reflexivity).
    change ALGORITHM with "HS256". rewrite String.eqb_refl. cbn [negb].
    by rewrite Hvalid.
Qed.


(** X13. Who is authenticated.  A request is resolved to the user [u]
    exactly when it carries a token that verifies (signed with the secret,
    its claims valid at the time of the request), the token's [user_id]
    claim is [u]'s id, and [u] is the row stored under that id now; the
    database is never changed by the resolution.  So nobody is
    authenticated without a token signed with the secret; and a token names
    an id, nothing more: it stands for whichever user is stored under that
    id when the request comes. *)
Theorem X13_current_user_is_the_stored_user
    (now : Z) (authorization : option token) (db : dal.DB) :
  (current_user_of now authorization db).1 = db
  ∧ (∀ u,
       current_user_of now authorization db = (db, inr u)
       ↔ dal.users db !! dal.id u = Some (dal.cols u)
         ∧ ∃ claims,
             authorization = Some (JWS "HS256" claims (HS256 SECRET_KEY ("HS256", claims)))
             ∧ claims !! "user_id" = Some (dal.id u)
             ∧ validate_claims now claims = None).
Proof.
  rewrite current_user_of_eq. split.
  - destruct authorization as [tok|]; [|done]. rewrite get_current_user_eq.
    destruct (verify_token now tok) as [payload|]; [|done].
    destruct (payload !! "user_id") as [user_id|]; [|done].
    by destruct (dal.users db !! user_id).
  - intros [i c]. cbn [dal.id dal.cols]. split.
    + destruct authorization as [tok|]; [|done]. rewrite get_current_user_eq.
      destruct (verify_token now tok) as [payload|] eqn:Hverify; [|done].
      apply verify_token_Some in Hverify as [-> Hvalid].
      destruct (payload !! "user_id") as [user_id|] eqn:Hid; [|done].
      destruct (dal.users db !! user_id) as [c'|] eqn:Hrow; [|done].
      intros [= <- <-]. split; [done|]. by exists payload.
    + intros (Hrow & claims & -> & Hid & Hvalid). rewrite get_current_user_eq.
      rewrite (proj2 (verify_token_Some now _ claims)) by done.
      by rewrite Hid, Hrow.
Qed.

End bearer.

Lemma X13_current_user_is_the_stored_user_witness :
  dal.users sample.db !! 2 = Some sample.bob
  ∧ ∃ claims,
      Some (api.create_access_token (env := sample.env) 1000 {["user_id" := 2]}
              api.default_expires_delta)
      = Some (api.JWS "HS256" claims (HS256 (Environment := sample.env)
                                         (SECRET_KEY (Environment := sample.env))
                                         ("HS256", claims)))
      ∧ claims !! "user_id" = Some 2.
Proof.
  pose proof (X13_current_user_is_the_stored_user (env := sample.env) 2000
                (Some (api.create_access_token (env := sample.env) 1000 {["user_id" := 2]}
                         api.default_expires_delta))
                sample.db) as [_ Hwho].
  destruct (proj1 (Hwho sample.bob_user)) as (Hrow & claims & Htok & Hid & _).
  - vm_compute. reflexivity.
  - split; [exact Hrow|]. exists claims. split; [exact Htok | exact Hid].
Defined.


(** ** Administrators *)

Section administrators.
Context {env : Environment}.
Import api.

Lemma current_admin_of_eq (now : Z) (authorization : option token) (db : dal.DB) :
  current_admin_of now authorization db =
    match current_user_of now authorization db with
    | (db', inl e) => (db', inl e)
    | (db', inr u) =>
        if dal.is_admin (dal.cols u) then (db', inr u)
        else (db', inl (HTTPException 403 "You must be an admin"))
    end.
Proof.
  unfold current_admin_of, mbind, dal.M_bind.
  destruct (current_user_of now authorization db) as [db' [e|u]]; [done|].
  unfold get_current_admin. by destruct (dal.is_admin (dal.cols u)).
Qed.

Lemma current_user_of_state (now : Z) (authorization : option token) (db : dal.DB) :
  (current_user_of now authorization db).1 = db.
Proof.
  rewrite current_user_of_eq. destruct authorization as [tok|]; [|done].
  rewrite get_current_user_eq.
  destruct (verify_token now tok) as [payload|]; [|done].
  destruct (payload !! "user_id") as [user_id|]; [|done].
  by destruct (dal.users db !! user_id).
Qed.

(** X14. The routes for administrators are closed to everybody else.  A
    request is resolved to an administrator exactly when it is resolved to a
    user whose stored [is_admin] is set.  A request of an authenticated user
    without the flag is answered 403, one that is not authenticated with the
    401 of the authentication; in both cases updating a user, listing the
    users and deleting a user are not run, and the database is as it was. *)
Theorem X14_admin_routes_are_closed_to_others
    (now : Z) (authorization : option token) (db : dal.DB) :
  (∀ u, current_admin_of now authorization db = (db, inr u)
        ↔ current_user_of now authorization db = (db, inr u)
          ∧ dal.is_admin (dal.cols u) = true)
  ∧ (∀ u, current_user_of now authorization db = (db, inr u) →
       dal.is_admin (dal.cols u) = false →
       ∀ salt user_id body,
         (current_admin ← current_admin_of now authorization;
          update_user salt user_id body current_admin) db
         = (db, inl (HTTPException 403 "You must be an admin"))
         ∧ (current_admin ← current_admin_of now authorization;
            read_all_users current_admin) db
           = (db, inl (HTTPException 403 "You must be an admin"))
         ∧ (current_admin ← current_admin_of now authorization;
            delete_user user_id current_admin) db
           = (db, inl (HTTPException 403 "You must be an admin")))
  ∧ (∀ e, (current_user_of now authorization db).2 = inl e →
       ∀ salt user_id body,
         (current_admin ← current_admin_of now authorization;
          update_user salt user_id body current_admin) db
         = (db, inl e)
         ∧ (current_admin ← current_admin_of now authorization;
            read_all_users current_admin) db
           = (db, inl e)
         ∧ (current_admin ← current_admin_of now authorization;
            delete_user user_id current_admin) db
           = (db, inl e)).
Proof.
  pose proof (current_user_of_state now authorization db) as Hstate.
  split_and!.
  - intros u. rewrite current_admin_of_eq.
    destruct (current_user_of now authorization db) as [db' [e|u']].
    + split; [done|]. by intros [? _].
    + cbn [fst] in Hstate. subst db'.
      destruct (dal.is_admin (dal.cols u')) eqn:Hadmin.
      * split; [intros [= <-]; by split|by intros [[= <-] _]].
      * split; [done|]. intros [[= <-] ?]. congruence.
  - intros u Hu Hadmin salt user_id body. unfold mbind, dal.M_bind.
    by rewrite current_admin_of_eq, Hu, Hadmin.
  - intros e He salt user_id body. unfold mbind, dal.M_bind.
    rewrite current_admin_of_eq.
    destruct (current_user_of now authorization db) as [db' [e'|u']]; [|done].
    cbn [fst snd] in Hstate, He. by simplify_eq.
Qed.

End administrators.

Lemma X14_admin_routes_are_closed_to_others_witness :
  (current_admin ←
     api.current_admin_of (env := sample.env) 2000
       (Some (api.create_access_token (env := sample.env) 1000 {["user_id" := 2]}
                api.default_expires_delta));
   api.delete_user (env := sample.env) 1 current_admin) sample.db
  = (sample.db, inl (HTTPException 403 "You must be an admin")).
Proof.
  pose proof (X14_admin_routes_are_closed_to_others (env := sample.env) 2000
                (Some (api.create_access_token (env := sample.env) 1000 {["user_id" := 2]}
                         api.default_expires_delta))
                sample.db) as (_ & Hclosed & _).
  destruct (Hclosed sample.bob_user) with (salt := "") (user_id := 1)
    (body := api.mkUserCreate "" "" "" false) as (_ & _ & Hdelete).
  - vm_compute. reflexivity.
  - reflexivity.
  - exact Hdelete.
Defined.

(** ** Logging in *)

Section login.
Context {env : Environment}.
Import api.

Lemma get_user_by_username_none (db : dal.DB) (un : string) :
  (∀ k c, dal.users db !! k = Some c → dal.username c ≠ un) →
  dal.get_user_by_username un db = (db, inr None).
Proof.
  intros Hfree. unfold dal.get_user_by_username, dal.query, mbind, dal.M_bind.
  rewrite (proj2 (filter_by_empty (λ c, dal.username c = un) (dal.users db))) by done.
  by rewrite (proj2 (instances_nil _)).
Qed.

Lemma get_user_by_username_found (db : dal.DB) (k : Z) (c : dal.UserCols) :
  dal.users db !! k = Some c →
  (∀ j c', dal.users db !! j = Some c' → dal.username c' = dal.username c → j = k) →
  dal.get_user_by_username (dal.username c) db = (db, inr (Some (dal.mkRow k c))).
Proof.
  intros Hk Huniq. unfold dal.get_user_by_username, dal.query, mbind, dal.M_bind.
  by rewrite (filter_by_unique _ _ k c), instances_singleton.
Qed.

Lemma login_for_access_token_state (now : Z) (un pw : string) (db : dal.DB) :
  (login_for_access_token now un pw db).1 = db.
Proof.
  unfold login_for_access_token, dal.get_user_by_username, dal.query, dal.raise,
    mbind, dal.M_bind.
  destruct (dal.instances _) as [|u [|u' rows]]; cbn; [done| |done].
  destruct (verify_password pw _) as [e|[]]; done.
Qed.

Lemma validate_secret_Some (secret : string) (e : exn) :
  validate_secret secret = Some e → ∃ msg, e = ValueError msg.
Proof.
  unfold validate_secret. destruct (_ <? _)%nat; [intros [= <-]; eauto|].
  destruct (has_NUL secret); [intros [= <-]; eauto|done].
Qed.

Lemma login_for_access_token_digest (now : Z) (db : dal.DB) (k : Z) (c : dal.UserCols)
    (salt pw pw' : string) :
  dal.users db !! k = Some c →
  (∀ j c', dal.users db !! j = Some c' → dal.username c' = dal.username c → j = k) →
  String.length salt = 22%nat →
  dal.hashed_password c = to_string salt (bcrypt salt pw) →
  login_for_access_token now (dal.username c) pw' db =
    match validate_secret pw' with
    | Some e => (db, inl e)
    | None =>
        if String.eqb (bcrypt salt pw') (bcrypt salt pw)
        then (db, inr (create_access_token now {["user_id" := k]} default_expires_delta))
        else (db, inl (HTTPException 401 "Invalid username or password"))
    end.
Proof.
  intros Hk Huniq Hsalt Hhash. unfold login_for_access_token, mbind, dal.M_bind.
  rewrite (get_user_by_username_found db k c) by done.
  cbn [dal.cols dal.id]. rewrite Hhash, verify_password_digest by done.
  destruct (validate_secret pw'); [done|]. by destruct (String.eqb _ _).
Qed.

(** X15. Logging in never changes the database.  In a state the
    persistence operations can reach, a username that no user has is
    answered 401 with the detail [Invalid username or password], whatever
    the password.  For a user whose stored digest [get_hashed_password]
    made from the password [pw]: [pw] is answered with the token for that
    user's id, valid for 30 minutes; another password that the hasher takes
    is answered with the very same 401 unless its bcrypt checksum under the
    digest's salt is that of [pw], so for such passwords the answer does not
    tell an unknown username from a wrong password.  A password that the
    hasher refuses does tell them apart: for a known username the
    verification raises, which no handler catches, and the answer is 500. *)
Theorem X15_login (db : dal.DB) (now : Z) :
  dal.reachable db →
  (∀ un pw, (login_for_access_token now un pw db).1 = db)
  ∧ (∀ un pw, (∀ k c, dal.users db !! k = Some c → dal.username c ≠ un) →
       login_for_access_token now un pw db
       = (db, inl (HTTPException 401 "Invalid username or password")))
  ∧ (∀ k c salt pw, dal.users db !! k = Some c → String.length salt = 22%nat →
       get_hashed_password salt pw = inr (dal.hashed_password c) →
       login_for_access_token now (dal.username c) pw db
       = (db, inr (create_access_token now {["user_id" := k]} default_expires_delta))
       ∧ (∀ pw', validate_secret pw' = None → bcrypt salt pw' ≠ bcrypt salt pw →
            login_for_access_token now (dal.username c) pw' db
            = (db, inl (HTTPException 401 "Invalid username or password")))
       ∧ (∀ pw' e, validate_secret pw' = Some e →
            login_for_access_token now (dal.username c) pw' db = (db, inl e)
            ∧ status 200 (login_for_access_token now (dal.username c) pw' db).2 = 500)).
Proof.
  intros Hreach%reachable_unique_users. split_and!.
  - intros un pw. apply login_for_access_token_state.
  - intros un pw Hfree. unfold login_for_access_token, mbind, dal.M_bind.
    by rewrite get_user_by_username_none.
  - intros k c salt pw Hk Hsalt [Hok Hhash]%get_hashed_password_inr.
    assert (∀ j c', dal.users db !! j = Some c' → dal.username c' = dal.username c → j = k)
      as Huniq.
    { intros j c' Hj Hname. apply (Hreach j k c' c Hj Hk). by left. }
    split_and!.
    + rewrite (login_for_access_token_digest now db k c salt pw pw) by done.
      by rewrite Hok, String.eqb_refl.
    + intros pw' Hok' Hne%String.eqb_neq.
      rewrite (login_for_access_token_digest now db k c salt pw pw') by done.
      by rewrite Hok', Hne.
    + intros pw' e Hno.
      rewrite (login_for_access_token_digest now db k c salt pw pw') by done.
      rewrite Hno. split; [done|].
      by destruct (validate_secret_Some _ _ Hno) as [msg ->].
Qed.

(** X16. Registering, logging in and calling an authenticated route fit
    together.  When the username and the email are free and the password
    is one the hasher takes, [create_new_user] stores the user; logging in
    with the same username and password then returns a token, and with that
    token [read_current_user] answers with the user that was registered,
    for 30 minutes; after that the token is answered 401.  Another password
    that the hasher takes and whose checksum differs is refused, and
    registering the same name again fails on a unique constraint of the
    users, which no handler catches, without storing anything. *)
Theorem X16_register_login_authenticate
    (db : dal.DB) (salt : string) (body : UserCreate) (now t : Z) :
  String.length salt = 22%nat →
  validate_secret (password body) = None →
  (∀ k c, dal.users db !! k = Some c →
          dal.username c ≠ username body ∧ dal.email c ≠ email body) →
  ∃ db' u digest,
    create_new_user salt body db = (db', inr u)
    ∧ dal.users db' = <[dal.id u := dal.cols u]> (dal.users db)
    ∧ get_hashed_password salt (password body) = inr digest
    ∧ dal.cols u = dal.mkUser (username body) digest (email body) true (is_admin body)
    ∧ login_for_access_token now (username body) (password body) db'
      = (db', inr (create_access_token now {["user_id" := dal.id u]} default_expires_delta))
    ∧ (∀ pw', validate_secret pw' = None → bcrypt salt pw' ≠ bcrypt salt (password body) →
         login_for_access_token now (username body) pw' db'
         = (db', inl (HTTPException 401 "Invalid username or password")))
    ∧ ((t ≤ now + 30 * 60)%Z →
       (access_token ← login_for_access_token now (username body) (password body);
        current_user ← current_user_of t (Some access_token);
        read_current_user current_user) db'
       = (db', inr u))
    ∧ ((now + 30 * 60 < t)%Z →
       (access_token ← login_for_access_token now (username body) (password body);
        current_user ← current_user_of t (Some access_token);
        read_current_user current_user) db'
       = (db', inl (HTTPException 401 "Invalid token")))
    ∧ (∀ salt' body', username body' = username body →
         validate_secret (password body') = None →
         ∃ constraint,
           create_new_user salt' body' db' = (db', inl (IntegrityError constraint))
           ∧ (constraint = "users.username" ∨ constraint = "users.email")
           ∧ status 201 (create_new_user salt' body' db').2 = 500).
Proof.
  intros Hsalt Hok Hfree. rewrite create_new_user_accepted, create_user_eq, insert_user_eq
    by done.
  cbn [dal.username dal.email].
  rewrite !taken_false by (intros k c Hk; cbn; naive_solver).
  set (c := dal.mkUser (username body) (to_string salt (bcrypt salt (password body)))
              (email body) true (is_admin body)).
  set (k := dal.next_id (dal.users db)).
  set (db' := dal.mkDB (<[k := c]> (dal.users db)) (dal.mailing_lists db)
                (dal.subscribers db) (dal.templates db) (dal.mailings db)).
  exists db', (dal.mkRow k c), (to_string salt (bcrypt salt (password body))).
  cbn [dal.id dal.cols].
  assert (dal.users db' !! k = Some c) as Hk by apply lookup_insert_eq.
  assert (∀ j c', dal.users db' !! j = Some c' → dal.username c' = dal.username c → j = k)
    as Huniq.
  { intros j c' Hj Hname. unfold db' in Hj. cbn [dal.users] in Hj.
    apply lookup_insert_Some in Hj as [[? _]|[_ Hj]]; [done|].
    by destruct (Hfree j c' Hj). }
  assert (∀ pw',
    login_for_access_token now (username body) pw' db' =
      match validate_secret pw' with
      | Some e => (db', inl e)
      | None =>
          if String.eqb (bcrypt salt pw') (bcrypt salt (password body))
          then (db', inr (create_access_token now {["user_id" := k]} default_expires_delta))
          else (db', inl (HTTPException 401 "Invalid username or password"))
      end) as Hlogin.
  { intros pw'. by apply (login_for_access_token_digest now db' k c salt (password body) pw'). }
  assert (login_for_access_token now (username body) (password body) db'
          = (db', inr (create_access_token now {["user_id" := k]} default_expires_delta)))
    as Hin by by rewrite Hlogin, Hok, String.eqb_refl.
  split_and!; try done.
  - by apply get_hashed_password_accepted.
  - intros pw' Hok' Hne%String.eqb_neq. by rewrite Hlogin, Hok', Hne.
  - intros Ht. unfold mbind at 1, dal.M_bind. rewrite Hin.
    unfold mbind, dal.M_bind. rewrite current_user_of_eq.
    by rewrite (get_current_user_issued now t db' k c).
  - intros Ht. unfold mbind at 1, dal.M_bind. rewrite Hin.
    unfold mbind, dal.M_bind. rewrite current_user_of_eq, get_current_user_eq.
    rewrite verify_token_issued. change default_expires_delta with (30 * 60)%Z.
    destruct (Z.ltb_spec (now + 30 * 60) t) as [_|?]; [done|lia].
  - intros salt' body' Hname Hok'. rewrite create_new_user_accepted by done.
    destruct (create_user_taken db' (username body')
                (to_string salt' (bcrypt salt' (password body'))) (email body')
                (is_admin body')) as (constraint & -> & Hwhich).
    { exists k, c. split; [done|]. by left. }
    exists constraint. split_and!; [done| |done].
    destruct Hwhich as [[? _]|[? _]]; auto.
Qed.

End login.

Lemma X15_login_witness :
  api.login_for_access_token (env := sample.env) 1000 "alice" "wonderland" sample_registered
  = (sample_registered,
     inr (api.create_access_token (env := sample.env) 1000 {["user_id" := 1]}
            api.default_expires_delta))
  ∧ api.login_for_access_token (env := sample.env) 1000 "alice" "looking-glass"
      sample_registered
    = (sample_registered, inl (HTTPException 401 "Invalid username or password")).
Proof.
  destruct (X15_login (env := sample.env) sample_registered 1000) as (_ & _ & Hknown).
  - apply dal.reachable_perform, dal.reachable_empty.
  - destruct (Hknown 1
                (dal.mkUser "alice"
                   (api.to_string "AAAAAAAAAAAAAAAAAAAAAA"
                      (bcrypt (Environment := sample.env) "AAAAAAAAAAAAAAAAAAAAAA"
                         "wonderland"))
                   "alice@example.org" true true)
                "AAAAAAAAAAAAAAAAAAAAAA" "wonderland") as (Hright & Hwrong & _);
      [vm_compute; reflexivity | reflexivity | reflexivity |].
    split; [exact Hright|]. apply Hwrong; [reflexivity|]. vm_compute. discriminate.
Defined.

Lemma X16_register_login_authenticate_witness :
  ∃ db' u,
    api.create_new_user (env := sample.env) "AAAAAAAAAAAAAAAAAAAAAA"
      (api.mkUserCreate "alice" "wonderland" "alice@example.org" false) dal.empty_db
    = (db', inr u)
    ∧ (access_token ← api.login_for_access_token (env := sample.env) 1000 "alice" "wonderland";
       current_user ← api.current_user_of (env := sample.env) 2000 (Some access_token);
       api.read_current_user current_user) db'
      = (db', inr u).
Proof.
  destruct (X16_register_login_authenticate (env := sample.env) dal.empty_db
              "AAAAAAAAAAAAAAAAAAAAAA"
              (api.mkUserCreate "alice" "wonderland" "alice@example.org" false) 1000 2000)
    as (db' & u & digest & Hcreate & _ & _ & _ & _ & _ & Hread & _).
  - reflexivity.
  - reflexivity.
  - intros k c Hk. cbn [dal.empty_db dal.users] in Hk. by rewrite lookup_empty in Hk.
  - exists db', u. split; [exact Hcreate|]. apply Hread. lia.
Defined.

(** ** The owner's requests *)

Section owner.
Context {env : Environment}.
Import api.

Ltac handler :=
  unfold read_mailing_list, update_mailing_list, delete_mailing_list,
    create_new_subscriber, read_all_subscribers, delete_subscriber,
    read_template, update_template, delete_template,
    dal.get_mailing_list_by_id, dal.get_template_by_id, dal.get_subscriber_by_id,
    dal.get_subscribers_by_mailing_list_id;
  unfold dal.query, dal.get, dal.raise, mbind, dal.M_bind, mret, dal.M_ret.

Lemma read_mailing_list_run (i : Z) (B : dal.User) (db : dal.DB) :
  read_mailing_list i B db =
    match dal.mailing_lists db !! i with
    | Some l =>
        if bool_decide (dal.ml_user_id l = dal.id B) then (db, inr (dal.mkRow i l))
        else (db, inl (HTTPException 404 "Mailing list not found"))
    | None => (db, inl (HTTPException 404 "Mailing list not found"))
    end.
Proof.
  handler. destruct (dal.mailing_lists db !! i) as [l|]; [|done]. cbn.
  by repeat case_bool_decide.
Qed.

Lemma update_mailing_list_run (i : Z) (body : MailingListCreate) (B : dal.User)
    (db : dal.DB) :
  update_mailing_list i body B db =
    match dal.mailing_lists db !! i with
    | Some l =>
        if bool_decide (dal.ml_user_id l = dal.id B) && negb (String.eqb (name body) "")
        then (db, inr (dal.mkRow i (dal.mkMailingList (name body) (dal.ml_user_id l))))
        else (db, inl (HTTPException 404 "Mailing list not found"))
    | None => (db, inl (HTTPException 404 "Mailing list not found"))
    end.
Proof.
  unfold update_mailing_list, mbind, dal.M_bind. rewrite update_mailing_list_eq.
  destruct (dal.mailing_lists db !! i) as [l|]; [|done]. cbn.
  destruct (String.eqb (name body) ""); cbn; [by rewrite andb_false_r|].
  by repeat case_bool_decide.
Qed.

Lemma delete_mailing_list_run (i : Z) (B : dal.User) (db : dal.DB) :
  delete_mailing_list i B db =
    match dal.mailing_lists db !! i with
    | Some l =>
        if bool_decide (dal.ml_user_id l = dal.id B)
        then (dal.flush_deleted (dal.cascade_mailing_list db i) db, inr ())
        else (db, inl (HTTPException 404 "Mailing list not found"))
    | None => (db, inl (HTTPException 404 "Mailing list not found"))
    end.
Proof.
  unfold delete_mailing_list, dal.get_mailing_list_by_id, dal.query, dal.get, dal.raise.
  unfold mbind at 1, dal.M_bind at 1.
  destruct (dal.mailing_lists db !! i) as [l|] eqn:Hl; [|done].
  cbn [fmap option_fmap option_map dal.cols].
  repeat case_bool_decide; try done.
  unfold mbind, dal.M_bind. by rewrite delete_mailing_list_eq, Hl.
Qed.

Lemma read_all_subscribers_run (i : Z) (B : dal.User) (db : dal.DB) :
  read_all_subscribers i B db =
    match dal.mailing_lists db !! i with
    | Some l =>
        if bool_decide (dal.ml_user_id l = dal.id B)
        then dal.get_subscribers_by_mailing_list_id i db
        else (db, inl (HTTPException 404 "Mailing list not found"))
    | None => (db, inl (HTTPException 404 "Mailing list not found"))
    end.
Proof.
  handler. destruct (dal.mailing_lists db !! i) as [l|]; [|done]. cbn.
  by repeat case_bool_decide.
Qed.

Lemma create_new_subscriber_run (body : SubscriberCreate) (B : dal.User) (db : dal.DB) :
  create_new_subscriber body B db =
    match dal.mailing_lists db !! sc_mailing_list_id body with
    | Some l =>
        if bool_decide (dal.ml_user_id l = dal.id B)
        then
          if dal.taken (λ r, dal.sub_email r = sc_email body) (dal.subscribers db)
          then (db, inl (IntegrityError "subscribers.email"))
          else
            (dal.mkDB (dal.users db) (dal.mailing_lists db)
               (<[dal.next_id (dal.subscribers db)
                  := dal.mkSubscriber (sc_email body) (sc_mailing_list_id body)]>
                  (dal.subscribers db))
               (dal.templates db) (dal.mailings db),
             inr (dal.mkRow (dal.next_id (dal.subscribers db))
                    (dal.mkSubscriber (sc_email body) (sc_mailing_list_id body))))
        else (db, inl (HTTPException 404 "Mailing list not found"))
    | None => (db, inl (HTTPException 404 "Mailing list not found"))
    end.
Proof.
  unfold create_new_subscriber, dal.get_mailing_list_by_id, dal.query, dal.get, dal.raise.
  unfold mbind at 1, dal.M_bind at 1.
  destruct (dal.mailing_lists db !! sc_mailing_list_id body) as [l|] eqn:Hl; [|done].
  cbn [fmap option_fmap option_map dal.cols].
  repeat case_bool_decide; try done.
  rewrite create_subscriber_eq. cbn [dal.insert dal.sub_email dal.sub_mailing_list_id].
  destruct (dal.taken _ _); [done|].
  assert (dal.missing (dal.mailing_lists db) (sc_mailing_list_id body) = false) as ->.
  { apply not_missing. eauto. }
  by rewrite andb_false_r.
Qed.

Lemma delete_subscriber_run (i : Z) (B : dal.User) (db : dal.DB) :
  delete_subscriber i B db =
    match dal.subscribers db !! i with
    | Some s =>
        match dal.mailing_lists db !! dal.sub_mailing_list_id s with
        | Some l =>
            if bool_decide (dal.ml_user_id l = dal.id B)
            then (dal.mkDB (dal.users db) (dal.mailing_lists db)
                    (delete i (dal.subscribers db)) (dal.templates db) (dal.mailings db),
                  inr ())
            else (db, inl (HTTPException 404 "Mailing list not found"))
        | None => (db, inl (HTTPException 404 "Mailing list not found"))
        end
    | None => (db, inl (HTTPException 404 "Subscriber not found"))
    end.
Proof.
  unfold delete_subscriber, dal.get_mailing_list_by_id, dal.get_subscriber_by_id,
    dal.query, dal.get, dal.raise.
  unfold mbind at 1, dal.M_bind at 1.
  destruct (dal.subscribers db !! i) as [s|] eqn:Hs; [|done].
  cbn [fmap option_fmap option_map dal.cols].
  unfold mbind at 1, dal.M_bind at 1.
  destruct (dal.mailing_lists db !! dal.sub_mailing_list_id s) as [l|] eqn:Hl; [|done].
  cbn [fmap option_fmap option_map dal.cols].
  repeat case_bool_decide; try done.
  unfold mbind, dal.M_bind. by rewrite delete_subscriber_eq, Hs.
Qed.

Lemma read_template_run (i : Z) (B : dal.User) (db : dal.DB) :
  read_template i B db =
    match dal.templates db !! i with
    | Some t =>
        if bool_decide (dal.tpl_user_id t = dal.id B) then (db, inr (dal.mkRow i t))
        else (db, inl (HTTPException 404 "Template not found"))
    | None => (db, inl (HTTPException 404 "Template not found"))
    end.
Proof.
  handler. destruct (dal.templates db !! i) as [t|]; [|done]. cbn.
  by repeat case_bool_decide.
Qed.

Lemma update_template_run (i : Z) (body : TemplateCreate) (B : dal.User) (db : dal.DB) :
  update_template i body B db =
    match dal.templates db !! i with
    | Some t =>
        if bool_decide (dal.tpl_user_id t = dal.id B)
        then (db, inr (dal.mkRow i
                         (dal.mkTemplate
                            (if String.eqb (tc_name body) "" then dal.tpl_name t
                             else tc_name body)
                            (if String.eqb (tc_content body) "" then dal.tpl_content t
                             else tc_content body)
                            (dal.tpl_user_id t))))
        else (db, inl (HTTPException 404 "Template not found"))
    | None => (db, inl (HTTPException 404 "Template not found"))
    end.
Proof.
  unfold update_template, mbind, dal.M_bind. rewrite update_template_eq.
  destruct (dal.templates db !! i) as [[nm ct u]|]; [|done]. cbn.
  destruct (String.eqb (tc_name body) ""), (String.eqb (tc_content body) ""); cbn;
    by repeat case_bool_decide.
Qed.

Lemma delete_template_run (i : Z) (B : dal.User) (db : dal.DB) :
  delete_template i B db =
    match dal.templates db !! i with
    | Some t =>
        if bool_decide (dal.tpl_user_id t = dal.id B)
        then (dal.flush_deleted (dal.cascade_template db i) db, inr ())
        else (db, inl (HTTPException 403 "You are not allowed to delete this template"))
    | None => (db, inl (HTTPException 404 "Template not found"))
    end.
Proof.
  unfold delete_template, dal.get_template_by_id, dal.query, dal.get, dal.raise.
  unfold mbind at 1, dal.M_bind at 1.
  destruct (dal.templates db !! i) as [t|] eqn:Ht; [|done].
  cbn [fmap option_fmap option_map dal.cols].
  repeat case_bool_decide; try done.
  unfold mbind, dal.M_bind. by rewrite delete_template_eq, Ht.
Qed.

End owner.

Section owner_requests.
Context {env : Environment}.
Import api.

Ltac standings :=
  cbn [standing_of response_status response_state];
  unfold subscriber_standing, mailing_list_standing, template_standing.

(** X17. What the owner is answered.  When the entity a request names is
    the caller's own, reading it, listing the subscribers of the list and
    updating the template answer 200 and the three deletions answer 204.
    Two requests of the owner can still fail: updating a mailing list with
    an empty name is answered 404, although the list exists and is the
    caller's, and enrolling a subscriber whose address some subscriber
    already has, in whatever list, runs into the unique constraint, which
    no handler catches. *)
Theorem X17_owner_is_served (db : dal.DB) (B : dal.User) (op : operation) :
  standing_of db (dal.id B) op = Own →
  response_status op B db =
    match op with
    | ReadMailingList _ | ReadAllSubscribers _ | ReadTemplate _ | UpdateTemplate _ _ => 200
    | UpdateMailingList _ body => if String.eqb (name body) "" then 404 else 200
    | CreateNewSubscriber body =>
        if dal.taken (λ r, dal.sub_email r = sc_email body) (dal.subscribers db)
        then 500 else 201
    | DeleteMailingList _ | DeleteSubscriber _ | DeleteTemplate _ => 204
    end.
Proof.
  destruct op as [i|i body|i|body|i|i|i|i body|i]; standings.
  - rewrite read_mailing_list_run.
    destruct (dal.mailing_lists db !! i) as [l|]; [|done]. by case_bool_decide.
  - rewrite update_mailing_list_run.
    destruct (dal.mailing_lists db !! i) as [l|]; [|done]. case_bool_decide; [|done].
    by destruct (String.eqb (name body) "").
  - rewrite delete_mailing_list_run.
    destruct (dal.mailing_lists db !! i) as [l|]; [|done]. by case_bool_decide.
  - rewrite create_new_subscriber_run.
    destruct (dal.mailing_lists db !! sc_mailing_list_id body) as [l|]; [|done].
    case_bool_decide; [|done]. by destruct (dal.taken _ _).
  - rewrite read_all_subscribers_run.
    destruct (dal.mailing_lists db !! i) as [l|]; [|done]. by case_bool_decide.
  - rewrite delete_subscriber_run.
    destruct (dal.subscribers db !! i) as [s|]; [|done].
    destruct (dal.mailing_lists db !! dal.sub_mailing_list_id s) as [l|]; [|done].
    by case_bool_decide.
  - rewrite read_template_run.
    destruct (dal.templates db !! i) as [t|]; [|done]. by case_bool_decide.
  - rewrite update_template_run.
    destruct (dal.templates db !! i) as [t|]; [|done]. by case_bool_decide.
  - rewrite delete_template_run.
    destruct (dal.templates db !! i) as [t|]; [|done]. by case_bool_decide.
Qed.

Lemma response_state_not_own (db : dal.DB) (B : dal.User) (op : operation) :
  standing_of db (dal.id B) op ≠ Own → response_state op B db = db.
Proof.
  destruct op as [i|i body|i|body|i|i|i|i body|i]; standings.
  - rewrite read_mailing_list_run.
    destruct (dal.mailing_lists db !! i) as [l|]; [|done]. by case_bool_decide.
  - rewrite update_mailing_list_run.
    destruct (dal.mailing_lists db !! i) as [l|]; [|done]. by destruct (_ && _).
  - rewrite delete_mailing_list_run.
    destruct (dal.mailing_lists db !! i) as [l|]; [|done]. by case_bool_decide.
  - rewrite create_new_subscriber_run.
    destruct (dal.mailing_lists db !! sc_mailing_list_id body) as [l|]; [|done].
    by case_bool_decide.
  - rewrite read_all_subscribers_run.
    destruct (dal.mailing_lists db !! i) as [l|]; [|done]. by case_bool_decide.
  - rewrite delete_subscriber_run.
    destruct (dal.subscribers db !! i) as [s|]; [|done].
    destruct (dal.mailing_lists db !! dal.sub_mailing_list_id s) as [l|]; [|done].
    by case_bool_decide.
  - rewrite read_template_run.
    destruct (dal.templates db !! i) as [t|]; [|done]. by case_bool_decide.
  - rewrite update_template_run.
    destruct (dal.templates db !! i) as [t|]; [|done]. by case_bool_decide.
  - rewrite delete_template_run.
    destruct (dal.templates db !! i) as [t|]; [|done]. by case_bool_decide.
Qed.

(** X18. A request reaches only what belongs to its caller.  A request
    that names nothing of the caller's leaves the database as it was, and so
    does every read and every update.  Whatever the request, the users are
    unchanged, and so is every mailing list and template of another user and
    every subscriber of a list that is not the caller's.  A mailing is kept
    when neither its list nor its template is the caller's: a mailing of
    another user does go when the caller deletes the list or the template it
    references. *)
Theorem X18_requests_reach_only_own_rows (db : dal.DB) (B : dal.User) (op : operation) :
  (standing_of db (dal.id B) op ≠ Own → response_state op B db = db)
  ∧ (match op with
     | DeleteMailingList _ | DeleteSubscriber _ | DeleteTemplate _
     | CreateNewSubscriber _ => True
     | _ => response_state op B db = db
     end)
  ∧ dal.users (response_state op B db) = dal.users db
  ∧ (∀ i l, dal.mailing_lists db !! i = Some l → dal.ml_user_id l ≠ dal.id B →
       dal.mailing_lists (response_state op B db) !! i = Some l)
  ∧ (∀ i t, dal.templates db !! i = Some t → dal.tpl_user_id t ≠ dal.id B →
       dal.templates (response_state op B db) !! i = Some t)
  ∧ (∀ i s, dal.subscribers db !! i = Some s →
       (∀ l, dal.mailing_lists db !! dal.sub_mailing_list_id s = Some l →
             dal.ml_user_id l ≠ dal.id B) →
       dal.subscribers (response_state op B db) !! i = Some s)
  ∧ (∀ i m, dal.mailings db !! i = Some m →
       (∀ l, dal.mailing_lists db !! dal.m_mailing_list_id m = Some l →
             dal.ml_user_id l ≠ dal.id B) →
       (∀ t, dal.templates db !! dal.m_template_id m = Some t →
             dal.tpl_user_id t ≠ dal.id B) →
       dal.mailings (response_state op B db) !! i = Some m).
Proof.
  split; [apply response_state_not_own|].
  destruct op as [i0|i0 body|i0|body|i0|i0|i0|i0 body|i0]; standings.
  - rewrite read_mailing_list_run.
    destruct (dal.mailing_lists db !! i0) as [l0|]; [|done]. by case_bool_decide.
  - rewrite update_mailing_list_run.
    destruct (dal.mailing_lists db !! i0) as [l0|]; [|done]. by destruct (_ && _).
  - rewrite delete_mailing_list_run.
    destruct (dal.mailing_lists db !! i0) as [l0|] eqn:Hl0; [|done].
    case_bool_decide as Hown; [|done]. cbn [fst]. split_and!; [done|..].
    + apply users_untouched. intros k. rewrite elem_of_cascade_mailing_list.
      by intros [[? _]|[[? _]|[? _]]].
    + intros i l Hi Hne. apply mailing_lists_kept. split; [done|].
      rewrite elem_of_cascade_mailing_list.
      intros [[_ ->]|[[? _]|[? _]]]; [|done..]. congruence.
    + intros i t Hi Hne. apply templates_kept. split; [done|].
      rewrite elem_of_cascade_mailing_list. by intros [[? _]|[[? _]|[? _]]].
    + intros i s Hi Hother. apply subscribers_kept. split; [done|].
      rewrite elem_of_cascade_mailing_list.
      intros [[? _]|[[_ (s' & Hs' & Hlist)]|[? _]]]; [done| |done].
      assert (s' = s) as -> by congruence. apply (Hother l0); congruence.
    + intros i m Hi Hlist Htpl. apply mailings_kept. split; [done|].
      rewrite elem_of_cascade_mailing_list.
      intros [[? _]|[[? _]|[_ (m' & Hm' & Hfk)]]]; [done..|].
      assert (m' = m) as -> by congruence. apply (Hlist l0); congruence.
  - rewrite create_new_subscriber_run.
    destruct (dal.mailing_lists db !! sc_mailing_list_id body) as [l0|]; [|done].
    case_bool_decide as Hown; [|done].
    destruct (dal.taken _ _); [done|]. cbn [fst dal.users dal.mailing_lists dal.templates
      dal.subscribers dal.mailings]. split_and!; try done.
    intros i s Hi _. rewrite lookup_insert_ne; [done|].
    intros <-. by rewrite next_id_fresh in Hi.
  - rewrite read_all_subscribers_run.
    destruct (dal.mailing_lists db !! i0) as [l0|]; [|done]. by case_bool_decide.
  - rewrite delete_subscriber_run.
    destruct (dal.subscribers db !! i0) as [s0|] eqn:Hs0; [|done].
    destruct (dal.mailing_lists db !! dal.sub_mailing_list_id s0) as [l0|] eqn:Hl0;
      [|done].
    case_bool_decide as Hown; [|done]. cbn [fst dal.users dal.mailing_lists dal.templates
      dal.subscribers dal.mailings]. split_and!; try done.
    intros i s Hi Hother. rewrite lookup_delete_ne; [done|].
    intros <-. assert (s0 = s) as -> by congruence. by apply (Hother l0).
  - rewrite read_template_run.
    destruct (dal.templates db !! i0) as [t0|]; [|done]. by case_bool_decide.
  - rewrite update_template_run.
    destruct (dal.templates db !! i0) as [t0|]; [|done]. by case_bool_decide.
  - rewrite delete_template_run.
    destruct (dal.templates db !! i0) as [t0|] eqn:Ht0; [|done].
    case_bool_decide as Hown; [|done]. cbn [fst]. split_and!; [done|..].
    + apply users_untouched. intros k. rewrite elem_of_cascade_template.
      by intros [[? _]|[? _]].
    + intros i l Hi Hne. apply mailing_lists_kept. split; [done|].
      rewrite elem_of_cascade_template. by intros [[? _]|[? _]].
    + intros i t Hi Hne. apply templates_kept. split; [done|].
      rewrite elem_of_cascade_template. intros [[_ ->]|[? _]]; [|done]. congruence.
    + intros i s Hi Hother. apply subscribers_kept. split; [done|].
      rewrite elem_of_cascade_template. by intros [[? _]|[? _]].
    + intros i m Hi Hlist Htpl. apply mailings_kept. split; [done|].
      rewrite elem_of_cascade_template.
      intros [[? _]|[_ (m' & Hm' & Hfk)]]; [done|].
      assert (m' = m) as -> by congruence. apply (Htpl t0); congruence.
Qed.

End owner_requests.

Lemma X17_owner_is_served_witness :
  api.response_status (env := sample.env)
    (api.UpdateMailingList 1 (api.mkMailingListCreate "")) sample.alice_user sample.db = 404
  ∧ api.response_status (env := sample.env) (api.DeleteTemplate 1) sample.alice_user sample.db
    = 204.
Proof.
  split.
  - apply (X17_owner_is_served (env := sample.env) sample.db sample.alice_user
             (api.UpdateMailingList 1 (api.mkMailingListCreate ""))).
    vm_compute. reflexivity.
  - apply (X17_owner_is_served (env := sample.env) sample.db sample.alice_user
             (api.DeleteTemplate 1)).
    vm_compute. reflexivity.
Defined.

Lemma X18_requests_reach_only_own_rows_witness :
  api.response_state (env := sample.env) (api.DeleteMailingList 1) sample.bob_user sample.db
    = sample.db
  ∧ dal.templates
      (api.response_state (env := sample.env) (api.DeleteTemplate 1) sample.alice_user
         sample.db) !! 2
    = Some (dal.mkTemplate "bye" "Goodbye" 2).
Proof.
  pose proof (X18_requests_reach_only_own_rows (env := sample.env) sample.db
                sample.bob_user (api.DeleteMailingList 1)) as (Hrefused & _).
  pose proof (X18_requests_reach_only_own_rows (env := sample.env) sample.db
                sample.alice_user (api.DeleteTemplate 1)) as (_ & _ & _ & _ & Hkept & _).
  split.
  - apply Hrefused. vm_compute. discriminate.
  - apply Hkept; [reflexivity|]. vm_compute. discriminate.
Defined.

(** ** From creation to deletion *)

Section lifecycle.
Context {env : Environment}.
Import api.

Lemma current_user_of_stored (now : Z) (authorization : option token) (db db' : dal.DB)
    (U : dal.User) :
  current_user_of now authorization db = (db', inr U) →
  db' = db ∧ dal.users db !! dal.id U = Some (dal.cols U).
Proof.
  rewrite current_user_of_eq. destruct authorization as [tok|]; [|done].
  rewrite get_current_user_eq.
  destruct (verify_token now tok) as [payload|]; [|done].
  destruct (payload !! "user_id") as [user_id|]; [|done].
  destruct (dal.users db !! user_id) as [c|] eqn:Hc; [|done].
  by intros [= <- <-].
Qed.

Lemma read_all_mailing_lists_spec (U : dal.User) (db : dal.DB) :
  ∃ rows, read_all_mailing_lists U db = (db, inr rows)
    ∧ NoDup (dal.id <$> rows)
    ∧ ∀ r, r ∈ rows ↔ dal.mailing_lists db !! dal.id r = Some (dal.cols r)
                      ∧ dal.ml_user_id (dal.cols r) = dal.id U.
Proof.
  eexists. split; [reflexivity|].
  apply (listing_spec (λ c, dal.ml_user_id c = dal.id U)).
Qed.

Lemma read_all_templates_spec (U : dal.User) (db : dal.DB) :
  ∃ rows, read_all_templates U db = (db, inr rows)
    ∧ NoDup (dal.id <$> rows)
    ∧ ∀ r, r ∈ rows ↔ dal.templates db !! dal.id r = Some (dal.cols r)
                      ∧ dal.tpl_user_id (dal.cols r) = dal.id U.
Proof.
  eexists. split; [reflexivity|].
  apply (listing_spec (λ c, dal.tpl_user_id c = dal.id U)).
Qed.

Lemma read_all_subscribers_spec (i : Z) (l : dal.MailingListCols) (U : dal.User)
    (db : dal.DB) :
  dal.mailing_lists db !! i = Some l → dal.ml_user_id l = dal.id U →
  ∃ rows, read_all_subscribers i U db = (db, inr rows)
    ∧ NoDup (dal.id <$> rows)
    ∧ ∀ r, r ∈ rows ↔ dal.subscribers db !! dal.id r = Some (dal.cols r)
                      ∧ dal.sub_mailing_list_id (dal.cols r) = i.
Proof.
  intros Hl Hown. rewrite read_all_subscribers_run, Hl, bool_decide_true by done.
  eexists. split; [reflexivity|].
  apply (listing_spec (λ c, dal.sub_mailing_list_id c = i)).
Qed.

(** X19. A mailing list from creation to deletion.  For an authenticated
    caller [create_new_mailing_list] always succeeds: the list is stored
    under a new id with the caller as its owner, nothing else changes, and
    the caller reads it back.  For a list of the caller's own: it is read
    back and appears in the caller's listing, which holds lists of the
    caller only; an update with a new name answers with the renamed list,
    yet the list read right afterwards still has the old name; the deletion
    removes the list, after which reading it and deleting it again are
    answered 404. *)
Theorem X19_mailing_list_lifecycle (db : dal.DB) (U : dal.User) :
  (∀ now authorization body,
     current_user_of now authorization db = (db, inr U) →
     ∃ db1 l,
       (current_user ← current_user_of now authorization;
        create_new_mailing_list body current_user) db = (db1, inr l)
       ∧ dal.cols l = dal.mkMailingList (name body) (dal.id U)
       ∧ dal.mailing_lists db !! dal.id l = None
       ∧ db1 = dal.mkDB (dal.users db) (<[dal.id l := dal.cols l]> (dal.mailing_lists db))
                 (dal.subscribers db) (dal.templates db) (dal.mailings db)
       ∧ read_mailing_list (dal.id l) U db1 = (db1, inr l))
  ∧ (∀ i l, dal.mailing_lists db !! i = Some l → dal.ml_user_id l = dal.id U →
       read_mailing_list i U db = (db, inr (dal.mkRow i l))
       ∧ (∃ rows, read_all_mailing_lists U db = (db, inr rows)
            ∧ dal.mkRow i l ∈ rows
            ∧ ∀ r, r ∈ rows → dal.ml_user_id (dal.cols r) = dal.id U)
       ∧ (∀ body, name body ≠ "" →
            (updated ← update_mailing_list i body U;
             stored ← read_mailing_list i U;
             mret (updated, stored)) db
            = (db, inr (dal.mkRow i (dal.mkMailingList (name body) (dal.id U)),
                        dal.mkRow i l)))
       ∧ (∃ db2, delete_mailing_list i U db = (db2, inr ())
            ∧ dal.mailing_lists db2 = delete i (dal.mailing_lists db)
            ∧ read_mailing_list i U db2
              = (db2, inl (HTTPException 404 "Mailing list not found"))
            ∧ delete_mailing_list i U db2
              = (db2, inl (HTTPException 404 "Mailing list not found")))).
Proof.
  split.
  - intros now authorization body Hauth. unfold mbind, dal.M_bind. rewrite Hauth.
    apply current_user_of_stored in Hauth as [_ HU].
    unfold create_new_mailing_list. rewrite create_mailing_list_eq.
    cbn [dal.insert dal.ml_user_id].
    assert (dal.missing (dal.users db) (dal.id U) = false) as ->
      by (apply not_missing; eauto).
    rewrite andb_false_r. eexists _, _. split; [reflexivity|]. cbn [dal.id dal.cols].
    split_and!; [done|apply next_id_fresh|done|].
    rewrite read_mailing_list_run. cbn [dal.mailing_lists dal.ml_user_id].
    by rewrite lookup_insert_eq, bool_decide_true.
  - intros i l Hl Hown. split_and!.
    + by rewrite read_mailing_list_run, Hl, bool_decide_true.
    + destruct (read_all_mailing_lists_spec U db) as (rows & Hrows & _ & Hin).
      exists rows. split; [done|]. split.
      * by apply Hin.
      * by intros r [_ ?]%Hin.
    + intros body Hname%String.eqb_neq. unfold mbind at 1, dal.M_bind.
      rewrite update_mailing_list_run, Hl, bool_decide_true, Hname by done.
      cbn [andb negb]. unfold mbind, dal.M_bind.
      rewrite read_mailing_list_run, Hl, bool_decide_true by done.
      by rewrite Hown.
    + rewrite delete_mailing_list_run, Hl, bool_decide_true by done.
      eexists. split; [reflexivity|].
      assert (dal.mailing_lists (dal.flush_deleted (dal.cascade_mailing_list db i) db)
              = delete i (dal.mailing_lists db)) as Hgone.
      { apply map_eq. intros k. rewrite mailing_lists_flush_deleted, lookup_delete.
        destruct (decide (i = k)) as [->|Hne].
        - rewrite bool_decide_true; [done|]. apply elem_of_cascade_mailing_list. by left.
        - rewrite bool_decide_false; [done|]. rewrite elem_of_cascade_mailing_list.
          intros [[_ ?]|[[? _]|[? _]]]; done. }
      split; [done|].
      rewrite read_mailing_list_run, delete_mailing_list_run, Hgone, lookup_delete_eq.
      done.
Qed.

(** X20. A template from creation to deletion.  For an authenticated
    caller [create_new_template] always succeeds and the caller reads the
    new template back.  For a template of the caller's own: it is read back
    and listed; an update answers with the new name and content, an empty
    one standing for no change, yet the template read right afterwards is
    the old one; the deletion removes it, after which reading it and
    deleting it again are answered 404. *)
Theorem X20_template_lifecycle (db : dal.DB) (U : dal.User) :
  (∀ now authorization body,
     current_user_of now authorization db = (db, inr U) →
     ∃ db1 t,
       (current_user ← current_user_of now authorization;
        create_new_template body current_user) db = (db1, inr t)
       ∧ dal.cols t = dal.mkTemplate (tc_name body) (tc_content body) (dal.id U)
       ∧ dal.templates db !! dal.id t = None
       ∧ db1 = dal.mkDB (dal.users db) (dal.mailing_lists db) (dal.subscribers db)
                 (<[dal.id t := dal.cols t]> (dal.templates db)) (dal.mailings db)
       ∧ read_template (dal.id t) U db1 = (db1, inr t))
  ∧ (∀ i t, dal.templates db !! i = Some t → dal.tpl_user_id t = dal.id U →
       read_template i U db = (db, inr (dal.mkRow i t))
       ∧ (∃ rows, read_all_templates U db = (db, inr rows)
            ∧ dal.mkRow i t ∈ rows
            ∧ ∀ r, r ∈ rows → dal.tpl_user_id (dal.cols r) = dal.id U)
       ∧ (∀ body,
            (updated ← update_template i body U;
             stored ← read_template i U;
             mret (updated, stored)) db
            = (db, inr (dal.mkRow i
                          (dal.mkTemplate
                             (if String.eqb (tc_name body) "" then dal.tpl_name t
                              else tc_name body)
                             (if String.eqb (tc_content body) "" then dal.tpl_content t
                              else tc_content body)
                             (dal.id U)),
                        dal.mkRow i t)))
       ∧ (∃ db2, delete_template i U db = (db2, inr ())
            ∧ dal.templates db2 = delete i (dal.templates db)
            ∧ read_template i U db2 = (db2, inl (HTTPException 404 "Template not found"))
            ∧ delete_template i U db2
              = (db2, inl (HTTPException 404 "Template not found")))).
Proof.
  split.
  - intros now authorization body Hauth. unfold mbind, dal.M_bind. rewrite Hauth.
    apply current_user_of_stored in Hauth as [_ HU].
    unfold create_new_template. rewrite create_template_eq.
    cbn [dal.insert dal.tpl_user_id].
    assert (dal.missing (dal.users db) (dal.id U) = false) as ->
      by (apply not_missing; eauto).
    rewrite andb_false_r. eexists _, _. split; [reflexivity|]. cbn [dal.id dal.cols].
    split_and!; [done|apply next_id_fresh|done|].
    rewrite read_template_run. cbn [dal.templates dal.tpl_user_id].
    by rewrite lookup_insert_eq, bool_decide_true.
  - intros i t Ht Hown. split_and!.
    + by rewrite read_template_run, Ht, bool_decide_true.
    + destruct (read_all_templates_spec U db) as (rows & Hrows & _ & Hin).
      exists rows. split; [done|]. split.
      * by apply Hin.
      * by intros r [_ ?]%Hin.
    + intros body. unfold mbind at 1, dal.M_bind.
      rewrite update_template_run, Ht, bool_decide_true by done.
      unfold mbind, dal.M_bind.
      rewrite read_template_run, Ht, bool_decide_true by done.
      by rewrite Hown.
    + rewrite delete_template_run, Ht, bool_decide_true by done.
      eexists. split; [reflexivity|].
      assert (dal.templates (dal.flush_deleted (dal.cascade_template db i) db)
              = delete i (dal.templates db)) as Hgone.
      { apply map_eq. intros k. rewrite templates_flush_deleted, lookup_delete.
        destruct (decide (i = k)) as [->|Hne].
        - rewrite bool_decide_true; [done|]. apply elem_of_cascade_template. by left.
        - rewrite bool_decide_false; [done|]. rewrite elem_of_cascade_template.
          intros [[_ ?]|[? _]]; done. }
      split; [done|].
      rewrite read_template_run, delete_template_run, Hgone, lookup_delete_eq.
      done.
Qed.

(** X21. Subscribers, for the owner of the list.  Enrolling an address
    that no subscriber has yet succeeds, whether or not the database
    enforces foreign keys: the subscriber is stored under a new id and is in
    the listing of the list from then on, next to those that were there.
    Enrolling an address that some subscriber already has, in this list or
    in a list of somebody else, fails on the unique constraint and stores
    nothing.  Deleting a subscriber of the list removes that row only: the
    listing loses exactly that subscriber, and deleting it again is answered
    404. *)
Theorem X21_subscriber_lifecycle (db : dal.DB) (U : dal.User) (i : Z)
    (l : dal.MailingListCols) :
  dal.mailing_lists db !! i = Some l → dal.ml_user_id l = dal.id U →
  (∀ e, (∀ k s, dal.subscribers db !! k = Some s → dal.sub_email s ≠ e) →
     ∃ db1 s rows,
       create_new_subscriber (mkSubscriberCreate e i) U db = (db1, inr s)
       ∧ dal.cols s = dal.mkSubscriber e i
       ∧ dal.subscribers db !! dal.id s = None
       ∧ db1 = dal.mkDB (dal.users db) (dal.mailing_lists db)
                 (<[dal.id s := dal.cols s]> (dal.subscribers db))
                 (dal.templates db) (dal.mailings db)
       ∧ read_all_subscribers i U db1 = (db1, inr rows)
       ∧ ∀ r, r ∈ rows ↔ r = s ∨ (dal.subscribers db !! dal.id r = Some (dal.cols r)
                                    ∧ dal.sub_mailing_list_id (dal.cols r) = i))
  ∧ (∀ e k s, dal.subscribers db !! k = Some s → dal.sub_email s = e →
       create_new_subscriber (mkSubscriberCreate e i) U db
       = (db, inl (IntegrityError "subscribers.email"))
       ∧ status 201 (create_new_subscriber (mkSubscriberCreate e i) U db).2 = 500)
  ∧ (∀ k s, dal.subscribers db !! k = Some s → dal.sub_mailing_list_id s = i →
       ∃ db2 rows,
         delete_subscriber k U db = (db2, inr ())
         ∧ db2 = dal.mkDB (dal.users db) (dal.mailing_lists db)
                   (delete k (dal.subscribers db)) (dal.templates db) (dal.mailings db)
         ∧ read_all_subscribers i U db2 = (db2, inr rows)
         ∧ (∀ r, r ∈ rows ↔ dal.subscribers db !! dal.id r = Some (dal.cols r)
                            ∧ dal.sub_mailing_list_id (dal.cols r) = i
                            ∧ dal.id r ≠ k)
         ∧ delete_subscriber k U db2
           = (db2, inl (HTTPException 404 "Subscriber not found"))).
Proof.
  intros Hl Hown. split_and!.
  - intros e Hfree. rewrite create_new_subscriber_run.
    cbn [sc_mailing_list_id sc_email]. rewrite Hl, bool_decide_true by done.
    rewrite taken_false by done.
    set (k := dal.next_id (dal.subscribers db)).
    set (db1 := dal.mkDB _ _ _ _ _).
    destruct (read_all_subscribers_spec i l U db1 Hl Hown) as (rows & Hrows & _ & Hin).
    exists db1, (dal.mkRow k (dal.mkSubscriber e i)), rows. cbn [dal.id dal.cols].
    split_and!; [done|done|apply next_id_fresh|done|done|].
    intros [j c]. rewrite Hin. unfold db1. cbn [dal.subscribers dal.id dal.cols].
    rewrite lookup_insert_Some. split.
    + intros [[[<- <-]|[_ Hj]] Hlist]; [by left|by right].
    + intros [[= -> ->]|[Hj Hlist]]; [by split; [left|]|].
      split; [|done]. right. split; [|done]. intros <-.
      unfold k in Hj. by rewrite next_id_fresh in Hj.
  - intros e k s Hk He.
    assert (create_new_subscriber (mkSubscriberCreate e i) U db
            = (db, inl (IntegrityError "subscribers.email"))) as Hdup; [|by rewrite Hdup].
    rewrite create_new_subscriber_run. cbn [sc_mailing_list_id sc_email].
    rewrite Hl, bool_decide_true by done.
    rewrite (proj2 (taken_spec _ _)); [done|eauto].
  - intros k s Hk Hlist. rewrite delete_subscriber_run, Hk, Hlist, Hl, bool_decide_true
      by done.
    set (db2 := dal.mkDB _ _ _ _ _).
    destruct (read_all_subscribers_spec i l U db2 Hl Hown) as (rows & Hrows & _ & Hin).
    exists db2, rows. split_and!; [done..| |].
    + intros r. rewrite Hin. unfold db2. cbn [dal.subscribers].
      rewrite lookup_delete_Some. naive_solver.
    + rewrite delete_subscriber_run. unfold db2. cbn [dal.subscribers].
      by rewrite lookup_delete_eq.
Qed.

End lifecycle.

Lemma X19_mailing_list_lifecycle_witness :
  (updated ← api.update_mailing_list (env := sample.env) 1
               (api.mkMailingListCreate "renamed") sample.alice_user;
   stored ← api.read_mailing_list 1 sample.alice_user;
   mret (updated, stored)) sample.db
  = (sample.db, inr (dal.mkRow 1 (dal.mkMailingList "renamed" 1),
                     dal.mkRow 1 (dal.mkMailingList "news" 1))).
Proof.
  pose proof (X19_mailing_list_lifecycle (env := sample.env) sample.db sample.alice_user)
    as [_ Hown].
  destruct (Hown 1 (dal.mkMailingList "news" 1)) as (_ & _ & Hupdate & _);
    [reflexivity..|].
  apply (Hupdate (api.mkMailingListCreate "renamed")). discriminate.
Defined.

Lemma X20_template_lifecycle_witness :
  ∃ db1 t,
    (current_user ←
       api.current_user_of (env := sample.env) 2000
         (Some (api.create_access_token (env := sample.env) 1000 {["user_id" := 2]}
                  api.default_expires_delta));
     api.create_new_template (env := sample.env) (api.mkTemplateCreate "hello" "Hi there")
       current_user) sample.db
    = (db1, inr t)
    ∧ api.read_template (dal.id t) sample.bob_user db1 = (db1, inr t).
Proof.
  pose proof (X20_template_lifecycle (env := sample.env) sample.db sample.bob_user)
    as [Hcreate _].
  destruct (Hcreate 2000
              (Some (api.create_access_token (env := sample.env) 1000 {["user_id" := 2]}
                       api.default_expires_delta))
              (api.mkTemplateCreate "hello" "Hi there"))
    as (db1 & t & Hnew & _ & _ & _ & Hread).
  - vm_compute. reflexivity.
  - by exists db1, t.
Defined.

Lemma X21_subscriber_lifecycle_witness :
  api.create_new_subscriber (env := sample.env)
    (api.mkSubscriberCreate "carol@example.org" 2) sample.bob_user sample.db
  = (sample.db, inl (IntegrityError "subscribers.email")).
Proof.
  destruct (X21_subscriber_lifecycle (env := sample.env) sample.db sample.bob_user 2
              (dal.mkMailingList "offers" 2)) as (_ & Htaken & _); [reflexivity..|].
  destruct (Htaken "carol@example.org" 1 (dal.mkSubscriber "carol@example.org" 1))
    as [Hrefused _]; [reflexivity..|].
  exact Hrefused.
Defined.

(** ** Managing users *)

Section managing_users.
Context {env : Environment}.
Import api.

Lemma api_update_user_run (salt : string) (i : Z) (body : UserCreate) (A : dal.User)
    (db : dal.DB) :
  update_user salt i body A db =
    match validate_secret (password body) with
    | Some e => (db, inl e)
    | None =>
        match dal.users db !! i with
        | Some c =>
            (db, inr (dal.mkRow i
                        (dal.mkUser
                           (if String.eqb (username body) "" then dal.username c
                            else username body)
                           (to_string salt (bcrypt salt (password body)))
                           (if String.eqb (email body) "" then dal.email c else email body)
                           (dal.is_active c) (is_admin body))))
        | None => (db, inl (HTTPException 404 "User not found"))
        end
    end.
Proof.
  unfold update_user, get_hashed_password, pwd_context_hash.
  destruct (validate_secret (password body)); [done|].
  unfold mbind, dal.M_bind. rewrite update_user_eq.
  destruct (dal.users db !! i) as [[un hp em act adm]|]; [|done].
  cbn [fmap option_fmap option_map dal.assign_if_not_None dal.assign_if_truthy dal.truthy].
  assert (String.eqb (to_string salt (bcrypt salt (password body))) "" = false) as ->.
  { apply String.eqb_neq. unfold to_string, bcrypt_ident. by rewrite append_cons. }
  destruct (String.eqb (username body) ""), (String.eqb (email body) ""); done.
Qed.

Lemma api_delete_user_run (i : Z) (A : dal.User) (db : dal.DB) :
  delete_user i A db =
    match dal.users db !! i with
    | Some _ => (dal.flush_deleted (dal.cascade_user db i) db, inr ())
    | None => (db, inl (HTTPException 404 "User not found"))
    end.
Proof.
  unfold delete_user, mbind, dal.M_bind. rewrite delete_user_eq.
  by destruct (dal.users db !! i).
Qed.


End managing_users.


(** ** The service as a whole *)

Section service.
Context {env : Environment}.
Import api.

Lemma current_admin_of_state (now : Z) (authorization : option token) (db : dal.DB) :
  (current_admin_of now authorization db).1 = db.
Proof.
  rewrite current_admin_of_eq. pose proof (current_user_of_state now authorization db).
  destruct (current_user_of now authorization db) as [db' [e|u]]; [done|].
  by destruct (dal.is_admin (dal.cols u)).
Qed.

Lemma api_delete_user_state (i : Z) (A : dal.User) (db : dal.DB) :
  (delete_user i A db).1 = (dal.delete_user i db).1.
Proof.
  rewrite api_delete_user_run, delete_user_eq. by destruct (dal.users db !! i).
Qed.

Lemma response_state_effect (op : operation) (B : dal.User) (db : dal.DB) :
  response_state op B db = db
  ∨ (∃ i, response_state op B db = (dal.delete_mailing_list i db).1)
  ∨ (∃ i, response_state op B db = (dal.delete_subscriber i db).1)
  ∨ (∃ i, response_state op B db = (dal.delete_template i db).1)
  ∨ (∃ e l, is_Some (dal.mailing_lists db !! l)
            ∧ response_state op B db = (dal.create_subscriber e l db).1).
Proof.
  destruct op as [i|i body|i|body|i|i|i|i body|i]; cbn [response_state].
  - left. rewrite read_mailing_list_run.
    destruct (dal.mailing_lists db !! i) as [l|]; [|done]. by case_bool_decide.
  - left. rewrite update_mailing_list_run.
    destruct (dal.mailing_lists db !! i) as [l|]; [|done]. by destruct (_ && _).
  - rewrite delete_mailing_list_run.
    destruct (dal.mailing_lists db !! i) as [l|] eqn:Hl; [|by left].
    case_bool_decide; [|by left]. right; left. exists i.
    by rewrite delete_mailing_list_eq, Hl.
  - rewrite create_new_subscriber_run.
    destruct (dal.mailing_lists db !! sc_mailing_list_id body) as [l|] eqn:Hl; [|by left].
    case_bool_decide; [|by left]. do 4 right.
    exists (sc_email body), (sc_mailing_list_id body). split; [eauto|].
    rewrite create_subscriber_eq. cbn [dal.insert dal.sub_email dal.sub_mailing_list_id].
    destruct (dal.taken _ _); [done|].
    assert (dal.missing (dal.mailing_lists db) (sc_mailing_list_id body) = false) as ->
      by (apply not_missing; eauto).
    by rewrite andb_false_r.
  - left. rewrite read_all_subscribers_run.
    destruct (dal.mailing_lists db !! i) as [l|]; [|done]. by case_bool_decide.
  - rewrite delete_subscriber_run.
    destruct (dal.subscribers db !! i) as [s|] eqn:Hs; [|by left].
    destruct (dal.mailing_lists db !! dal.sub_mailing_list_id s) as [l|]; [|by left].
    case_bool_decide; [|by left]. right; right; left. exists i.
    by rewrite delete_subscriber_eq, Hs.
  - left. rewrite read_template_run.
    destruct (dal.templates db !! i) as [t|]; [|done]. by case_bool_decide.
  - left. rewrite update_template_run.
    destruct (dal.templates db !! i) as [t|]; [|done]. by case_bool_decide.
  - rewrite delete_template_run.
    destruct (dal.templates db !! i) as [t|] eqn:Ht; [|by left].
    case_bool_decide; [|by left]. do 3 right; left. exists i.
    by rewrite delete_template_eq, Ht.
Qed.

(** What a request does to the database is what at most one call of the
    persistence layer does: the creation of a user with a digest as the
    password, the creation of a mailing list or a template for a user that
    exists, of a subscriber for a list that exists, or one of the four
    deletions. *)
Lemma serve_effect (now : Z) (salt : string) (authorization : option token)
    (r : request) (db : dal.DB) :
  (serve now salt authorization r db).1 = db
  ∨ ∃ c, (serve now salt authorization r db).1 = dal.perform c db
       ∧ match c with
         | dal.call_create_user un hp em adm =>
             ∃ body, get_hashed_password salt (password body) = inr hp
                     ∧ un = username body ∧ em = email body ∧ adm = is_admin body
         | dal.call_delete_user _ | dal.call_delete_mailing_list _
         | dal.call_delete_subscriber _ | dal.call_delete_template _ => True
         | dal.call_create_mailing_list _ u | dal.call_create_template _ _ u =>
             is_Some (dal.users db !! u)
         | dal.call_create_subscriber _ l => is_Some (dal.mailing_lists db !! l)
         | _ => False
         end.
Proof.
  destruct r as [un pw|body|  |i body|  |i|body|  |body|  |op];
    cbn [serve]; unfold respond; cbn [fst].
  - left. apply login_for_access_token_state.
  - unfold create_new_user.
    destruct (get_hashed_password salt (password body)) as [e|digest] eqn:Hhash;
      [by left|].
    right. exists (dal.call_create_user (username body) digest (email body)
                     (is_admin body)).
    split; [done|]. by exists body.
  - left. unfold mbind, dal.M_bind.
    pose proof (current_user_of_state now authorization db).
    by destruct (current_user_of now authorization db) as [db' [e|u]].
  - left. unfold mbind, dal.M_bind.
    pose proof (current_admin_of_state now authorization db).
    destruct (current_admin_of now authorization db) as [db' [e|u]]; [done|].
    cbn [fst] in *. subst db'. rewrite api_update_user_run.
    destruct (validate_secret (password body)); [done|].
    by destruct (dal.users db !! i).
  - left. unfold mbind, dal.M_bind.
    pose proof (current_admin_of_state now authorization db).
    by destruct (current_admin_of now authorization db) as [db' [e|u]].
  - unfold mbind, dal.M_bind.
    pose proof (current_admin_of_state now authorization db).
    destruct (current_admin_of now authorization db) as [db' [e|u]]; [by left|].
    cbn [fst] in *. subst db'. right. exists (dal.call_delete_user i).
    split; [apply api_delete_user_state|done].
  - unfold mbind, dal.M_bind.
    destruct (current_user_of now authorization db) as [db' [e|u]] eqn:Hauth;
      [left; by rewrite <- (current_user_of_state now authorization db), Hauth|].
    apply current_user_of_stored in Hauth as [-> Hu]. right.
    exists (dal.call_create_mailing_list (name body) (dal.id u)). split; [done|eauto].
  - left. unfold mbind, dal.M_bind.
    pose proof (current_user_of_state now authorization db).
    by destruct (current_user_of now authorization db) as [db' [e|u]].
  - unfold mbind, dal.M_bind.
    destruct (current_user_of now authorization db) as [db' [e|u]] eqn:Hauth;
      [left; by rewrite <- (current_user_of_state now authorization db), Hauth|].
    apply current_user_of_stored in Hauth as [-> Hu]. right.
    exists (dal.call_create_template (tc_name body) (tc_content body) (dal.id u)).
    split; [done|eauto].
  - left. unfold mbind, dal.M_bind.
    pose proof (current_user_of_state now authorization db).
    by destruct (current_user_of now authorization db) as [db' [e|u]].
  - destruct (current_user_of now authorization db) as [db' [e|u]] eqn:Hauth;
      [left; by rewrite <- (current_user_of_state now authorization db), Hauth|].
    apply current_user_of_stored in Hauth as [-> Hu]. cbn [fst].
    destruct (response_state_effect op u db)
      as [->|[[i ->]|[[i ->]|[[i ->]|(e & l & Hl & ->)]]]]; [by left|right..].
    + by exists (dal.call_delete_mailing_list i).
    + by exists (dal.call_delete_subscriber i).
    + by exists (dal.call_delete_template i).
    + by exists (dal.call_create_subscriber e l).
Qed.

Lemma serve_interleaved (now : Z) (salt : string) (authorization : option token)
    (r : request) (db : dal.DB) :
  String.length salt = 22%nat →
  interleaved db → interleaved (serve now salt authorization r db).1.
Proof.
  intros Hsalt Hdb.
  destruct (serve_effect now salt authorization r db) as [->|(c & -> & Hc)]; [done|].
  apply interleaved_call; [done|].
  destruct c as [un hp em adm | j un hp em adm | j | nm u | j nm | j | em l | j
                | nm ct u | j nm ct | j | l t at_ u | j at_]; try done.
  - destruct Hc as (body & Hhash & -> & -> & ->). by apply (issued_create_user salt).
  - apply issued_delete_user.
  - apply issued_create_mailing_list.
  - apply issued_delete_mailing_list.
  - apply issued_create_subscriber.
  - apply issued_delete_subscriber.
  - apply issued_create_template.
  - apply issued_delete_template.
Qed.

Lemma serve_references (now : Z) (salt : string) (authorization : option token)
    (r : request) (db : dal.DB) :
  dal.references_ok db → dal.references_ok (serve now salt authorization r db).1.
Proof.
  intros Hok.
  destruct (serve_effect now salt authorization r db) as [->|(c & -> & Hc)]; [done|].
  destruct c as [un hp em adm | j un hp em adm | j | nm u | j nm | j | em l | j
                | nm ct u | j nm ct | j | l t at_ u | j at_]; cbn [dal.perform];
    try done.
  - rewrite create_user_eq, insert_user_eq.
    destruct (dal.taken _ _); [done|]. destruct (dal.taken _ _); [done|].
    destruct Hok as (Hl & Hs & Ht & Hm). cbn [fst]. unfold dal.references_ok.
    cbn [dal.users dal.mailing_lists dal.subscribers dal.templates dal.mailings].
    split_and!; [|done| |].
    + intros k' c' Hk'. apply is_Some_insert. eauto.
    + intros k' c' Hk'. apply is_Some_insert. eauto.
    + intros k' c' Hk'. destruct (Hm k' c' Hk') as (? & ? & ?).
      split_and!; [done..|]. by apply is_Some_insert.
  - by apply delete_user_references.
  - rewrite create_mailing_list_eq. cbn [dal.insert dal.ml_user_id].
    destruct (foreign_keys && _); [done|].
    destruct Hok as (Hl & Hs & Ht & Hm). cbn [fst]. unfold dal.references_ok.
    cbn [dal.users dal.mailing_lists dal.subscribers dal.templates dal.mailings].
    split_and!; [| |done|].
    + intros k' c' [[<- <-]|[? Hk']]%lookup_insert_Some; eauto.
    + intros k' c' Hk'. apply is_Some_insert. eauto.
    + intros k' c' Hk'. destruct (Hm k' c' Hk') as (? & ? & ?).
      split_and!; [|done..]. by apply is_Some_insert.
  - by apply delete_mailing_list_references.
  - rewrite create_subscriber_eq. cbn [dal.insert dal.sub_email dal.sub_mailing_list_id].
    destruct (dal.taken _ _); [done|]. destruct (foreign_keys && _); [done|].
    destruct Hok as (Hl & Hs & Ht & Hm). cbn [fst]. unfold dal.references_ok.
    cbn [dal.users dal.mailing_lists dal.subscribers dal.templates dal.mailings].
    split_and!; [done| |done|done].
    intros k' c' [[<- <-]|[? Hk']]%lookup_insert_Some; eauto.
  - by apply delete_subscriber_references.
  - rewrite create_template_eq. cbn [dal.insert dal.tpl_user_id].
    destruct (foreign_keys && _); [done|].
    destruct Hok as (Hl & Hs & Ht & Hm). cbn [fst]. unfold dal.references_ok.
    cbn [dal.users dal.mailing_lists dal.subscribers dal.templates dal.mailings].
    split_and!; [done|done| |].
    + intros k' c' [[<- <-]|[? Hk']]%lookup_insert_Some; eauto.
    + intros k' c' Hk'. destruct (Hm k' c' Hk') as (? & ? & ?).
      split_and!; [done| |done]. by apply is_Some_insert.
  - by apply delete_template_references.
Qed.

Lemma issued_mailings (c : dal.call) (db : dal.DB) :
  issued c → dal.mailings db = ∅ → dal.mailings (dal.perform c db) = ∅.
Proof.
  intros Hc Hnone.
  destruct Hc as [salt body digest _ _ | i salt body digest _ _ | i | nm u | i nm | i
                 | e l | i | nm ct u | i nm ct | i]; cbn [dal.perform].
  - rewrite create_user_eq, insert_user_eq.
    destruct (dal.taken _ _); [done|]. by destruct (dal.taken _ _).
  - by rewrite update_user_eq.
  - rewrite delete_user_eq. destruct (dal.users db !! i); [|done]. cbn [fst].
    apply map_eq. intros k. rewrite mailings_flush_deleted, Hnone.
    by case_bool_decide.
  - rewrite create_mailing_list_eq. cbn [dal.insert]. by destruct (foreign_keys && _).
  - by rewrite update_mailing_list_eq.
  - rewrite delete_mailing_list_eq. destruct (dal.mailing_lists db !! i); [|done].
    cbn [fst]. apply map_eq. intros k. rewrite mailings_flush_deleted, Hnone.
    by case_bool_decide.
  - rewrite create_subscriber_eq. cbn [dal.insert].
    destruct (dal.taken _ _); [done|]. by destruct (foreign_keys && _).
  - rewrite delete_subscriber_eq. destruct (dal.subscribers db !! i); [|done].
    cbn [fst]. apply map_eq. intros k. rewrite mailings_flush_deleted, Hnone.
    by case_bool_decide.
  - rewrite create_template_eq. cbn [dal.insert]. by destruct (foreign_keys && _).
  - by rewrite update_template_eq.
  - rewrite delete_template_eq. destruct (dal.templates db !! i); [|done].
    cbn [fst]. apply map_eq. intros k. rewrite mailings_flush_deleted, Hnone.
    by case_bool_decide.
Qed.

Lemma issued_users (call : dal.call) (db : dal.DB) (k : Z) (c : dal.UserCols) :
  issued call →
  dal.users (dal.perform call db) !! k = Some c →
  dal.users db !! k = Some c
  ∨ dal.is_active c = true
    ∧ ∃ salt pw, String.length salt = 22%nat
                 ∧ get_hashed_password salt pw = inr (dal.hashed_password c).
Proof.
  intros Hcall.
  destruct Hcall as [salt body digest Hsalt Hhash | i salt body digest _ _ | i | nm u
                    | i nm | i | e l | i | nm ct u | i nm ct | i]; cbn [dal.perform].
  - rewrite create_user_eq, insert_user_eq.
    destruct (dal.taken _ _); [by left|]. destruct (dal.taken _ _); [by left|].
    cbn [fst dal.users]. intros [[_ <-]|[_ Hk]]%lookup_insert_Some; [right|by left].
    split; [done|]. by exists salt, (password body).
  - rewrite update_user_eq. by left.
  - rewrite delete_user_eq. destruct (dal.users db !! i); [|by left]. cbn [fst].
    intros [Hk _]%users_kept. by left.
  - rewrite create_mailing_list_eq. cbn [dal.insert].
    destruct (foreign_keys && _); by left.
  - rewrite update_mailing_list_eq. by left.
  - rewrite delete_mailing_list_eq. destruct (dal.mailing_lists db !! i); [|by left].
    cbn [fst]. intros [Hk _]%users_kept. by left.
  - rewrite create_subscriber_eq. cbn [dal.insert].
    destruct (dal.taken _ _); [by left|]. destruct (foreign_keys && _); by left.
  - rewrite delete_subscriber_eq. destruct (dal.subscribers db !! i); [|by left].
    cbn [fst]. intros [Hk _]%users_kept. by left.
  - rewrite create_template_eq. cbn [dal.insert].
    destruct (foreign_keys && _); by left.
  - rewrite update_template_eq. by left.
  - rewrite delete_template_eq. destruct (dal.templates db !! i); [|by left].
    cbn [fst]. intros [Hk _]%users_kept. by left.
Qed.

Lemma interleaved_reachable (db : dal.DB) : interleaved db → dal.reachable db.
Proof.
  induction 1 as [|db c _ IH _]; [apply dal.reachable_empty|].
  by apply dal.reachable_perform.
Qed.

Lemma served_interleaved (db : dal.DB) : served db → interleaved db.
Proof.
  induction 1 as [|db now salt authorization r _ IH Hsalt]; [apply interleaved_empty|].
  by apply serve_interleaved.
Qed.

Lemma interleaved_digests (db : dal.DB) :
  interleaved db →
  ∀ k c, dal.users db !! k = Some c →
    dal.is_active c = true
    ∧ ∃ salt pw, String.length salt = 22%nat
                 ∧ get_hashed_password salt pw = inr (dal.hashed_password c).
Proof.
  induction 1 as [|db call _ IH Hcall].
  - intros k c Hk. cbn [dal.empty_db dal.users] in Hk. by rewrite lookup_empty in Hk.
  - intros k c [Hk|Hnew]%issued_users; [by apply (IH k)|done..].
Qed.

(** X23. What holds of the service at all times.  Whatever requests come,
    with whatever credentials, and however their handlers interleave: no
    mailing is ever stored, since no route creates one, and
    [get_all_mailings] is empty; every user is active and every stored
    password is a digest that [get_hashed_password] made, never a
    plaintext; usernames, user emails and subscriber emails are unique; and
    when the database enforces its foreign keys, every foreign key points
    at a row that exists.  When it does not enforce them, that still holds
    of a service that runs each handler to its end before the next one
    starts, because a handler creates a row only for a parent it has just
    read.  It does not hold when handlers interleave: after
    [create_new_subscriber] has read its mailing list, another request can
    delete the list before the subscriber is inserted, and the subscriber
    is stored pointing at no list. *)
Theorem X23_service_invariants :
  (∀ db, interleaved db →
     dal.mailings db = ∅
     ∧ dal.get_all_mailings db = (db, inr [])
     ∧ (∀ k c, dal.users db !! k = Some c →
          dal.is_active c = true
          ∧ ∃ salt pw, String.length salt = 22%nat
                       ∧ get_hashed_password salt pw = inr (dal.hashed_password c))
     ∧ unique_users db
     ∧ dal.unique_subscriber_emails db
     ∧ (foreign_keys = true → dal.references_ok db))
  ∧ (∀ db, served db → interleaved db ∧ dal.references_ok db)
  ∧ (foreign_keys = false →
     ∀ db l c e (U : dal.User),
       dal.mailing_lists db !! l = Some c → dal.ml_user_id c = dal.id U →
       (∀ k s, dal.subscribers db !! k = Some s → dal.sub_email s ≠ e) →
       dal.get_mailing_list_by_id l db = (db, inr (Some (dal.mkRow l c)))
       ∧ ∃ db2 db3 s,
           delete_mailing_list l U db = (db2, inr ())
           ∧ dal.create_subscriber e l db2 = (db3, inr s)
           ∧ dal.subscribers db3 !! dal.id s = Some (dal.mkSubscriber e l)
           ∧ dal.mailing_lists db3 !! l = None
           ∧ ¬ dal.references_ok db3).
Proof.
  split_and!.
  - intros db Hdb.
    assert (dal.mailings db = ∅) as Hnone.
    { induction Hdb as [|db c _ IH Hc]; [done|]. by apply issued_mailings. }
    pose proof (interleaved_reachable db Hdb) as Hreach.
    split_and!.
    + done.
    + unfold dal.get_all_mailings, dal.query. rewrite Hnone.
      by rewrite (proj2 (instances_nil _)).
    + by apply interleaved_digests.
    + by apply reachable_unique_users.
    + by apply reachable_unique_subscriber_emails.
    + intros Hfk. by apply reachable_references_ok.
  - intros db Hdb. split; [by apply served_interleaved|].
    induction Hdb as [|db now salt authorization r _ IH Hsalt].
    + unfold dal.references_ok. cbn [dal.empty_db dal.users dal.mailing_lists
        dal.subscribers dal.templates dal.mailings].
      split_and!; intros k c Hk; by rewrite lookup_empty in Hk.
    + by apply serve_references.
  - intros Hfk db l c e U Hl Hown Hfree. split.
    { unfold dal.get_mailing_list_by_id, dal.query, dal.get. by rewrite Hl. }
    rewrite delete_mailing_list_run, Hl, bool_decide_true by done.
    set (db2 := dal.flush_deleted (dal.cascade_mailing_list db l) db).
    assert (dal.mailing_lists db2 !! l = None) as Hgone.
    { unfold db2. rewrite mailing_lists_flush_deleted, bool_decide_true; [done|].
      apply elem_of_cascade_mailing_list. by left. }
    assert (dal.taken (λ r, dal.sub_email r = e) (dal.subscribers db2) = false) as Hfree2.
    { apply taken_false. intros k s [Hk _]%subscribers_kept. by apply (Hfree k s). }
    assert (dal.create_subscriber e l db2
            = (dal.mkDB (dal.users db2) (dal.mailing_lists db2)
                 (<[dal.next_id (dal.subscribers db2) := dal.mkSubscriber e l]>
                    (dal.subscribers db2))
                 (dal.templates db2) (dal.mailings db2),
               inr (dal.mkRow (dal.next_id (dal.subscribers db2))
                      (dal.mkSubscriber e l)))) as Hcreate.
    { rewrite create_subscriber_eq.
      cbn [dal.insert dal.sub_email dal.sub_mailing_list_id]. by rewrite Hfree2, Hfk. }
    eexists db2, _, _. split_and!; [done|exact Hcreate|..].
    + cbn [dal.id dal.cols dal.subscribers]. apply lookup_insert_eq.
    + done.
    + intros (_ & Hs & _).
      destruct (Hs (dal.next_id (dal.subscribers db2)) (dal.mkSubscriber e l)) as [c' Hc'].
      { cbn [dal.subscribers]. apply lookup_insert_eq. }
      cbn [dal.mailing_lists dal.sub_mailing_list_id] in Hc'. congruence.
Qed.

End service.

Section service_status.
Context {env : Environment}.
Import api.







End service_status.

Lemma X23_service_invariants_witness :
  dal.references_ok
    (api.serve (env := sample.env) 0 "AAAAAAAAAAAAAAAAAAAAAA" None
       (api.PostUsers (api.mkUserCreate "alice" "wonderland" "alice@example.org" true))
       dal.empty_db).1
  ∧ unique_users
      (api.serve (env := sample.env) 0 "AAAAAAAAAAAAAAAAAAAAAA" None
         (api.PostUsers (api.mkUserCreate "alice" "wonderland" "alice@example.org" true))
         dal.empty_db).1.
Proof.
  pose proof (X23_service_invariants (env := sample.env)) as (Hany & Hserved & _).
  assert (api.served (env := sample.env)
            (api.serve (env := sample.env) 0 "AAAAAAAAAAAAAAAAAAAAAA" None
               (api.PostUsers
                  (api.mkUserCreate "alice" "wonderland" "alice@example.org" true))
               dal.empty_db).1) as Hstate.
  { apply api.served_request; [apply api.served_empty | reflexivity]. }
  destruct (Hserved _ Hstate) as [Hinter Hrefs].
  destruct (Hany _ Hinter) as (_ & _ & _ & Huniq & _).
  split; [exact Hrefs | exact Huniq].
Defined.


(** * Further properties of the session manager *)

Section session_manager.
Variables Engine AsyncEngine : Type.
Variable DATABASE_URL : option string.
Variable create_engine : string → manager.error + Engine.
Variable create_async_engine : string → manager.error + AsyncEngine.
Variable create_all : Engine → option manager.error.
Import manager.

Local Abbreviation state := (manager.state Engine AsyncEngine).
Local Abbreviation new :=
  (manager.new Engine AsyncEngine DATABASE_URL create_engine create_async_engine create_all).
Local Abbreviation get_sync_session := (manager.get_sync_session Engine AsyncEngine).
Local Abbreviation get_async_session := (manager.get_async_session Engine AsyncEngine).
Local Abbreviation close := (manager.close Engine AsyncEngine).

Lemma new_again (st : state) (self : nat) (db_url : option string) :
  _instance _ _ st = Some self → new db_url st = (st, inr self).
Proof. intros Hself. unfold manager.new. by rewrite Hself. Qed.

Lemma lookup_new_object (os : list (object Engine AsyncEngine)) (o : object Engine AsyncEngine) :
  (os ++ [o])%list !! length os = Some o.
Proof. by rewrite lookup_app_r, Nat.sub_diag by lia. Qed.

(** X25. The manager is a singleton, and [close] does not end it.  Once a
    construction has returned an instance, every later construction returns
    that same instance and changes nothing, whatever URL it is given: the
    argument is ignored.  After the first construction [close] returns
    normally, but it assigns [None] to an attribute of the instance and
    leaves the class attribute alone: the next construction still returns
    the same instance, with the same engine, and a second [close] raises
    [AttributeError]. *)
Theorem X25_session_manager_is_a_singleton
    (st st' : state) (db_url : option string) (self : nat) :
  new db_url st = (st', inr self) →
  (∀ db_url', new db_url' st' = (st', inr self))
  ∧ (_instance _ _ st = None →
     ∃ engine bind st'',
       get_async_session self st' = (st', inr engine)
       ∧ get_sync_session self st' = (st', inr bind)
       ∧ close self st' = (st'', inr ())
       ∧ (∀ db_url', new db_url' st'' = (st'', inr self))
       ∧ get_async_session self st'' = (st'', inr engine)
       ∧ get_sync_session self st'' = (st'', inr bind)
       ∧ close self st''
         = (st'', inl (AttributeError "'NoneType' object has no attribute 'async_engine'"))).
Proof.
  unfold manager.new. destruct (_instance _ _ st) as [self0|] eqn:Hinstance.
  - intros [= <- <-]. split; [|done]. intros db_url'. by apply new_again.
  - destruct (match db_url with None => DATABASE_URL | Some _ => db_url end) as [u|];
      [|done].
    destruct (create_engine u) as [e|sync_engine]; [done|].
    destruct (create_async_engine u) as [e|engine]; [done|].
    destruct (create_all sync_engine) as [e|]; [done|].
    intros [= <- <-]. split; [intros db_url'; by apply new_again|]. intros _.
    exists engine, sync_engine. eexists.
    unfold manager.get_async_session, manager.get_sync_session, manager.close,
      manager.setattr.
    cbn [objects _instance].
    rewrite !list_lookup_alter_eq, lookup_new_object. cbn.
    rewrite !list_lookup_alter_eq, lookup_new_object. cbn.
    split_and!; try done;
      cbn [objects _instance]; rewrite !list_lookup_alter_eq, lookup_new_object; cbn;
      by rewrite ?list_lookup_alter_eq, ?lookup_new_object.
Qed.

(** X26. A construction that fails leaves a broken singleton behind.  The
    class attribute is assigned before the URL is looked at, so when the
    first construction raises, for want of a URL or in an engine factory,
    the half-built instance stays in place: every later construction
    returns it without raising, even with a good URL, and asking it for a
    session or closing it raises [AttributeError]. *)
Theorem X26_failed_construction_is_kept
    (st st' : state) (db_url : option string) (e : error) :
  (∀ engine, create_all engine = None) →
  new db_url st = (st', inl e) →
  ∃ self,
    (∀ db_url', new db_url' st' = (st', inr self))
    ∧ get_sync_session self st'
      = (st', inl (AttributeError
                     "'DatabaseSessionManager' object has no attribute 'SessionLocal'"))
    ∧ get_async_session self st'
      = (st', inl (AttributeError
                     "'DatabaseSessionManager' object has no attribute 'async_engine'"))
    ∧ close self st'
      = (st', inl (AttributeError
                     "'DatabaseSessionManager' object has no attribute 'async_engine'"))
    ∧ (db_url = None → DATABASE_URL = None →
       e = ValueError
             "Database URL is not set. Please provide DATABASE_URL environment variable.").
Proof.
  intros Hcreate. unfold manager.new.
  destruct (_instance _ _ st) as [self0|] eqn:Hinstance; [done|].
  assert (∀ st0 : state,
    st0 = manager.mkState _ _ (Some (length (objects _ _ st)))
            (objects _ _ st ++ [manager.mkObject _ _ None None None]) →
    (∀ db_url', new db_url' st0 = (st0, inr (length (objects _ _ st))))
    ∧ get_sync_session (length (objects _ _ st)) st0
      = (st0, inl (AttributeError
                     "'DatabaseSessionManager' object has no attribute 'SessionLocal'"))
    ∧ get_async_session (length (objects _ _ st)) st0
      = (st0, inl (AttributeError
                     "'DatabaseSessionManager' object has no attribute 'async_engine'"))
    ∧ close (length (objects _ _ st)) st0
      = (st0, inl (AttributeError
                     "'DatabaseSessionManager' object has no attribute 'async_engine'")))
    as Hbroken.
  { intros st0 ->. split; [intros db_url'; by apply new_again|].
    unfold manager.get_async_session, manager.get_sync_session, manager.close.
    cbn [objects _instance]. rewrite lookup_new_object. cbn.
    by rewrite lookup_new_object. }
  destruct (match db_url with None => DATABASE_URL | Some _ => db_url end) as [u|] eqn:Hurl.
  - destruct (create_engine u) as [e'|sync_engine].
    + intros [= <- <-]. eexists. destruct (Hbroken _ eq_refl) as (? & ? & ? & ?).
      split_and!; try done. intros -> Henv. congruence.
    + destruct (create_async_engine u) as [e'|engine].
      * intros [= <- <-]. eexists. destruct (Hbroken _ eq_refl) as (? & ? & ? & ?).
        split_and!; try done. intros -> Henv. congruence.
      * by rewrite Hcreate.
  - intros [= <- <-]. eexists. destruct (Hbroken _ eq_refl) as (? & ? & ? & ?).
    split_and!; done.
Qed.

End session_manager.

Lemma X25_session_manager_is_a_singleton_witness :
  manager.new string string (Some "sqlite:///lists.db") inr inr (λ _, None)
    (Some "postgresql://elsewhere")
    (manager.new string string (Some "sqlite:///lists.db") inr inr (λ _, None) None
       (manager.initial string string)).1
  = ((manager.new string string (Some "sqlite:///lists.db") inr inr (λ _, None) None
        (manager.initial string string)).1,
     inr 0%nat).
Proof.
  destruct (X25_session_manager_is_a_singleton string string (Some "sqlite:///lists.db")
              inr inr (λ _, None) (manager.initial string string)
              (manager.new string string (Some "sqlite:///lists.db") inr inr (λ _, None)
                 None (manager.initial string string)).1
              None 0%nat) as [Hsame _].
  - reflexivity.
  - apply Hsame.
Defined.

Lemma X26_failed_construction_is_kept_witness :
  ∃ self,
    manager.new string string None inr inr (λ _, None) (Some "sqlite:///lists.db")
      (manager.new string string None inr inr (λ _, None) None
         (manager.initial string string)).1
    = ((manager.new string string None inr inr (λ _, None) None
          (manager.initial string string)).1,
       inr self)
    ∧ manager.get_sync_session string string self
        (manager.new string string None inr inr (λ _, None) None
           (manager.initial string string)).1
      = ((manager.new string string None inr inr (λ _, None) None
            (manager.initial string string)).1,
         inl (manager.AttributeError
                "'DatabaseSessionManager' object has no attribute 'SessionLocal'")).
Proof.
  destruct (X26_failed_construction_is_kept string string None inr inr (λ _, None)
              (manager.initial string string)
              (manager.new string string None inr inr (λ _, None) None
                 (manager.initial string string)).1
              None
              (manager.ValueError
                 "Database URL is not set. Please provide DATABASE_URL environment variable."))
    as (self & Hagain & Hsession & _).
  - reflexivity.
  - reflexivity.
  - exists self. split; [apply Hagain | exact Hsession].
Defined.
